(** * go-tuf: key decoding and signature algorithms

    A shallow embedding of the packages [pkg/key] (decoding of TUF key
    records into native key objects) and [pkg/signatures] (the Ed25519 and
    ECDSA signers and the algorithm registry), followed by the properties
    established about them.

    Conventions of the embedding:
    - a Go [int] is a [Z]; [a / b] and [a % b] are [Z.quot] and [Z.rem];
    - a [[]byte] is a [list byte]; a nil slice and an empty slice are both [[]];
    - a pointer that may be nil is an [option];
    - a Go function returning [(value, error)] returns a pair whose second
      component is an [option error] ([None] is the nil error);
    - a call that may panic returns a [result];
    - the functions of the Go standard library that the code calls are the
      fields of the class [GoStd]; the code is embedded over an arbitrary
      instance, and [GoRef] (further down) is an executable reference
      instance used to run the code on concrete inputs. *)

From Stdlib Require Import ZArith List Bool Lia.
From Stdlib Require Import Strings.String Strings.Byte.
From stdpp Require Import base gmap strings.
From Bignums Require Import BigZ.
Import ListNotations.

Local Open Scope string_scope.
Local Open Scope list_scope.
Local Open Scope Z_scope.

(** ** Go runtime prelude *)

Abbreviation bytes := (list byte).

#[global] Instance byte_eq_dec : EqDecision byte := Byte.byte_eq_dec.

(** [len(s)] *)
Definition len {A : Type} (s : list A) : Z := Z.of_nat (length s).

(** The value of a byte as an integer, and the byte of an integer modulo 256. *)
Definition byte_to_Z (b : byte) : Z := Z.of_N (Byte.to_N b).

Definition byte_of_Z (z : Z) : byte :=
  match Byte.of_N (Z.to_N (z mod 256)) with
  | Some b => b
  | None => x00
  end.

(** A call either returns or panics. *)
Inductive result (A : Type) : Type :=
| Returns (a : A)
| Panics.
Arguments Returns {A} a.
Arguments Panics {A}.

(** Error values.  The four sentinels are the package-level variables of
    [api.go]; [errors_New] is a fresh [errors.New] value; [fmt_Errorf] keeps
    the format string and the rendered operands of its [%q] and [%T] verbs;
    [fmt_Errorf_w] is a [fmt.Errorf] whose format ends in [%w] and keeps the
    wrapped error as well; [std_error] is an error created inside the
    standard library. *)
Inductive error : Type :=
| ErrInvalidKey
| ErrInvalidArgument
| ErrHashUnavailable
| ErrInvalidSignature
| errors_New (text : string)
| fmt_Errorf (format : string) (operands : list string)
| fmt_Errorf_w (format : string) (operands : list string) (wrapped : error)
| std_error (text : string).

Inductive sentinel : Type :=
| IsInvalidKey | IsInvalidArgument | IsHashUnavailable | IsInvalidSignature.

(** [errors.Is(err, target)] for a sentinel target: walks the [%w] chain and
    compares by identity. *)
Fixpoint errors_Is (err : error) (target : sentinel) : bool :=
  match err, target with
  | ErrInvalidKey, IsInvalidKey => true
  | ErrInvalidArgument, IsInvalidArgument => true
  | ErrHashUnavailable, IsHashUnavailable => true
  | ErrInvalidSignature, IsInvalidSignature => true
  | fmt_Errorf_w _ _ inner, _ => errors_Is inner target
  | _, _ => false
  end.

(** [io.Reader] values used by the code: a reader over a byte slice
    ([bytes.NewReader]) and the process-wide entropy source ([rand.Reader]). *)
Inductive io_Reader : Type :=
| bytes_NewReader (content : bytes)
| rand_Reader.

(** [io.LimitReader(r, n)]: reads from [r] and stops with EOF after [n] bytes. *)
Definition io_LimitReader (r : io_Reader) (n : Z) : io_Reader :=
  match r with
  | bytes_NewReader content => bytes_NewReader (firstn (Z.to_nat n) content)
  | rand_Reader => rand_Reader
  end.

(** ** math/big and crypto/subtle *)

(** A [*big.Int]; [None] is the nil pointer. *)
Abbreviation bigInt := (option Z).

(** [big.NewInt(0).SetBytes(buf)]: [buf] read as a big-endian unsigned integer. *)
Definition big_SetBytes (buf : bytes) : Z :=
  fold_left (fun acc b => acc * 256 + byte_to_Z b) buf 0.

(** The [n] low-order base-256 digits of [x], most significant first. *)
Fixpoint big_endian (n : nat) (x : Z) : bytes :=
  match n with
  | O => []
  | S n' => big_endian n' (x / 256) ++ [byte_of_Z x]
  end.

(** [x.FillBytes(buf)] for a buffer of [n] bytes: the absolute value of [x]
    zero-extended to [n] big-endian bytes; panics when it does not fit. *)
Definition big_FillBytes (x : Z) (n : nat) : result bytes :=
  if Z.abs x <? 256 ^ Z.of_nat n then Returns (big_endian n (Z.abs x)) else Panics.

(** [a.Cmp(b)] *)
Definition big_Cmp (a b : Z) : Z :=
  match Z.compare a b with
  | Lt => -1
  | Eq => 0
  | Gt => 1
  end.

(** [subtle.ConstantTimeCompare(x, y)]: 1 when the slices have equal
    contents, 0 otherwise (and 0 at once when the lengths differ). *)
Definition subtle_ConstantTimeCompare (x y : bytes) : Z :=
  if bool_decide (x = y) then 1 else 0.

(** ** crypto, crypto/elliptic, crypto/ecdsa: data *)

(** [crypto.Hash]: the identifiers the code names. [Hash0] is [crypto.Hash(0)]. *)
Inductive crypto_Hash : Type := Hash0 | SHA256 | SHA384.

(** [elliptic.CurveParams] *)
Record CurveParams : Type := {
  P : Z; N : Z; B : Z; Gx : Z; Gy : Z;
  BitSize : Z;
  CurveName : string
}.

(** An [elliptic.Curve] interface value; [None] is the nil interface.
    [Params()] of a non-nil curve is the record itself. *)
Abbreviation Curve := (option CurveParams).

(** [elliptic.P256().Params()] *)
Definition P256_params : CurveParams := {|
  P := 0xffffffff00000001000000000000000000000000ffffffffffffffffffffffff;
  N := 0xffffffff00000000ffffffffffffffffbce6faada7179e84f3b9cac2fc632551;
  B := 0x5ac635d8aa3a93e7b3ebbd55769886bc651d06b0cc53b0f63bce3c3e27d2604b;
  Gx := 0x6b17d1f2e12c4247f8bce6e563a440f277037d812deb33a0f4a13945d898c296;
  Gy := 0x4fe342e2fe1a7f9b8ee7eb4a7c0f9e162bce33576b315ececbb6406837bf51f5;
  BitSize := 256;
  CurveName := "P-256"
|}.

(** [elliptic.P384().Params()] *)
Definition P384_params : CurveParams := {|
  P := 0xfffffffffffffffffffffffffffffffffffffffffffffffffffffffffffffffeffffffff0000000000000000ffffffff;
  N := 0xffffffffffffffffffffffffffffffffffffffffffffffffc7634d81f4372ddf581a0db248b0a77aecec196accc52973;
  B := 0xb3312fa7e23ee7e4988e056be3f82d19181d9c6efe8141120314088f5013875ac656398d8a2ed19d2a85c8edd3ec2aef;
  Gx := 0xaa87ca22be8b05378eb1c71ef320ad746e1d3b628ba79b9859f741e082542a385502f25dbf55296c3a545e3872760ab7;
  Gy := 0x3617de4a96262c6f5d9e98bf9292dc29f8f41dbd289a147ce9da3113b5f0b8c00a60b1ce1d7e819d7a431d7c90ea0e5f;
  BitSize := 384;
  CurveName := "P-384"
|}.

Definition elliptic_P256 : Curve := Some P256_params.
Definition elliptic_P384 : Curve := Some P384_params.

(** [ecdsa.PublicKey] and [ecdsa.PrivateKey] (which embeds its public key). *)
Record ecdsa_PublicKey : Type := {
  PubCurve : Curve;
  X : bigInt;
  Y : bigInt
}.

Record ecdsa_PrivateKey : Type := {
  PublicKey : ecdsa_PublicKey;
  D : bigInt
}.

Definition ed25519_PublicKeySize : Z := 32.
Definition ed25519_PrivateKeySize : Z := 64.
Definition ed25519_SeedSize : Z := 32.

(** ** Dynamic key values

    The [interface{}] values that the decoder returns and that [Sign] and
    [Verify] receive.  A constructor per dynamic type the code switches on;
    a pointer constructor carries [None] for a typed nil pointer. *)
Inductive any : Type :=
| nil_any
| ptr_ecdsa_PrivateKey (p : option ecdsa_PrivateKey)
| val_ecdsa_PrivateKey (k : ecdsa_PrivateKey)
| ptr_ecdsa_PublicKey (p : option ecdsa_PublicKey)
| val_ecdsa_PublicKey (k : ecdsa_PublicKey)
| ptr_ed25519_PrivateKey (p : option bytes)
| val_ed25519_PrivateKey (k : bytes)
| ptr_ed25519_PublicKey (p : option bytes)
| val_ed25519_PublicKey (k : bytes)
| val_other (type_name : string).

(** The rendering of [%T]. *)
Definition type_name_of (v : any) : string :=
  match v with
  | nil_any => "<nil>"
  | ptr_ecdsa_PrivateKey _ => "*ecdsa.PrivateKey"
  | val_ecdsa_PrivateKey _ => "ecdsa.PrivateKey"
  | ptr_ecdsa_PublicKey _ => "*ecdsa.PublicKey"
  | val_ecdsa_PublicKey _ => "ecdsa.PublicKey"
  | ptr_ed25519_PrivateKey _ => "*ed25519.PrivateKey"
  | val_ed25519_PrivateKey _ => "ed25519.PrivateKey"
  | ptr_ed25519_PublicKey _ => "*ed25519.PublicKey"
  | val_ed25519_PublicKey _ => "ed25519.PublicKey"
  | val_other n => n
  end.

(** ** Package key: the decoded envelope *)

(** [type jsonKeyPair struct { Public []byte; Private *[]byte }] *)
Record jsonKeyPair : Type := {
  Public : bytes;
  Private : option bytes
}.

(** ** The standard-library functions the code calls *)

Class GoStd : Type := {
  (** [json.NewDecoder(r).Decode(&key)] for [key] a zero [jsonKeyPair]:
      the decoded struct, or the decoder's error. *)
  json_Decode : io_Reader -> jsonKeyPair + error;
  (** [elliptic.Unmarshal(curve, data)]; [None] when it returns a nil [x]. *)
  elliptic_Unmarshal : CurveParams -> bytes -> option (Z * Z);
  (** [elliptic.UnmarshalCompressed(curve, data)]; [None] for a nil [x]. *)
  elliptic_UnmarshalCompressed : CurveParams -> bytes -> option (Z * Z);
  (** [curve.IsOnCurve(x, y)] *)
  Curve_IsOnCurve : CurveParams -> Z -> Z -> bool;
  (** [curve.ScalarBaseMult(k)] *)
  Curve_ScalarBaseMult : CurveParams -> bytes -> Z * Z;
  (** [ed25519.GenerateKey(rand)]: public key, private key, error. *)
  ed25519_GenerateKey : io_Reader -> (bytes * bytes) + error;
  (** [priv.Sign(rand, message, crypto.Hash(0))] for an [ed25519.PrivateKey]
      of [PrivateKeySize] bytes. *)
  ed25519_PrivateKey_Sign : bytes -> io_Reader -> bytes -> crypto_Hash -> bytes + error;
  (** [ed25519.Verify(publicKey, message, sig)] for a public key of
      [PublicKeySize] bytes. *)
  ed25519_Verify : bytes -> bytes -> bytes -> bool;
  (** [ecdsa.Sign(rand, priv, hash)]: [(r, s)] or an error. *)
  ecdsa_Sign : io_Reader -> ecdsa_PrivateKey -> bytes -> result ((Z * Z) + error);
  (** [ecdsa.Verify(pub, hash, r, s)] *)
  ecdsa_Verify : ecdsa_PublicKey -> bytes -> Z -> Z -> result bool;
  (** [h.Available()] *)
  Hash_Available : crypto_Hash -> bool;
  (** [hasher := h.New(); hasher.Write(msg); hasher.Sum(nil)].  The [Write]
      of a [hash.Hash] never returns an error. *)
  Hash_Sum : crypto_Hash -> bytes -> bytes
}.

(** ** Package data (not among the sources) *)

(** The key-type constants of package [data] that the decoder switches on.
    They are constants of one Go [switch], so they are pairwise distinct
    (a duplicate constant case does not compile). *)
Class TufData : Type := {
  KeyTypeEd25519 : string;
  KeyTypeECDSA_SHA2_P256 : string;
  KeyTypeRSASSA_PSS_SHA256 : string;
  KeyType_distinct :
    NoDup [KeyTypeEd25519; KeyTypeECDSA_SHA2_P256; KeyTypeRSASSA_PSS_SHA256]
}.

(** [data.PrivateKey] and [data.PublicKey]: the two fields the decoder reads,
    the type discriminator and the JSON value. *)
Record data_PrivateKey : Type := {
  PrivateKey_Type : string;
  PrivateKey_Value : bytes
}.

Record data_PublicKey : Type := {
  PublicKey_Type : string;
  PublicKey_Value : bytes
}.

(** The table of low-order Ed25519 points behind [isEdLowOrder]; the file
    that declares it is not among the sources. *)
Class LowOrderTable : Type := {
  edLowOrderPoints : list bytes
}.

(** ** Package key *)

(** [MaxKeyInputSize] defines the maximum processing length. *)
Definition MaxKeyInputSize : Z := 1024 * 1024.

(** A failed decode: [return nil, err]. *)
Definition failed (err : error) : any * option error := (nil_any, Some err).

Section Key.
Context `{Std : GoStd} `{Data : TufData} `{Table : LowOrderTable}.

(** Modelled from the spec: [isEdLowOrder], whose file is not among the
    sources.  The spec has the decoder "reject if the public key is one of
    the known low-order points (a small fixed blacklist)". *)
Definition isEdLowOrder (pub : bytes) : bool :=
  existsb (fun point => bool_decide (point = pub)) edLowOrderPoints.

Definition curveByteSize (params : CurveParams) : Z :=
  let bitSize := BitSize params in
  let byteSize := Z.quot bitSize 8 in
  if negb (Z.rem bitSize 8 =? 0) then byteSize + 1 else byteSize.

Definition unmarshalEd25519Key (raw : option jsonKeyPair) : any * option error :=
  match raw with
  | None => failed (errors_New "key: nil decoded key components")
  | Some raw =>
    (* Validate public key length *)
    if negb (len (Public raw) =? ed25519_PublicKeySize) then
      failed (errors_New "key: unexpected public key length for ed25519 key")
    (* Check for low order public key *)
    else if isEdLowOrder (Public raw) then
      failed (errors_New "key: the public key is blacklisted")
    else
      (* Check private key *)
      match Private raw with
      | None => (val_ed25519_PublicKey (Public raw), None)
      | Some private =>
        (* Validate private key length *)
        if negb (len private =? ed25519_PrivateKeySize) then
          failed (errors_New "key: unexpected public key length for ed25519 key")
        else
          (* Generate public key from private key *)
          match ed25519_GenerateKey (bytes_NewReader private) with
          | inr err =>
            failed (fmt_Errorf_w
                      "key: unable to derive public key from private key: %w" [] err)
          | inl (pub, _) =>
            (* Compare keys *)
            if negb (subtle_ConstantTimeCompare (Public raw) pub =? 1) then
              failed (errors_New "key: public and private keys doesn't match")
            else (val_ed25519_PrivateKey private, None)
          end
      end
  end.

Definition unmarshalECDSAKey (raw : option jsonKeyPair) : any * option error :=
  match raw with
  | None => failed (errors_New "key: nil decoded key components")
  | Some raw =>
    (* TUF only support P-256 curve *)
    let curve := P256_params in
    (* Get expected length *)
    let byteSize := curveByteSize curve in
    match Public raw with
    | [] => failed (errors_New "key: invalid public key size")
    | first :: _ =>
      (* Select unmarshalling according to data first byte *)
      let tag := byte_to_Z first in
      let decoded :=
        if (tag =? 2) || (tag =? 3) then
          inl (elliptic_UnmarshalCompressed curve (Public raw))
        else if tag =? 4 then
          inl (elliptic_Unmarshal curve (Public raw))
        else
          inr (errors_New "key: unsupported ecdsa public key encoding") in
      match decoded with
      | inr err => failed err
      | inl None => failed (errors_New "key: unable to decode ecdsa public key")
      | inl (Some (x, y)) =>
        (* Check point *)
        if negb (Curve_IsOnCurve curve x y) then
          failed (errors_New
                    "key: ecdsa public key point is not on the associated curve")
        else
          let pub := {| PubCurve := Some curve; X := Some x; Y := Some y |} in
          match Private raw with
          | None =>
            (* No private key defined: return public key *)
            (ptr_ecdsa_PublicKey (Some pub), None)
          | Some private =>
            (* Check private key length *)
            if negb (len private =? byteSize) then
              failed (errors_New
                        "key: invalid ecdsa private key length for the associated curve")
            else
              (* Load private key *)
              let d := big_SetBytes private in
              (* Compute public key *)
              let '(dx, dy) := Curve_ScalarBaseMult curve private in
              if negb (big_Cmp dx x =? 0) || negb (big_Cmp dy y =? 0) then
                failed (errors_New "key: public and private keys doesn't match")
              else
                (* Return private key *)
                (ptr_ecdsa_PrivateKey
                   (Some {| PublicKey := pub; D := Some d |}), None)
          end
      end
    end
  end.

Definition unmarshalRSAKey (raw : option jsonKeyPair) : any * option error :=
  match raw with
  | None => failed (errors_New "key: nil decoded key components")
  | Some _ => (nil_any, None)
  end.

Definition FromPrivateKey (tufPk : option data_PrivateKey) : any * option error :=
  match tufPk with
  | None => failed (errors_New "key: invalid private key object")
  | Some tufPk =>
    (* Try to decode the json value. *)
    match json_Decode (io_LimitReader (bytes_NewReader (PrivateKey_Value tufPk))
                                      MaxKeyInputSize) with
    | inr err =>
      failed (fmt_Errorf_w "key: unable to decode the key components: %w" [] err)
    | inl key =>
      (* Select appropriate decoding strategy *)
      let type := PrivateKey_Type tufPk in
      if String.eqb type KeyTypeEd25519 then unmarshalEd25519Key (Some key)
      else if String.eqb type KeyTypeECDSA_SHA2_P256 then unmarshalECDSAKey (Some key)
      else if String.eqb type KeyTypeRSASSA_PSS_SHA256 then unmarshalRSAKey (Some key)
      (* Default to error *)
      else failed (fmt_Errorf "key: unsupported private key type %q" [type])
    end
  end.

Definition FromPublicKey (tufPk : option data_PublicKey) : any * option error :=
  match tufPk with
  | None => failed (errors_New "key: invalid public key object")
  | Some tufPk =>
    (* Try to decode the json value. *)
    match json_Decode (io_LimitReader (bytes_NewReader (PublicKey_Value tufPk))
                                      MaxKeyInputSize) with
    | inr err =>
      failed (fmt_Errorf_w "key: unable to decode the key components: %w" [] err)
    | inl key =>
      (* Select appropriate decoding strategy *)
      let type := PublicKey_Type tufPk in
      if String.eqb type KeyTypeEd25519 then unmarshalEd25519Key (Some key)
      else if String.eqb type KeyTypeECDSA_SHA2_P256 then unmarshalECDSAKey (Some key)
      else if String.eqb type KeyTypeRSASSA_PSS_SHA256 then unmarshalRSAKey (Some key)
      (* Default to error *)
      else failed (fmt_Errorf "key: unsupported public key type %q" [type])
    end
  end.

End Key.

(** ** Package signatures: api.go *)

(** [SignOptions] defines the signing operation options. *)
Record SignOptions : Type := {
  (** Randomness source used by signer implementation. *)
  randSource : io_Reader
}.

(** A [SignOption] is a function on a pointer to [SignOptions]: its effect on
    the options struct. *)
Definition SignOption : Type := SignOptions -> SignOptions.

(** [withSignRandomSource] sets the randomness source. *)
Definition withSignRandomSource (r : io_Reader) : SignOption :=
  fun _ => {| randSource := r |}.

(** [return nil, err] of a [Sign], and [return err] of a [Verify]. *)
Definition sign_failed (err : error) : result (bytes * option error) :=
  Returns ([], Some err).

Definition verify_failed (err : error) : result (option error) :=
  Returns (Some err).

(** The [Algorithm] interface: [Signer], [Verifier] and [Name]. *)
Class Algorithm (T : Type) : Type := {
  Name : T -> string;
  Sign : T -> bytes -> any -> list SignOption -> result (bytes * option error);
  Verify : T -> bytes -> bytes -> any -> result (option error)
}.

(** ** Package signatures: ecdsa.go *)

Record ecdsaSigner : Type := {
  name : string;
  hash : crypto_Hash;
  curveBits : Z;
  keySize : Z
}.

(** [ed25519Signer] is an empty struct. *)
Inductive ed25519Signer : Type := mk_ed25519Signer.

Section Signers.
Context `{Std : GoStd}.

Definition ecdsaSigner_Name (m : ecdsaSigner) : string := name m.

Definition ecdsaSigner_Sign (m : ecdsaSigner) (msg : bytes) (key : any)
    (opts : list SignOption) : result (bytes * option error) :=
  (* Check arguments *)
  if len msg =? 0 then
    sign_failed (fmt_Errorf_w "ecdsa: provided msg is nil or empty: %w" []
                              ErrInvalidArgument)
  else if (match key with nil_any => true | _ => false end) then
    sign_failed (fmt_Errorf_w "ecdsa: provided key is nil: %w" [] ErrInvalidKey)
  else
    (* Check key type *)
    let selected :=
      match key with
      | ptr_ecdsa_PrivateKey k => inl k
      | val_ecdsa_PrivateKey k => inl (Some k)
      | _ =>
        inr (fmt_Errorf_w "ecdsa: unsupported private key type (%T): %w"
                          [type_name_of key] ErrInvalidKey)
      end in
    match selected with
    | inr err => sign_failed err
    | inl None => Panics (* pk.Curve through a nil pointer *)
    | inl (Some pk) =>
      match PubCurve (PublicKey pk) with
      | None => Panics (* Params() of a nil Curve *)
      | Some params =>
        (* Check the key and signer curve size match. *)
        let curveBits' := BitSize params in
        if negb (curveBits m =? curveBits') then
          sign_failed (fmt_Errorf_w
            "ecdsa: can't use the provided key with this signer instance, curve mismatch: %w"
            [] ErrInvalidKey)
        else
          (* Prepare default settings, apply functional options *)
          let dopts := fold_left (fun d o => o d) opts {| randSource := rand_Reader |} in
          (* Create the hasher *)
          if negb (Hash_Available (hash m)) then sign_failed ErrHashUnavailable
          else
            (* Create protected content hash *)
            let digest := Hash_Sum (hash m) msg in
            (* Sign the string and return r, s *)
            match ecdsa_Sign (randSource dopts) pk digest with
            | Panics => Panics
            | Returns (inl (r, s)) =>
              let keyBytes := Z.quot curveBits' 8 in
              let keyBytes := if Z.rem curveBits' 8 >? 0 then keyBytes + 1 else keyBytes in
              (* out := make([]byte, 2*keyBytes) *)
              if 2 * keyBytes <? 0 then Panics
              else
                (* r fills out[0:keyBytes], s fills out[keyBytes:] *)
                match big_FillBytes r (Z.to_nat keyBytes),
                      big_FillBytes s (Z.to_nat (2 * keyBytes - keyBytes)) with
                | Returns r_bytes, Returns s_bytes => Returns (r_bytes ++ s_bytes, None)
                | _, _ => Panics
                end
            (* Default to invalid signature error *)
            | Returns (inr _) => sign_failed ErrInvalidSignature
            end
      end
    end.

(** Verify the given msg and signature match. *)
Definition ecdsaSigner_Verify (m : ecdsaSigner) (msg signature : bytes) (key : any)
    : result (option error) :=
  (* Check arguments *)
  if len msg =? 0 then
    verify_failed (fmt_Errorf_w "ecdsa: provided msg is nil or empty: %w" []
                                ErrInvalidArgument)
  else if len signature =? 0 then
    verify_failed (fmt_Errorf_w "ecdsa: provided signature is nil or empty: %w" []
                                ErrInvalidArgument)
  else if (match key with nil_any => true | _ => false end) then
    verify_failed (fmt_Errorf_w "ecdsa: provided key is nil: %w" [] ErrInvalidKey)
  else
    (* Check key type *)
    let selected :=
      match key with
      | ptr_ecdsa_PublicKey k => inl k
      | val_ecdsa_PublicKey k => inl (Some k)
      | _ =>
        inr (fmt_Errorf_w "ecdsa: unsupported public key type (%T): %w"
                          [type_name_of key] ErrInvalidKey)
      end in
    match selected with
    | inr err => verify_failed err
    | inl None => Panics (* pub.Curve through a nil pointer *)
    | inl (Some pub) =>
      match PubCurve pub with
      | None => Panics (* Params() of a nil Curve *)
      | Some params =>
        (* Check the key and signer curve size match. *)
        let curveBits' := BitSize params in
        if negb (curveBits m =? curveBits') then
          verify_failed (fmt_Errorf_w
            "ecdsa: can't use the provided key with this signer instance, curve mismatch: %w"
            [] ErrInvalidKey)
        (* Validate signature size *)
        else if negb (len signature =? 2 * keySize m) then
          verify_failed (fmt_Errorf_w "ecdsa: invalid signature length: %w" []
                                      ErrInvalidSignature)
        else
          (* Extract components *)
          let r := big_SetBytes (firstn (Z.to_nat (keySize m)) signature) in
          let s := big_SetBytes (skipn (Z.to_nat (keySize m)) signature) in
          (* Create the hasher *)
          if negb (Hash_Available (hash m)) then verify_failed ErrHashUnavailable
          else
            (* Create protected content hash *)
            let digest := Hash_Sum (hash m) msg in
            (* Verify the signature *)
            match ecdsa_Verify pub digest r s with
            | Panics => Panics
            | Returns true => Returns None
            (* Default to error *)
            | Returns false => verify_failed ErrInvalidSignature
            end
      end
    end.

#[global] Instance ecdsaSigner_Algorithm : Algorithm ecdsaSigner := {|
  Name := ecdsaSigner_Name;
  Sign := ecdsaSigner_Sign;
  Verify := ecdsaSigner_Verify
|}.

(** ** Package signatures: ed25519.go *)

Definition ed25519Signer_Name (m : ed25519Signer) : string := "ed25519".

Definition ed25519Signer_Sign (m : ed25519Signer) (msg : bytes) (key : any)
    (opts : list SignOption) : result (bytes * option error) :=
  (* Check arguments *)
  if len msg =? 0 then
    sign_failed (fmt_Errorf_w "ed25519: provided msg is nil or empty: %w" []
                              ErrInvalidArgument)
  else if (match key with nil_any => true | _ => false end) then
    sign_failed (fmt_Errorf_w "ed25519: provided key is nil: %w" [] ErrInvalidKey)
  else
    (* Check key type *)
    let selected :=
      match key with
      | ptr_ed25519_PrivateKey k => inl k
      | val_ed25519_PrivateKey k => inl (Some k)
      | _ =>
        inr (fmt_Errorf_w "ed25519: unsupported private key type (%T): %w"
                          [type_name_of key] ErrInvalidKey)
      end in
    match selected with
    | inr err => sign_failed err
    | inl None => Panics (* dereference of a nil pointer *)
    | inl (Some pk) =>
      (* Check key length *)
      if negb (len pk =? ed25519_PrivateKeySize) then
        sign_failed (fmt_Errorf_w "ed25519: invalid key size: %w" [] ErrInvalidKey)
      else
        (* Prepare default settings, apply functional options *)
        let dopts := fold_left (fun d o => o d) opts {| randSource := rand_Reader |} in
        (* Sign with the key *)
        match ed25519_PrivateKey_Sign pk (randSource dopts) msg Hash0 with
        | inr err =>
          sign_failed (fmt_Errorf_w "ed25519: unable to sign payload: %w" [] err)
        | inl sig => Returns (sig, None)
        end
    end.

(** Verify the given msg and signature match. *)
Definition ed25519Signer_Verify (m : ed25519Signer) (msg signature : bytes) (key : any)
    : result (option error) :=
  (* Check arguments *)
  if len msg =? 0 then
    verify_failed (fmt_Errorf_w "ed25519: provided msg is nil or empty: %w" []
                                ErrInvalidArgument)
  else if len signature =? 0 then
    verify_failed (fmt_Errorf_w "ed25519: provided signature is nil or empty: %w" []
                                ErrInvalidArgument)
  else if (match key with nil_any => true | _ => false end) then
    verify_failed (fmt_Errorf_w "ed25519: provided key is nil: %w" [] ErrInvalidKey)
  else
    (* Check key type *)
    let selected :=
      match key with
      | ptr_ed25519_PublicKey k => inl k
      | val_ed25519_PublicKey k => inl (Some k)
      | _ =>
        inr (fmt_Errorf_w "ed25519: unsupported public key type (%T): %w"
                          [type_name_of key] ErrInvalidKey)
      end in
    match selected with
    | inr err => verify_failed err
    | inl None => Panics (* dereference of a nil pointer *)
    | inl (Some pub) =>
      (* Check key length *)
      if negb (len pub =? ed25519_PublicKeySize) then
        verify_failed (fmt_Errorf_w "ed25519: invalid key size: %w" [] ErrInvalidKey)
      (* Validate the signature *)
      else if negb (ed25519_Verify pub msg signature) then
        verify_failed ErrInvalidSignature
      (* No error *)
      else Returns None
    end.

#[global] Instance ed25519Signer_Algorithm : Algorithm ed25519Signer := {|
  Name := ed25519Signer_Name;
  Sign := ed25519Signer_Sign;
  Verify := ed25519Signer_Verify
|}.

End Signers.

(** ** Package signatures: registry.go

    The registry is process-wide mutable state, and the registered builders
    return pointers to signer structs, so the embedding threads an explicit
    program state: a heap of allocated signer structs, the three
    package-level [Algorithm] variables, and the contents of the [sync.Map]. *)

Definition loc : Type := positive.

Inductive object : Type :=
| obj_ed25519Signer (v : ed25519Signer)
| obj_ecdsaSigner (v : ecdsaSigner).

(** An [Algorithm] interface value: nil, or a pointer to a signer struct. *)
Inductive AlgorithmValue : Type :=
| nil_Algorithm
| ptr_ed25519Signer (l : loc)
| ptr_ecdsaSigner (l : loc).

Record Memory : Type := {
  heap : gmap loc object;
  Ed25519 : AlgorithmValue;
  ECDSA_P256_SHA256 : AlgorithmValue;
  ECDSA_P384_SHA384 : AlgorithmValue
}.

(** [Builder] defines signer algorithm implementation builder contract:
    [type Builder func() Algorithm].  [None] is the nil function; a non-nil
    builder is run against the memory, which it may read and extend. *)
Definition Builder : Type := option (Memory -> result (AlgorithmValue * Memory)).

(** A value stored in the [sync.Map]: a [Builder], or a value of another
    dynamic type. *)
Inductive stored : Type :=
| stored_Builder (b : Builder)
| stored_other.

Record State : Type := {
  memory : Memory;
  registry : gmap string stored
}.

(** The state before any package initialisation: [var registry = sync.Map{}]
    and three nil [Algorithm] variables. *)
Definition initial_State : State := {|
  memory := {| heap := ∅;
               Ed25519 := nil_Algorithm;
               ECDSA_P256_SHA256 := nil_Algorithm;
               ECDSA_P384_SHA384 := nil_Algorithm |};
  registry := ∅
|}.

(** [&T{...}]: a new struct at an address that was not allocated before. *)
Definition new (o : object) (m : Memory) : loc * Memory :=
  let l := fresh (dom (heap m)) in
  (l, {| heap := <[l := o]> (heap m);
         Ed25519 := Ed25519 m;
         ECDSA_P256_SHA256 := ECDSA_P256_SHA256 m;
         ECDSA_P384_SHA384 := ECDSA_P384_SHA384 m |}).

Definition set_Ed25519 (a : AlgorithmValue) (m : Memory) : Memory :=
  {| heap := heap m; Ed25519 := a;
     ECDSA_P256_SHA256 := ECDSA_P256_SHA256 m;
     ECDSA_P384_SHA384 := ECDSA_P384_SHA384 m |}.

Definition set_ECDSA_P256_SHA256 (a : AlgorithmValue) (m : Memory) : Memory :=
  {| heap := heap m; Ed25519 := Ed25519 m;
     ECDSA_P256_SHA256 := a;
     ECDSA_P384_SHA384 := ECDSA_P384_SHA384 m |}.

Definition set_ECDSA_P384_SHA384 (a : AlgorithmValue) (m : Memory) : Memory :=
  {| heap := heap m; Ed25519 := Ed25519 m;
     ECDSA_P256_SHA256 := ECDSA_P256_SHA256 m;
     ECDSA_P384_SHA384 := a |}.

(** Sequencing of calls that may panic. *)
#[global] Instance result_bind : MBind result :=
  fun A B k r =>
    match r with
    | Returns a => k a
    | Panics => Panics
    end.

(** [a.Name()] on an interface value: a method call through nil panics; the
    [ed25519Signer] method does not read its receiver; the [ecdsaSigner]
    method reads [m.name]. *)
Definition Algorithm_Name (mem : Memory) (a : AlgorithmValue) : result string :=
  match a with
  | nil_Algorithm => Panics
  | ptr_ed25519Signer _ => Returns (ed25519Signer_Name mk_ed25519Signer)
  | ptr_ecdsaSigner l =>
    match heap mem !! l with
    | Some (obj_ecdsaSigner m) => Returns (ecdsaSigner_Name m)
    | _ => Panics
    end
  end.

(** [RegisterAlgorithm] in the signer implementation registry. *)
Definition RegisterAlgorithm (name : string) (b : Builder) (st : State) : State :=
  {| memory := memory st;
     registry := <[name := stored_Builder b]> (registry st) |}.

(** [GetAlgorithm] returns a signer instance or nil if name doesn't match. *)
Definition GetAlgorithm (name : string) (st : State) : result (AlgorithmValue * State) :=
  match registry st !! name with
  | Some (stored_Builder b) =>
    match b with
    | Some run =>
      '(alg, mem) ← run (memory st);
      Returns (alg, {| memory := mem; registry := registry st |})
    | None => Panics (* call of a nil function *)
    end
  (* No builder found *)
  | _ => Returns (nil_Algorithm, st)
  end.

(** The two [ecdsaSigner] literals of [init]. *)
Definition ecdsaSigner_P256 : ecdsaSigner :=
  {| name := "ecdsa-sha2-nistp256"; hash := SHA256; keySize := 32; curveBits := 256 |}.

Definition ecdsaSigner_P384 : ecdsaSigner :=
  {| name := "ecdsa-sha384-nistp384"; hash := SHA384; keySize := 48; curveBits := 384 |}.

(** The three function literals of [init]: each returns the current value
    of a package-level variable. *)
Definition builder_Ed25519 : Builder :=
  Some (fun mem => Returns (Ed25519 mem, mem)).

Definition builder_ECDSA_P256_SHA256 : Builder :=
  Some (fun mem => Returns (ECDSA_P256_SHA256 mem, mem)).

Definition builder_ECDSA_P384_SHA384 : Builder :=
  Some (fun mem => Returns (ECDSA_P384_SHA384 mem, mem)).

Definition init (st : State) : result State :=
  (* Ed25519 *)
  let '(l, mem) := new (obj_ed25519Signer mk_ed25519Signer) (memory st) in
  let mem := set_Ed25519 (ptr_ed25519Signer l) mem in
  n ← Algorithm_Name mem (Ed25519 mem);
  let st := RegisterAlgorithm n builder_Ed25519
              {| memory := mem; registry := registry st |} in
  (* ECDSA Algorithms *)
  let '(l, mem) := new (obj_ecdsaSigner ecdsaSigner_P256) (memory st) in
  let mem := set_ECDSA_P256_SHA256 (ptr_ecdsaSigner l) mem in
  n ← Algorithm_Name mem (ECDSA_P256_SHA256 mem);
  let st := RegisterAlgorithm n builder_ECDSA_P256_SHA256
              {| memory := mem; registry := registry st |} in
  let '(l, mem) := new (obj_ecdsaSigner ecdsaSigner_P384) (memory st) in
  let mem := set_ECDSA_P384_SHA384 (ptr_ecdsaSigner l) mem in
  n ← Algorithm_Name mem (ECDSA_P384_SHA384 mem);
  Returns (RegisterAlgorithm n builder_ECDSA_P384_SHA384
             {| memory := mem; registry := registry st |}).

(** An algorithm value is freshly constructed by a call when the struct it
    points to was allocated by that call: its address is not in the heap
    the call started from. *)
Definition freshly_constructed (before : Memory) (a : AlgorithmValue) : Prop :=
  match a with
  | nil_Algorithm => False
  | ptr_ed25519Signer l | ptr_ecdsaSigner l => heap before !! l = None
  end.

(** [GetAlgorithms] returns the registered signer names.  [Range] visits the
    entries in no particular order; the embedding lists them in the order
    in which the map enumerates them, and nothing below depends on it. *)
Definition GetAlgorithms (st : State) : list string :=
  (map_to_list (registry st)).*1.

(** [a.Sign(msg, key, opts...)] and [a.Verify(msg, signature, key)] on an
    interface value: a method call through nil panics, and a pointer to a
    signer struct selects the methods of that struct. *)
Definition Algorithm_Sign `{Std : GoStd} (mem : Memory) (a : AlgorithmValue)
    (msg : bytes) (key : any) (opts : list SignOption) : result (bytes * option error) :=
  match a with
  | nil_Algorithm => Panics
  | ptr_ed25519Signer _ => Sign mk_ed25519Signer msg key opts
  | ptr_ecdsaSigner l =>
    match heap mem !! l with
    | Some (obj_ecdsaSigner m) => Sign m msg key opts
    | _ => Panics
    end
  end.

Definition Algorithm_Verify `{Std : GoStd} (mem : Memory) (a : AlgorithmValue)
    (msg signature : bytes) (key : any) : result (option error) :=
  match a with
  | nil_Algorithm => Panics
  | ptr_ed25519Signer _ => Verify mk_ed25519Signer msg signature key
  | ptr_ecdsaSigner l =>
    match heap mem !! l with
    | Some (obj_ecdsaSigner m) => Verify m msg signature key
    | _ => Panics
    end
  end.

(** * Reference models of the standard-library functions

    Executable definitions of the functions behind [GoStd], used to run the
    embedded code on concrete inputs.  Field arithmetic is done on [bigZ],
    which evaluates quickly, and converted to [Z] at the interface. *)

(** ** SHA-2 (FIPS 180-4) *)

Record sha2_params : Type := {
  word_bits : Z;
  block_bytes : nat;
  length_bytes : nat;
  digest_bytes : nat;
  round_constants : list Z;
  big_sigma0 : Z * Z * Z;
  big_sigma1 : Z * Z * Z;
  small_sigma0 : Z * Z * Z;
  small_sigma1 : Z * Z * Z
}.

Definition sha512_K : list Z := [
    0x428a2f98d728ae22; 0x7137449123ef65cd; 0xb5c0fbcfec4d3b2f; 0xe9b5dba58189dbbc;
    0x3956c25bf348b538; 0x59f111f1b605d019; 0x923f82a4af194f9b; 0xab1c5ed5da6d8118;
    0xd807aa98a3030242; 0x12835b0145706fbe; 0x243185be4ee4b28c; 0x550c7dc3d5ffb4e2;
    0x72be5d74f27b896f; 0x80deb1fe3b1696b1; 0x9bdc06a725c71235; 0xc19bf174cf692694;
    0xe49b69c19ef14ad2; 0xefbe4786384f25e3; 0x0fc19dc68b8cd5b5; 0x240ca1cc77ac9c65;
    0x2de92c6f592b0275; 0x4a7484aa6ea6e483; 0x5cb0a9dcbd41fbd4; 0x76f988da831153b5;
    0x983e5152ee66dfab; 0xa831c66d2db43210; 0xb00327c898fb213f; 0xbf597fc7beef0ee4;
    0xc6e00bf33da88fc2; 0xd5a79147930aa725; 0x06ca6351e003826f; 0x142929670a0e6e70;
    0x27b70a8546d22ffc; 0x2e1b21385c26c926; 0x4d2c6dfc5ac42aed; 0x53380d139d95b3df;
    0x650a73548baf63de; 0x766a0abb3c77b2a8; 0x81c2c92e47edaee6; 0x92722c851482353b;
    0xa2bfe8a14cf10364; 0xa81a664bbc423001; 0xc24b8b70d0f89791; 0xc76c51a30654be30;
    0xd192e819d6ef5218; 0xd69906245565a910; 0xf40e35855771202a; 0x106aa07032bbd1b8;
    0x19a4c116b8d2d0c8; 0x1e376c085141ab53; 0x2748774cdf8eeb99; 0x34b0bcb5e19b48a8;
    0x391c0cb3c5c95a63; 0x4ed8aa4ae3418acb; 0x5b9cca4f7763e373; 0x682e6ff3d6b2b8a3;
    0x748f82ee5defb2fc; 0x78a5636f43172f60; 0x84c87814a1f0ab72; 0x8cc702081a6439ec;
    0x90befffa23631e28; 0xa4506cebde82bde9; 0xbef9a3f7b2c67915; 0xc67178f2e372532b;
    0xca273eceea26619c; 0xd186b8c721c0c207; 0xeada7dd6cde0eb1e; 0xf57d4f7fee6ed178;
    0x06f067aa72176fba; 0x0a637dc5a2c898a6; 0x113f9804bef90dae; 0x1b710b35131c471b;
    0x28db77f523047d84; 0x32caab7b40c72493; 0x3c9ebe0a15c9bebc; 0x431d67c49c100d4c;
    0x4cc5d4becb3e42b6; 0x597f299cfc657e2a; 0x5fcb6fab3ad6faec; 0x6c44198c4a475817 ].

Definition sha512_IV : list Z := [
    0x6a09e667f3bcc908; 0xbb67ae8584caa73b; 0x3c6ef372fe94f82b; 0xa54ff53a5f1d36f1;
    0x510e527fade682d1; 0x9b05688c2b3e6c1f; 0x1f83d9abfb41bd6b; 0x5be0cd19137e2179 ].

Definition sha384_IV : list Z := [
    0xcbbb9d5dc1059ed8; 0x629a292a367cd507; 0x9159015a3070dd17; 0x152fecd8f70e5939;
    0x67332667ffc00b31; 0x8eb44a8768581511; 0xdb0c2e0d64f98fa7; 0x47b5481dbefa4fa4 ].

(** The 32-bit constants of SHA-256 are the upper halves of the 64-bit
    constants of SHA-512: both are leading fraction bits of the same roots. *)
Definition sha256_K : list Z := map (fun k => Z.shiftr k 32) (firstn 64 sha512_K).

Definition sha256_IV : list Z := map (fun h => Z.shiftr h 32) sha512_IV.

Definition sha256_params : sha2_params := {|
  word_bits := 32; block_bytes := 64; length_bytes := 8; digest_bytes := 32;
  round_constants := sha256_K;
  big_sigma0 := (2, 13, 22); big_sigma1 := (6, 11, 25);
  small_sigma0 := (7, 18, 3); small_sigma1 := (17, 19, 10)
|}.

Definition sha512_params (digest : nat) : sha2_params := {|
  word_bits := 64; block_bytes := 128; length_bytes := 16; digest_bytes := digest;
  round_constants := sha512_K;
  big_sigma0 := (28, 34, 39); big_sigma1 := (14, 18, 41);
  small_sigma0 := (1, 8, 7); small_sigma1 := (19, 61, 6)
|}.

Section SHA2.
Variable prm : sha2_params.

Definition word_mask : Z := 2 ^ word_bits prm - 1.
Definition wadd (a b : Z) : Z := Z.land (a + b) word_mask.
Definition rotr (n x : Z) : Z :=
  Z.land (Z.lor (Z.shiftr x n) (Z.shiftl x (word_bits prm - n))) word_mask.

Definition Sigma (c : Z * Z * Z) (x : Z) : Z :=
  let '(r1, r2, r3) := c in Z.lxor (Z.lxor (rotr r1 x) (rotr r2 x)) (rotr r3 x).
Definition sigma (c : Z * Z * Z) (x : Z) : Z :=
  let '(r1, r2, s3) := c in Z.lxor (Z.lxor (rotr r1 x) (rotr r2 x)) (Z.shiftr x s3).
Definition Ch (x y z : Z) : Z :=
  Z.lxor (Z.land x y) (Z.land (Z.lxor x word_mask) z).
Definition Maj (x y z : Z) : Z :=
  Z.lxor (Z.lxor (Z.land x y) (Z.land x z)) (Z.land y z).

(** Split a byte string into chunks of [n] bytes ([fuel] bounds the number
    of chunks). *)
Fixpoint chunks (fuel n : nat) (data : bytes) : list bytes :=
  match fuel, data with
  | O, _ | _, [] => []
  | S fuel', _ => firstn n data :: chunks fuel' n (skipn n data)
  end.

(** The message schedule, newest word first: [count] more words after the
    sixteen words of the block. *)
Fixpoint extend_schedule (count : nat) (recent : list Z) : list Z :=
  match count with
  | O => recent
  | S count' =>
    let w := wadd (wadd (sigma (small_sigma1 prm) (nth 1 recent 0)) (nth 6 recent 0))
                  (wadd (sigma (small_sigma0 prm) (nth 14 recent 0)) (nth 15 recent 0)) in
    extend_schedule count' (w :: recent)
  end.

Definition sha2_round (st : list Z) (kw : Z * Z) : list Z :=
  match st with
  | [a; b; c; d; e; f; g; h] =>
    let t1 := wadd (wadd (wadd h (Sigma (big_sigma1 prm) e)) (Ch e f g))
                   (wadd (fst kw) (snd kw)) in
    let t2 := wadd (Sigma (big_sigma0 prm) a) (Maj a b c) in
    [wadd t1 t2; a; b; c; wadd d t1; e; f; g]
  | _ => st
  end.

Definition sha2_block (st : list Z) (block : bytes) : list Z :=
  let word_bytes := Z.to_nat (word_bits prm / 8) in
  let w16 := map big_SetBytes (chunks 16 word_bytes block) in
  let ws := rev (extend_schedule (length (round_constants prm) - 16) (rev w16)) in
  let st' := fold_left sha2_round (combine (round_constants prm) ws) st in
  map (fun p => wadd (fst p) (snd p)) (combine st st').

Definition sha2_pad (msg : bytes) : bytes :=
  let n := length msg in
  let used := ((n + 1 + length_bytes prm) mod block_bytes prm)%nat in
  let zeros := ((block_bytes prm - used) mod block_bytes prm)%nat in
  msg ++ [x80] ++ repeat x00 zeros
      ++ big_endian (length_bytes prm) (8 * Z.of_nat n).

Definition sha2 (iv : list Z) (msg : bytes) : bytes :=
  let padded := sha2_pad msg in
  let st := fold_left sha2_block
                      (chunks (length padded) (block_bytes prm) padded) iv in
  firstn (digest_bytes prm)
         (concat (map (big_endian (Z.to_nat (word_bits prm / 8))) st)).
End SHA2.

Definition sha256 : bytes -> bytes := sha2 sha256_params sha256_IV.
Definition sha384 : bytes -> bytes := sha2 (sha512_params 48) sha384_IV.
Definition sha512 : bytes -> bytes := sha2 (sha512_params 64) sha512_IV.

(** ** Prime-field arithmetic on [bigZ] *)

Definition fmod (m a : bigZ) : bigZ := BigZ.modulo a m.
Definition fadd (m a b : bigZ) : bigZ := fmod m (BigZ.add a b).
Definition fsub (m a b : bigZ) : bigZ := fmod m (BigZ.sub a b).
Definition fmul (m a b : bigZ) : bigZ := fmod m (BigZ.mul a b).

Fixpoint fpow_pos (m a : bigZ) (e : positive) : bigZ :=
  match e with
  | xH => fmod m a
  | xO e' => let t := fpow_pos m a e' in fmul m t t
  | xI e' => let t := fpow_pos m a e' in fmul m (fmul m t t) a
  end.

Definition fpow (m a : bigZ) (e : Z) : bigZ :=
  match e with
  | Zpos e' => fpow_pos m a e'
  | _ => 1%bigZ
  end.

(** The inverse modulo a prime [m] (0 for 0). *)
Definition finv (m a : bigZ) : bigZ := fpow m a (BigZ.to_Z m - 2).

(** ** crypto/elliptic: the curves y² = x³ - 3x + b *)

Section Weierstrass.
Variable curve : CurveParams.

Definition curve_p : bigZ := BigZ.of_Z (P curve).

(** [(curve.Params().BitSize + 7) / 8] *)
Definition curve_byteLen : nat := Z.to_nat ((BitSize curve + 7) / 8).

(** [curve.IsOnCurve(x, y)]: both coordinates reduced, and the curve
    equation y² = x³ - 3x + b modulo p. *)
Definition ref_IsOnCurve (x y : Z) : bool :=
  (0 <=? x) && (x <? P curve) && (0 <=? y) && (y <? P curve)
  && ((y * y) mod P curve =? (x * x * x - 3 * x + B curve) mod P curve).

(** Jacobian coordinates; [z = 0] is the point at infinity. *)
Definition jacobian : Type := bigZ * bigZ * bigZ.

Definition jac_infinity : jacobian := (1, 1, 0)%bigZ.

Definition jac_of_affine (pt : Z * Z) : jacobian :=
  (BigZ.of_Z (fst pt), BigZ.of_Z (snd pt), 1%bigZ).

Definition jac_double (pt : jacobian) : jacobian :=
  let '(x1, y1, z1) := pt in
  let m := curve_p in
  let delta := fmul m z1 z1 in
  let gamma := fmul m y1 y1 in
  let beta := fmul m x1 gamma in
  let alpha := fmod m (3 * ((x1 - delta) * (x1 + delta)))%bigZ in
  let x3 := fmod m (alpha * alpha - 8 * beta)%bigZ in
  let z3 := fmod m ((y1 + z1) * (y1 + z1) - gamma - delta)%bigZ in
  let y3 := fmod m (alpha * (4 * beta - x3) - 8 * fmul m gamma gamma)%bigZ in
  (x3, y3, z3).

Definition jac_add (p1 p2 : jacobian) : jacobian :=
  let '(x1, y1, z1) := p1 in
  let '(x2, y2, z2) := p2 in
  let m := curve_p in
  if BigZ.eqb z1 0%bigZ then p2
  else if BigZ.eqb z2 0%bigZ then p1
  else
    let z1z1 := fmul m z1 z1 in
    let z2z2 := fmul m z2 z2 in
    let u1 := fmul m x1 z2z2 in
    let u2 := fmul m x2 z1z1 in
    let s1 := fmul m y1 (fmul m z2 z2z2) in
    let s2 := fmul m y2 (fmul m z1 z1z1) in
    let h := fsub m u2 u1 in
    let r := fsub m s2 s1 in
    if BigZ.eqb h 0%bigZ then
      if BigZ.eqb r 0%bigZ then jac_double p1 else jac_infinity
    else
      let hh := fmul m h h in
      let hhh := fmul m h hh in
      let v := fmul m u1 hh in
      let x3 := fmod m (r * r - hhh - 2 * v)%bigZ in
      let y3 := fmod m (r * (v - x3) - fmul m s1 hhh)%bigZ in
      let z3 := fmul m h (fmul m z1 z2) in
      (x3, y3, z3).

Fixpoint jac_mul_pos (k : positive) (pt : jacobian) : jacobian :=
  match k with
  | xH => pt
  | xO k' => jac_double (jac_mul_pos k' pt)
  | xI k' => jac_add (jac_double (jac_mul_pos k' pt)) pt
  end.

Definition jac_mul (k : Z) (pt : jacobian) : jacobian :=
  match k with
  | Zpos k' => jac_mul_pos k' pt
  | _ => jac_infinity
  end.

(** Back to affine coordinates; the point at infinity is returned as
    (0, 0), as the library does. *)
Definition jac_to_affine (pt : jacobian) : Z * Z :=
  let '(x, y, z) := pt in
  let m := curve_p in
  if BigZ.eqb (fmod m z) 0%bigZ then (0, 0)
  else
    let zi := finv m z in
    let zi2 := fmul m zi zi in
    (BigZ.to_Z (fmul m x zi2), BigZ.to_Z (fmul m y (fmul m zi zi2))).

(** [curve.ScalarBaseMult(k)]: [k] is a big-endian scalar. *)
Definition ref_ScalarBaseMult (k : bytes) : Z * Z :=
  jac_to_affine (jac_mul (big_SetBytes k mod N curve)
                         (jac_of_affine (Gx curve, Gy curve))).

(** [elliptic.Unmarshal]: the uncompressed form, tag 4 then x then y. *)
Definition ref_Unmarshal (data : bytes) : option (Z * Z) :=
  match data with
  | tag :: rest =>
    if negb (length data =? 1 + 2 * curve_byteLen)%nat then None
    else if negb (byte_to_Z tag =? 4) then None
    else
      let x := big_SetBytes (firstn curve_byteLen rest) in
      let y := big_SetBytes (skipn curve_byteLen rest) in
      if (P curve <=? x) || (P curve <=? y) then None
      else if negb (ref_IsOnCurve x y) then None
      else Some (x, y)
  | [] => None
  end.

(** [y.ModSqrt(y, p)] for a prime p = 3 mod 4, which both curves have. *)
Definition ref_ModSqrt (a : Z) : option Z :=
  let m := curve_p in
  let root := fpow m (BigZ.of_Z a) ((P curve + 1) / 4) in
  if BigZ.eqb (fmul m root root) (fmod m (BigZ.of_Z a))
  then Some (BigZ.to_Z root) else None.

(** [elliptic.UnmarshalCompressed]: tag 2 or 3 (the parity of y) then x. *)
Definition ref_UnmarshalCompressed (data : bytes) : option (Z * Z) :=
  match data with
  | tag :: rest =>
    if negb (length data =? 1 + curve_byteLen)%nat then None
    else if negb (byte_to_Z tag =? 2) && negb (byte_to_Z tag =? 3) then None
    else
      let x := big_SetBytes rest in
      if P curve <=? x then None
      else
        match ref_ModSqrt ((x * x * x - 3 * x + B curve) mod P curve) with
        | None => None
        | Some y =>
          let y := if negb (Bool.eqb (Z.odd y) (Z.odd (byte_to_Z tag)))
                   then (- y) mod P curve else y in
          if negb (ref_IsOnCurve x y) then None else Some (x, y)
        end
  | [] => None
  end.
End Weierstrass.

(** ** Readers *)

(** [io.ReadFull(r, buf)] for a buffer of [n] bytes: the bytes read, or
    [None] when the reader ends early.  The entropy source is modelled by a
    constant stream, which makes the reference signers deterministic. *)
Definition ref_ReadFull (r : io_Reader) (n : nat) : option bytes :=
  match r with
  | bytes_NewReader content =>
    if (n <=? length content)%nat then Some (firstn n content) else None
  | rand_Reader => Some (repeat x2a n)
  end.

(** ** crypto/ecdsa *)

Section ECDSA.
Variable curve : CurveParams.

(** [hashToInt]: the leftmost bits of the digest, as many as the order has. *)
Definition ref_hashToInt (digest : bytes) : Z :=
  let orderBits := Z.log2 (N curve) + 1 in
  let orderBytes := (orderBits + 7) / 8 in
  let digest := firstn (Z.to_nat orderBytes) digest in
  let excess := len digest * 8 - orderBits in
  if 0 <? excess then Z.shiftr (big_SetBytes digest) excess else big_SetBytes digest.

(** The signing nonce: a value of [1, N-1] derived from 32 bytes of
    entropy, the private scalar and the digest.  (The library keys a
    stream cipher with the same three inputs; any nonce of that range
    yields a valid signature.) *)
Definition ref_nonce (entropy : bytes) (d : Z) (digest : bytes) : Z :=
  big_SetBytes (sha512 (entropy ++ big_endian (curve_byteLen curve) d ++ digest))
    mod (N curve - 1) + 1.

Definition ref_sign_with_nonce (k d : Z) (digest : bytes) : Z * Z :=
  let n := BigZ.of_Z (N curve) in
  let e := BigZ.of_Z (ref_hashToInt digest) in
  let '(x, _) := jac_to_affine curve
                   (jac_mul curve k (jac_of_affine (Gx curve, Gy curve))) in
  let r := fmod n (BigZ.of_Z x) in
  let s := fmul n (finv n (BigZ.of_Z k))
                  (fadd n e (fmul n r (BigZ.of_Z d))) in
  (BigZ.to_Z r, BigZ.to_Z s).

Definition ref_verify (qx qy : Z) (digest : bytes) (r s : Z) : bool :=
  if (r <=? 0) || (s <=? 0) || (N curve <=? r) || (N curve <=? s) then false
  else
    let n := BigZ.of_Z (N curve) in
    let e := BigZ.of_Z (ref_hashToInt digest) in
    let w := finv n (BigZ.of_Z s) in
    let u1 := BigZ.to_Z (fmul n e w) in
    let u2 := BigZ.to_Z (fmul n (BigZ.of_Z r) w) in
    let sum := jac_add curve
                 (jac_mul curve u1 (jac_of_affine (Gx curve, Gy curve)))
                 (jac_mul curve u2 (jac_of_affine (qx, qy))) in
    let '(_, _, z) := sum in
    if BigZ.eqb (fmod (curve_p curve) z) 0%bigZ then false
    else fst (jac_to_affine curve sum) mod N curve =? r.
End ECDSA.

(** [ecdsa.Sign]: panics on a key with a nil curve or a nil scalar. *)
Definition ref_ecdsa_Sign (rand : io_Reader) (priv : ecdsa_PrivateKey) (digest : bytes)
    : result ((Z * Z) + error) :=
  match PubCurve (PublicKey priv), D priv with
  | Some curve, Some d =>
    match ref_ReadFull rand 32 with
    | None => Returns (inr (std_error "unexpected EOF"))
    | Some entropy =>
      let '(r, s) := ref_sign_with_nonce curve (ref_nonce curve entropy d digest) d digest in
      if (r =? 0) || (s =? 0)
      then Returns (inr (std_error "ecdsa: zero parameter"))
      else Returns (inl (r, s))
    end
  | _, _ => Panics
  end.

(** [ecdsa.Verify]: panics on a key with a nil curve or nil coordinates. *)
Definition ref_ecdsa_Verify (pub : ecdsa_PublicKey) (digest : bytes) (r s : Z)
    : result bool :=
  match PubCurve pub, X pub, Y pub with
  | Some curve, Some qx, Some qy => Returns (ref_verify curve qx qy digest r s)
  | _, _, _ => Panics
  end.

(** ** crypto/ed25519 (RFC 8032) *)

Definition ed_p : bigZ := BigZ.of_Z (2 ^ 255 - 19).
Definition ed_L : Z := 2 ^ 252 + 27742317777372353535851937790883648493.

(** The curve constant d = -121665/121666. *)
Definition ed_d : bigZ :=
  fmul ed_p (fsub ed_p 0%bigZ 121665%bigZ) (finv ed_p 121666%bigZ).

Definition ed_2d : bigZ := fmul ed_p 2%bigZ ed_d.

(** Little-endian integers. *)
Definition le_to_Z (b : bytes) : Z := big_SetBytes (rev b).
Definition Z_to_le (n : nat) (x : Z) : bytes := rev (big_endian n x).

(** Extended coordinates (X : Y : Z : T) with x = X/Z, y = Y/Z, xy = T/Z. *)
Definition ed_point : Type := bigZ * bigZ * bigZ * bigZ.

Definition ed_identity : ed_point := (0, 1, 1, 0)%bigZ.

(** The unified addition law of the twisted Edwards curve -x² + y² = 1 + d x² y². *)
Definition ed_add (p1 p2 : ed_point) : ed_point :=
  let '(x1, y1, z1, t1) := p1 in
  let '(x2, y2, z2, t2) := p2 in
  let m := ed_p in
  let a := fmod m ((y1 - x1) * (y2 - x2))%bigZ in
  let b := fmod m ((y1 + x1) * (y2 + x2))%bigZ in
  let c := fmul m (fmul m t1 ed_2d) t2 in
  let d := fmod m (2 * (z1 * z2))%bigZ in
  let e := (b - a)%bigZ in
  let f := (d - c)%bigZ in
  let g := (d + c)%bigZ in
  let h := (b + a)%bigZ in
  (fmul m e f, fmul m g h, fmul m f g, fmul m e h).

Definition ed_neg (pt : ed_point) : ed_point :=
  let '(x, y, z, t) := pt in (fsub ed_p 0%bigZ x, y, z, fsub ed_p 0%bigZ t).

Fixpoint ed_mul_pos (k : positive) (pt : ed_point) : ed_point :=
  match k with
  | xH => pt
  | xO k' => let q := ed_mul_pos k' pt in ed_add q q
  | xI k' => let q := ed_mul_pos k' pt in ed_add (ed_add q q) pt
  end.

Definition ed_mul (k : Z) (pt : ed_point) : ed_point :=
  match k with
  | Zpos k' => ed_mul_pos k' pt
  | _ => ed_identity
  end.

(** The 32-byte encoding of a point: y little-endian, with the parity of x
    in the top bit. *)
Definition ed_encode (pt : ed_point) : bytes :=
  let '(x, y, z, _) := pt in
  let zi := finv ed_p z in
  let xa := BigZ.to_Z (fmul ed_p x zi) in
  let ya := BigZ.to_Z (fmul ed_p y zi) in
  Z_to_le 32 (ya + 2 ^ 255 * (xa mod 2)).

(** Decoding recovers x from x² = (y² - 1) / (d y² + 1); [None] when that
    is not a square. *)
Definition ed_decode (enc : bytes) : option ed_point :=
  let m := ed_p in
  let raw := le_to_Z enc in
  let sign := Z.odd (Z.shiftr raw 255) in
  let y := fmod m (BigZ.of_Z (Z.land raw (2 ^ 255 - 1))) in
  let yy := fmul m y y in
  let u := fsub m yy 1%bigZ in
  let v := fadd m (fmul m ed_d yy) 1%bigZ in
  let xx := fmul m u (finv m v) in
  (* p = 5 mod 8: a root is xx^((p+3)/8), possibly times sqrt(-1) *)
  let root := fpow m xx ((2 ^ 255 - 19 + 3) / 8) in
  let sqrt_m1 := fpow m 2%bigZ ((2 ^ 255 - 19 - 1) / 4) in
  let x :=
    if BigZ.eqb (fmul m root root) xx then Some root
    else let root' := fmul m root sqrt_m1 in
         if BigZ.eqb (fmul m root' root') xx then Some root' else None in
  match x with
  | None => None
  | Some x =>
    let x := if Bool.eqb (Z.odd (BigZ.to_Z x)) sign then x else fsub m 0%bigZ x in
    Some (x, y, 1%bigZ, fmul m x y)
  end.

(** The base point: y = 4/5, x even. *)
Definition ed_B : ed_point :=
  default ed_identity (ed_decode (x58 :: repeat x66 31)).

(** The secret scalar of a seed: the clamped first half of its SHA-512. *)
Definition ed_scalar (seed : bytes) : Z :=
  let h := le_to_Z (firstn 32 (sha512 seed)) in
  Z.lor (Z.land h (2 ^ 254 - 8)) (2 ^ 254).

(** [ed25519.NewKeyFromSeed(seed)]: the seed followed by its public key. *)
Definition ref_NewKeyFromSeed (seed : bytes) : bytes :=
  seed ++ ed_encode (ed_mul (ed_scalar seed) ed_B).

(** [ed25519.GenerateKey(rand)]: reads [SeedSize] bytes of [rand]. *)
Definition ref_GenerateKey (rand : io_Reader) : (bytes * bytes) + error :=
  match ref_ReadFull rand 32 with
  | None => inr (std_error "unexpected EOF")
  | Some seed =>
    let private := ref_NewKeyFromSeed seed in
    inl (skipn 32 private, private)
  end.

(** [ed25519.Sign(privateKey, message)].  The public key that enters the
    challenge hash is the second half of the private key. *)
Definition ref_ed25519_Sign (private message : bytes) : bytes :=
  let seed := firstn 32 private in
  let publicKey := skipn 32 private in
  let s := ed_scalar seed in
  let prefix := skipn 32 (sha512 seed) in
  let r := le_to_Z (sha512 (prefix ++ message)) mod ed_L in
  let R := ed_encode (ed_mul r ed_B) in
  let k := le_to_Z (sha512 (R ++ publicKey ++ message)) mod ed_L in
  R ++ Z_to_le 32 ((k * s + r) mod ed_L).

(** [priv.Sign(rand, message, opts)]: only [crypto.Hash(0)] selects the pure
    scheme that [ref_ed25519_Sign] implements. *)
Definition ref_PrivateKey_Sign (private : bytes) (rand : io_Reader) (message : bytes)
    (opts : crypto_Hash) : bytes + error :=
  match opts with
  | Hash0 => inl (ref_ed25519_Sign private message)
  | _ => inr (std_error "ed25519: cannot sign hashed message")
  end.

(** [ed25519.Verify(publicKey, message, sig)] *)
Definition ref_ed25519_Verify (publicKey message sig : bytes) : bool :=
  if negb (length sig =? 64)%nat then false
  else
    let S := le_to_Z (skipn 32 sig) in
    if ed_L <=? S then false
    else
      match ed_decode publicKey with
      | None => false
      | Some A =>
        let k := le_to_Z (sha512 (firstn 32 sig ++ publicKey ++ message)) mod ed_L in
        let R := ed_add (ed_mul k (ed_neg A)) (ed_mul S ed_B) in
        bool_decide (ed_encode R = firstn 32 sig)
      end.

(** ** encoding/base64: [StdEncoding] *)

(** The value of a character of the standard alphabet. *)
Definition base64_value (c : byte) : option Z :=
  let v := byte_to_Z c in
  if (0x41 <=? v) && (v <=? 0x5a) then Some (v - 0x41)            (* A-Z *)
  else if (0x61 <=? v) && (v <=? 0x7a) then Some (v - 0x61 + 26)  (* a-z *)
  else if (0x30 <=? v) && (v <=? 0x39) then Some (v - 0x30 + 52)  (* 0-9 *)
  else if v =? 0x2b then Some 62                                  (* + *)
  else if v =? 0x2f then Some 63                                  (* / *)
  else None.

(** Decoding of the input without its line breaks: quanta of four
    characters, padding only in the last one. *)
Fixpoint base64_quanta (fuel : nat) (s : bytes) : option bytes :=
  match fuel with
  | O => None
  | S fuel' =>
    match s with
    | [] => Some []
    | c1 :: c2 :: c3 :: c4 :: rest =>
      match base64_value c1, base64_value c2 with
      | Some v1, Some v2 =>
        match base64_value c3, base64_value c4 with
        | Some v3, Some v4 =>
          match base64_quanta fuel' rest with
          | Some tl =>
            let n := ((v1 * 64 + v2) * 64 + v3) * 64 + v4 in
            Some (big_endian 3 n ++ tl)
          | None => None
          end
        | Some v3, None =>
          if bool_decide (c4 = x3d) && bool_decide (rest = [])
          then Some (big_endian 2 (((v1 * 64 + v2) * 64 + v3) / 4))
          else None
        | None, _ =>
          if bool_decide (c3 = x3d) && bool_decide (c4 = x3d) && bool_decide (rest = [])
          then Some (big_endian 1 ((v1 * 64 + v2) / 16))
          else None
        end
      | _, _ => None
      end
    | _ => None
    end
  end.

(** [base64.StdEncoding.Decode]: carriage returns and line feeds are
    ignored; [None] is a [CorruptInputError]. *)
Definition base64_Decode (s : bytes) : option bytes :=
  let s := filter (fun c => negb (bool_decide (c = x0d) || bool_decide (c = x0a))) s in
  base64_quanta (S (length s)) s.

(** ** encoding/json *)

#[local] Unset Elimination Schemes.
Inductive json_value : Type :=
| JNull
| JBool (b : bool)
| JNumber (literal : bytes)
| JString (content : bytes)
| JArray (elements : list json_value)
| JObject (members : list (bytes * json_value)).
#[local] Set Elimination Schemes.

(** The outcome of reading a syntactic item from the front of the input. *)
Inductive parsed (A : Type) : Type :=
| Parsed (a : A) (rest : bytes)
| SyntaxError
| UnexpectedEOF.
Arguments Parsed {A} a rest.
Arguments SyntaxError {A}.
Arguments UnexpectedEOF {A}.

Definition is_space (c : byte) : bool :=
  match c with
  | x20 | x09 | x0a | x0d => true
  | _ => false
  end.

Fixpoint skip_space (s : bytes) : bytes :=
  match s with
  | c :: rest => if is_space c then skip_space rest else s
  | [] => []
  end.

Definition hex_value (c : byte) : option Z :=
  let v := byte_to_Z c in
  if (0x30 <=? v) && (v <=? 0x39) then Some (v - 0x30)
  else if (0x61 <=? v) && (v <=? 0x66) then Some (v - 0x61 + 10)
  else if (0x41 <=? v) && (v <=? 0x46) then Some (v - 0x41 + 10)
  else None.

Definition hex4 (a b c d : byte) : option Z :=
  match hex_value a, hex_value b, hex_value c, hex_value d with
  | Some va, Some vb, Some vc, Some vd => Some (((va * 16 + vb) * 16 + vc) * 16 + vd)
  | _, _, _, _ => None
  end.

(** [utf8.EncodeRune] *)
Definition utf8_encode (r : Z) : bytes :=
  if r <? 0x80 then [byte_of_Z r]
  else if r <? 0x800 then [byte_of_Z (0xc0 + r / 64); byte_of_Z (0x80 + r mod 64)]
  else if r <? 0x10000 then
    [byte_of_Z (0xe0 + r / 4096); byte_of_Z (0x80 + (r / 64) mod 64);
     byte_of_Z (0x80 + r mod 64)]
  else
    [byte_of_Z (0xf0 + r / 262144); byte_of_Z (0x80 + (r / 4096) mod 64);
     byte_of_Z (0x80 + (r / 64) mod 64); byte_of_Z (0x80 + r mod 64)].

Definition is_surrogate (r : Z) : bool := (0xd800 <=? r) && (r <? 0xe000).

(** The low surrogate of an escape that directly follows, if any. *)
Definition low_surrogate (s : bytes) : option Z :=
  match s with
  | x5c :: x75 :: a :: b :: c :: d :: _ =>
    match hex4 a b c d with
    | Some r => if (0xdc00 <=? r) && (r <? 0xe000) then Some r else None
    | None => None
    end
  | _ => None
  end.

(** A string literal after its opening quote, unquoted.  Bytes above 0x7f
    are copied as they are (the library re-encodes malformed UTF-8 as
    U+FFFD; such a string is neither a field name nor valid base64 either
    way). *)
Fixpoint parse_string (s acc : bytes) : parsed bytes :=
  match s with
  | [] => UnexpectedEOF
  | x22 :: rest => Parsed (rev acc) rest
  | x5c :: rest =>
    match rest with
    | [] => UnexpectedEOF
    | x22 :: rest' => parse_string rest' (x22 :: acc)
    | x5c :: rest' => parse_string rest' (x5c :: acc)
    | x2f :: rest' => parse_string rest' (x2f :: acc)
    | x62 :: rest' => parse_string rest' (x08 :: acc)
    | x66 :: rest' => parse_string rest' (x0c :: acc)
    | x6e :: rest' => parse_string rest' (x0a :: acc)
    | x72 :: rest' => parse_string rest' (x0d :: acc)
    | x74 :: rest' => parse_string rest' (x09 :: acc)
    | x75 :: rest' =>
      match rest' with
      | a :: b :: c :: d :: rest'' =>
        match hex4 a b c d with
        | None => SyntaxError
        | Some r =>
          if is_surrogate r then
            match (if r <? 0xdc00 then low_surrogate rest'' else None), rest'' with
            | Some lo, _ :: _ :: _ :: _ :: _ :: _ :: rest''' =>
              parse_string rest'''
                (rev (utf8_encode (0x10000 + (r - 0xd800) * 1024 + (lo - 0xdc00))) ++ acc)
            | _, _ => parse_string rest'' (rev (utf8_encode 0xfffd) ++ acc)
            end
          else parse_string rest'' (rev (utf8_encode r) ++ acc)
        end
      | _ => if forallb (fun c => match hex_value c with Some _ => true | None => false end) rest'
             then UnexpectedEOF else SyntaxError
      end
    | _ => SyntaxError
    end
  | c :: rest =>
    if byte_to_Z c <? 0x20 then SyntaxError else parse_string rest (c :: acc)
  end.

Definition is_digit (c : byte) : bool :=
  (0x30 <=? byte_to_Z c) && (byte_to_Z c <=? 0x39).

Fixpoint take_digits (s acc : bytes) : bytes * bytes :=
  match s with
  | c :: rest => if is_digit c then take_digits rest (c :: acc) else (rev acc, s)
  | [] => (rev acc, [])
  end.

(** A number literal: an optional minus sign, an integer part without
    leading zeros, an optional fraction and an optional exponent. *)
Definition parse_number (s : bytes) : parsed bytes :=
  let '(sign, s) := match s with x2d :: rest => ([x2d], rest) | _ => ([], s) end in
  let '(int_part, s') := take_digits s [] in
  match int_part with
  | [] => match s with [] => UnexpectedEOF | _ => SyntaxError end
  | d :: more =>
    let '(int_part, s') :=
      if bool_decide (d = x30) then ([x30], skipn 1 s) else (int_part, s') in
    let frac :=
      match s' with
      | x2e :: rest =>
        let '(digits, rest') := take_digits rest [] in
        match digits, rest with
        | [], [] => UnexpectedEOF
        | [], _ => SyntaxError
        | _, _ => Parsed (x2e :: digits) rest'
        end
      | _ => Parsed [] s'
      end in
    match frac with
    | Parsed frac_part s'' =>
      let exponent :=
        match s'' with
        | e :: rest =>
          if bool_decide (e = x65) || bool_decide (e = x45) then
            let '(esign, rest) :=
              match rest with
              | x2b :: r => ([x2b], r)
              | x2d :: r => ([x2d], r)
              | _ => ([], rest)
              end in
            let '(digits, rest') := take_digits rest [] in
            match digits, rest with
            | [], [] => UnexpectedEOF
            | [], _ => SyntaxError
            | _, _ => Parsed (e :: esign ++ digits) rest'
            end
          else Parsed [] s''
        | [] => Parsed [] []
        end in
      match exponent with
      | Parsed exp_part rest => Parsed (sign ++ int_part ++ frac_part ++ exp_part) rest
      | SyntaxError => SyntaxError
      | UnexpectedEOF => UnexpectedEOF
      end
    | SyntaxError => SyntaxError
    | UnexpectedEOF => UnexpectedEOF
    end
  end.

(** One of the literals [true], [false] and [null]. *)
Fixpoint parse_literal (word s : bytes) : parsed unit :=
  match word, s with
  | [], _ => Parsed tt s
  | _ :: _, [] => UnexpectedEOF
  | w :: word', c :: rest =>
    if bool_decide (w = c) then parse_literal word' rest else SyntaxError
  end.

Definition maxNestingDepth : Z := 10000.

(** The first JSON value of the input.  [fuel] bounds the recursion and is
    taken larger than the input is long. *)
Fixpoint parse_value (fuel : nat) (depth : Z) (s : bytes) : parsed json_value :=
  match fuel with
  | O => UnexpectedEOF
  | S fuel' =>
    match skip_space s with
    | [] => UnexpectedEOF
    | x7b :: rest =>                                         (* object *)
      if maxNestingDepth <? depth + 1 then SyntaxError
      else
        match skip_space rest with
        | x7d :: rest' => Parsed (JObject []) rest'
        | _ => parse_members fuel' (depth + 1) rest []
        end
    | x5b :: rest =>                                         (* array *)
      if maxNestingDepth <? depth + 1 then SyntaxError
      else
        match skip_space rest with
        | x5d :: rest' => Parsed (JArray []) rest'
        | _ => parse_elements fuel' (depth + 1) rest []
        end
    | x22 :: rest =>                                         (* string *)
      match parse_string rest [] with
      | Parsed content rest' => Parsed (JString content) rest'
      | SyntaxError => SyntaxError
      | UnexpectedEOF => UnexpectedEOF
      end
    | x74 :: _ =>
      match parse_literal (list_byte_of_string "true") (skip_space s) with
      | Parsed _ rest => Parsed (JBool true) rest
      | SyntaxError => SyntaxError
      | UnexpectedEOF => UnexpectedEOF
      end
    | x66 :: _ =>
      match parse_literal (list_byte_of_string "false") (skip_space s) with
      | Parsed _ rest => Parsed (JBool false) rest
      | SyntaxError => SyntaxError
      | UnexpectedEOF => UnexpectedEOF
      end
    | x6e :: _ =>
      match parse_literal (list_byte_of_string "null") (skip_space s) with
      | Parsed _ rest => Parsed JNull rest
      | SyntaxError => SyntaxError
      | UnexpectedEOF => UnexpectedEOF
      end
    | c :: _ =>
      if bool_decide (c = x2d) || is_digit c then
        match parse_number (skip_space s) with
        | Parsed literal rest => Parsed (JNumber literal) rest
        | SyntaxError => SyntaxError
        | UnexpectedEOF => UnexpectedEOF
        end
      else SyntaxError
    end
  end

with parse_members (fuel : nat) (depth : Z) (s : bytes) (acc : list (bytes * json_value))
    : parsed json_value :=
  match fuel with
  | O => UnexpectedEOF
  | S fuel' =>
    match skip_space s with
    | [] => UnexpectedEOF
    | x22 :: rest =>
      match parse_string rest [] with
      | Parsed key rest1 =>
        match skip_space rest1 with
        | [] => UnexpectedEOF
        | x3a :: rest2 =>
          match parse_value fuel' depth rest2 with
          | Parsed v rest3 =>
            match skip_space rest3 with
            | [] => UnexpectedEOF
            | x2c :: rest4 => parse_members fuel' depth rest4 (acc ++ [(key, v)])
            | x7d :: rest4 => Parsed (JObject (acc ++ [(key, v)])) rest4
            | _ => SyntaxError
            end
          | SyntaxError => SyntaxError
          | UnexpectedEOF => UnexpectedEOF
          end
        | _ => SyntaxError
        end
      | SyntaxError => SyntaxError
      | UnexpectedEOF => UnexpectedEOF
      end
    | _ => SyntaxError
    end
  end

with parse_elements (fuel : nat) (depth : Z) (s : bytes) (acc : list json_value)
    : parsed json_value :=
  match fuel with
  | O => UnexpectedEOF
  | S fuel' =>
    match parse_value fuel' depth s with
    | Parsed v rest =>
      match skip_space rest with
      | [] => UnexpectedEOF
      | x2c :: rest' => parse_elements fuel' depth rest' (acc ++ [v])
      | x5d :: rest' => Parsed (JArray (acc ++ [v])) rest'
      | _ => SyntaxError
      end
    | SyntaxError => SyntaxError
    | UnexpectedEOF => UnexpectedEOF
    end
  end.

(** *** Unmarshalling into a [jsonKeyPair] *)

Definition type_error (what : string) : error :=
  std_error ("json: cannot unmarshal " ++ what ++ " into Go value")%string.

(** [strconv.ParseUint(literal, 10, 64)] followed by the overflow check of a
    [uint8]. *)
Definition parse_uint8 (literal : bytes) : option byte :=
  if forallb is_digit literal && negb (bool_decide (literal = [])) then
    let n := fold_left (fun acc c => acc * 10 + (byte_to_Z c - 0x30)) literal 0 in
    if n <=? 255 then Some (byte_of_Z n) else None
  else None.

(** An array element stored into a [uint8]: a number that fits, or [null]
    (which leaves the zero value). *)
Definition unmarshal_uint8 (v : json_value) : option byte :=
  match v with
  | JNumber literal => parse_uint8 literal
  | JNull => Some x00
  | _ => None
  end.

Fixpoint unmarshal_uint8s (vs : list json_value) : option bytes :=
  match vs with
  | [] => Some []
  | v :: vs' =>
    match unmarshal_uint8 v, unmarshal_uint8s vs' with
    | Some b, Some bs => Some (b :: bs)
    | _, _ => None
    end
  end.

(** A value other than [null] stored into a [[]byte]: a string holds base64,
    an array holds the bytes themselves. *)
Definition unmarshal_byte_slice (v : json_value) : bytes + error :=
  match v with
  | JString content =>
    match base64_Decode content with
    | Some b => inl b
    | None => inr (std_error "illegal base64 data")
    end
  | JArray elements =>
    match unmarshal_uint8s elements with
    | Some b => inl b
    | None => inr (type_error "array element")
    end
  | JNull => inl []
  | JBool _ => inr (type_error "bool")
  | JNumber _ => inr (type_error "number")
  | JObject _ => inr (type_error "object")
  end.

Definition ascii_lower (c : byte) : byte :=
  let v := byte_to_Z c in
  if (0x41 <=? v) && (v <=? 0x5a) then byte_of_Z (v + 0x20) else c.

(** The struct field an object key selects: an exact match of the tag, or
    else a case-insensitive one. *)
Inductive field : Type := field_Public | field_Private.

Definition field_of_key (key : bytes) : option field :=
  let folded := map ascii_lower key in
  if bool_decide (folded = list_byte_of_string "public") then Some field_Public
  else if bool_decide (folded = list_byte_of_string "private") then Some field_Private
  else None.

(** One member of the object, applied to the struct decoded so far.  The
    first error is kept and decoding goes on, as the library does. *)
Definition unmarshal_member (st : jsonKeyPair * option error) (m : bytes * json_value)
    : jsonKeyPair * option error :=
  let '(kp, saved) := st in
  let save e := match saved with Some _ => saved | None => Some e end in
  match field_of_key (fst m) with
  | None => st
  | Some field_Public =>
    match unmarshal_byte_slice (snd m) with
    | inl b => ({| Public := b; Private := Private kp |}, saved)
    | inr e => (kp, save e)
    end
  | Some field_Private =>
    match snd m with
    | JNull => ({| Public := Public kp; Private := None |}, saved)
    | v =>
      match unmarshal_byte_slice v with
      | inl b => ({| Public := Public kp; Private := Some b |}, saved)
      | inr e => (kp, save e)
      end
    end
  end.

Definition unmarshal_jsonKeyPair (v : json_value) : jsonKeyPair + error :=
  let zero := {| Public := []; Private := None |} in
  match v with
  | JNull => inl zero
  | JObject members =>
    match fold_left unmarshal_member members (zero, None) with
    | (kp, None) => inl kp
    | (_, Some e) => inr e
    end
  | JBool _ => inr (type_error "bool")
  | JNumber _ => inr (type_error "number")
  | JString _ => inr (type_error "string")
  | JArray _ => inr (type_error "array")
  end.

(** [json.NewDecoder(r).Decode(&key)]: reads the first JSON value of the
    stream, whatever follows it, and unmarshals it. *)
Definition ref_json_Decode (r : io_Reader) : jsonKeyPair + error :=
  match r with
  | rand_Reader => inr (std_error "invalid character")
  | bytes_NewReader content =>
    match skip_space content with
    | [] => inr (std_error "EOF")
    | _ =>
      match parse_value (2 * length content + 2) 0 content with
      | Parsed v _ => unmarshal_jsonKeyPair v
      | SyntaxError => inr (std_error "invalid character")
      | UnexpectedEOF => inr (std_error "unexpected EOF")
      end
    end
  end.

(** ** The reference instances *)

(** [h.Available()]: package signatures links crypto/sha256, and the signing
    packages link crypto/sha512; [crypto.Hash(0)] is no hash. *)
Definition ref_Hash_Available (h : crypto_Hash) : bool :=
  match h with
  | Hash0 => false
  | SHA256 | SHA384 => true
  end.

Definition ref_Hash_Sum (h : crypto_Hash) (msg : bytes) : bytes :=
  match h with
  | Hash0 => []
  | SHA256 => sha256 msg
  | SHA384 => sha384 msg
  end.

#[global] Instance GoRef : GoStd := {|
  json_Decode := ref_json_Decode;
  elliptic_Unmarshal := ref_Unmarshal;
  elliptic_UnmarshalCompressed := ref_UnmarshalCompressed;
  Curve_IsOnCurve := ref_IsOnCurve;
  Curve_ScalarBaseMult := ref_ScalarBaseMult;
  ed25519_GenerateKey := ref_GenerateKey;
  ed25519_PrivateKey_Sign := ref_PrivateKey_Sign;
  ed25519_Verify := ref_ed25519_Verify;
  ecdsa_Sign := ref_ecdsa_Sign;
  ecdsa_Verify := ref_ecdsa_Verify;
  Hash_Available := ref_Hash_Available;
  Hash_Sum := ref_Hash_Sum
|}.

(** Bytes written in hexadecimal. *)
Fixpoint unhex (s : bytes) : bytes :=
  match s with
  | a :: b :: rest =>
    match hex_value a, hex_value b with
    | Some va, Some vb => byte_of_Z (va * 16 + vb) :: unhex rest
    | _, _ => []
    end
  | _ => []
  end.

Definition hex (s : string) : bytes := unhex (list_byte_of_string s).

(** A JSON text written with ['] for the double quote. *)
Definition json_text (s : string) : bytes :=
  map (fun c => if bool_decide (c = x27) then x22 else c) (list_byte_of_string s).

(** Modelled from the spec: the key-type constants of package [data], which
    is not among the sources.  The spec names the "recognized values
    ed25519, ecdsa-sha2-nistp256, rsassa-pss-sha256" of the type
    discriminator. *)
#[global] Instance SpecData : TufData := {|
  KeyTypeEd25519 := "ed25519";
  KeyTypeECDSA_SHA2_P256 := "ecdsa-sha2-nistp256";
  KeyTypeRSASSA_PSS_SHA256 := "rsassa-pss-sha256";
  KeyType_distinct :=
    ltac:(repeat (apply NoDup_cons; split;
                  [rewrite ?elem_of_cons, elem_of_nil; intuition discriminate|]);
          apply NoDup_nil_2)
|}.

(** Modelled from the spec: the table of "known low-order points (a small
    fixed blacklist)", whose file is not among the sources.  The instance
    lists the eight points of edwards25519 whose order divides 8, in their
    canonical encoding. *)
#[global] Instance SmallOrderTable : LowOrderTable := {|
  edLowOrderPoints := [
    hex "0100000000000000000000000000000000000000000000000000000000000000";
    hex "ecffffffffffffffffffffffffffffffffffffffffffffffffffffffffffff7f";
    hex "0000000000000000000000000000000000000000000000000000000000000000";
    hex "0000000000000000000000000000000000000000000000000000000000000080";
    hex "26e8958fc2b227b045c3f489f2ef98f0d5dfac05d3c63339b13802886d53fc05";
    hex "26e8958fc2b227b045c3f489f2ef98f0d5dfac05d3c63339b13802886d53fc85";
    hex "c7176a703d4dd84fba3c0b760d10670f2a2053fa2c39ccc64ec7fd7792ac037a";
    hex "c7176a703d4dd84fba3c0b760d10670f2a2053fa2c39ccc64ec7fd7792ac03fa" ]
|}.

(** A library whose [elliptic.Unmarshal] only splits the two coordinates
    and leaves the curve-membership check to its caller, as old releases of
    the library did; everything else is [GoRef]. *)
Definition lenient_Unmarshal (curve : CurveParams) (data : bytes) : option (Z * Z) :=
  match data with
  | tag :: rest =>
    if negb (length data =? 1 + 2 * curve_byteLen curve)%nat then None
    else if negb (byte_to_Z tag =? 4) then None
    else Some (big_SetBytes (firstn (curve_byteLen curve) rest),
               big_SetBytes (skipn (curve_byteLen curve) rest))
  | [] => None
  end.

Definition LenientStd : GoStd := {|
  json_Decode := ref_json_Decode;
  elliptic_Unmarshal := lenient_Unmarshal;
  elliptic_UnmarshalCompressed := ref_UnmarshalCompressed;
  Curve_IsOnCurve := ref_IsOnCurve;
  Curve_ScalarBaseMult := ref_ScalarBaseMult;
  ed25519_GenerateKey := ref_GenerateKey;
  ed25519_PrivateKey_Sign := ref_PrivateKey_Sign;
  ed25519_Verify := ref_ed25519_Verify;
  ecdsa_Sign := ref_ecdsa_Sign;
  ecdsa_Verify := ref_ecdsa_Verify;
  Hash_Available := ref_Hash_Available;
  Hash_Sum := ref_Hash_Sum
|}.

(** ** Vocabulary of the properties *)

(** A decode succeeded when it returned the nil error. *)
Definition succeeded (r : any * option error) : Prop := snd r = None.

(** The public key inside a decoded ECDSA key object. *)
Definition ecdsa_public_of (k : any) : option ecdsa_PublicKey :=
  match k with
  | ptr_ecdsa_PublicKey (Some pub) => Some pub
  | ptr_ecdsa_PrivateKey (Some priv) => Some (PublicKey priv)
  | _ => None
  end.



(** ** Test data of the repository *)

(** The seed, public key and private key of the Ed25519 tests. *)
Definition test_seed : bytes := list_byte_of_string "32-characters-deterministic-seed".

Definition test_public : bytes :=
  hex "9589642d1c890b452e3c4084aaa19405a0c78fca89f862e366ced34702a119c6".

Definition test_private : bytes := test_seed ++ test_public.

(** The two key records of [TestFromPrivateKey]. *)
Definition test_public_json : bytes :=
  json_text "{'public':'lYlkLRyJC0UuPECEqqGUBaDHj8qJ+GLjZs7TRwKhGcY='}".

Definition test_private_json : bytes :=
  json_text "{'public':'lYlkLRyJC0UuPECEqqGUBaDHj8qJ+GLjZs7TRwKhGcY=','private':'MzItY2hhcmFjdGVycy1kZXRlcm1pbmlzdGljLXNlZWSViWQtHIkLRS48QISqoZQFoMePyon4YuNmztNHAqEZxg=='}".

(** The signature of ["test"] in the Ed25519 tests. *)
Definition test_ed25519_signature : bytes :=
  hex "84fdeef9deb4f67a7f73bcd02e6874b4aa1d5891d84fa17830e40804e08b5c84ec2f50ccfef1cb6ca6b5d904eb4b7891b1ef38486f67b7ea4add98a6c6c1180b".

(** The ECDSA key of the tests, as [ecdsa.GenerateKey] derived it from the
    reader over the 64-character seed: the first 40 bytes, reduced into
    [1, N-1]. *)
Definition test_ecdsa_seed : bytes :=
  list_byte_of_string "64-characters-deterministic-seed-for-testing-purpose-00000000000".

Definition test_ecdsa_d : Z :=
  big_SetBytes (firstn 40 test_ecdsa_seed) mod (N P256_params - 1) + 1.

Definition test_ecdsa_point : Z * Z :=
  (0x9be996db25d693b5c593d6e5075ec8da503be15b6a9915dcd9c8f6518b4f7886,
   0xf934ea58db76a3d0a236a34ba102f199449c447fc9f3510e388439f7e1a65ac3).

Definition test_ecdsa_private : ecdsa_PrivateKey :=
  {| PublicKey := {| PubCurve := elliptic_P256;
                     X := Some (fst test_ecdsa_point);
                     Y := Some (snd test_ecdsa_point) |};
     D := Some test_ecdsa_d |}.

(** The signature of ["test"] in the ECDSA tests. *)
Definition test_ecdsa_signature : bytes :=
  hex "35e26737bf72fcf6ef08378b9279431ae6350da9a69f44bf5fe7fa157fd40aec4bde1a16fdf22ac88d8742e163308079e3d2b72173f87a82f4d99fce3476bc65".

Definition test_message : bytes := list_byte_of_string "test".

(** An Ed25519 private key whose first half is the test seed and whose
    second half is not the public key of that seed, and its key record
    (with the public key of the seed as declared public key). *)
Definition inconsistent_private : bytes := test_seed ++ repeat x00 32.

Definition inconsistent_private_json : bytes :=
  json_text "{'public':'lYlkLRyJC0UuPECEqqGUBaDHj8qJ+GLjZs7TRwKhGcY=','private':'MzItY2hhcmFjdGVycy1kZXRlcm1pbmlzdGljLXNlZWQAAAAAAAAAAAAAAAAAAAAAAAAAAAAAAAAAAAAAAAAAAA=='}".

(** The valid public-key record of the tests, followed by one mebibyte of
    spaces. *)
Definition oversized_value : bytes :=
  test_public_json ++ repeat x20 (Z.to_nat MaxKeyInputSize).

(** What both entry points do with a decoded envelope: the dispatch on the
    record's type, up to the text of the default error. *)
Definition dispatch `{Std : GoStd} `{Data : TufData} `{Table : LowOrderTable}
    (unsupported : string) (type : string) (key : jsonKeyPair) : any * option error :=
  if String.eqb type KeyTypeEd25519 then unmarshalEd25519Key (Some key)
  else if String.eqb type KeyTypeECDSA_SHA2_P256 then unmarshalECDSAKey (Some key)
  else if String.eqb type KeyTypeRSASSA_PSS_SHA256 then unmarshalRSAKey (Some key)
  else failed (fmt_Errorf unsupported [type]).

(** ECDSA key records: the P-256 base point in compressed form, alone and
    with its private scalar 1; the base point behind the unassigned tag 5;
    and the uncompressed encoding of (1, 1), which is not on the curve. *)
Definition base_point_json : bytes :=
  json_text "{'public':'A2sX0fLhLEJH+Lzm5WOkQPJ3A32BLeszoPShOUXYmMKW'}".


Definition bad_tag_json : bytes :=
  json_text "{'public':'BWsX0fLhLEJH+Lzm5WOkQPJ3A32BLeszoPShOUXYmMKWT+NC4v4af5uO5+tKfA+eFivOM1drMV7Oy7ZAaDe/UfU='}".

Definition off_curve_json : bytes :=
  json_text "{'public':'BAAAAAAAAAAAAAAAAAAAAAAAAAAAAAAAAAAAAAAAAAABAAAAAAAAAAAAAAAAAAAAAAAAAAAAAAAAAAAAAAAAAAE='}".

(** An Ed25519 key record whose public key is the all-zero encoding, a
    point of order 4. *)
Definition low_order_json : bytes :=
  json_text "{'public':'AAAAAAAAAAAAAAAAAAAAAAAAAAAAAAAAAAAAAAAAAAA='}".

(** ** Vocabulary of the signer properties *)

(** The ECDSA private key behind a key argument that [Sign] accepts, by
    pointer or by value. *)
Definition ecdsa_private_key_value (key : any) : option ecdsa_PrivateKey :=
  match key with
  | ptr_ecdsa_PrivateKey (Some k) | val_ecdsa_PrivateKey k => Some k
  | _ => None
  end.

(** The ECDSA public key behind a key argument that [Verify] accepts. *)
Definition ecdsa_public_key_value (key : any) : option ecdsa_PublicKey :=
  match key with
  | ptr_ecdsa_PublicKey (Some k) | val_ecdsa_PublicKey k => Some k
  | _ => None
  end.

Definition ed25519_private_key_value (key : any) : option bytes :=
  match key with
  | ptr_ed25519_PrivateKey (Some k) | val_ed25519_PrivateKey k => Some k
  | _ => None
  end.

Definition ed25519_public_key_value (key : any) : option bytes :=
  match key with
  | ptr_ed25519_PublicKey (Some k) | val_ed25519_PublicKey k => Some k
  | _ => None
  end.

(** The options a [Sign] call works with: the defaults, then each option
    applied in turn. *)
Definition apply_options (opts : list SignOption) : SignOptions :=
  fold_left (fun d o => o d) opts {| randSource := rand_Reader |}.

(** The two ECDSA algorithms that [init] registers. *)
Definition registered_ecdsa (m : ecdsaSigner) : Prop :=
  m = ecdsaSigner_P256 \/ m = ecdsaSigner_P384.

(** The pair (r, s) that the reference library signs ["test"] with under
    the ECDSA test key, and the signature that [Sign] makes of it. *)
Definition test_ecdsa_rs : Z * Z :=
  (0x845e0b8ab447a7ed3a35798fc5502207f12257a23d5960513d26a95962ee4de1,
   0x3d88320d63d5197640d06a9a9b48164b7076af56f1e73fd35397d33fbfefc433).

Definition test_ecdsa_own_signature : bytes :=
  hex "845e0b8ab447a7ed3a35798fc5502207f12257a23d5960513d26a95962ee4de13d88320d63d5197640d06a9a9b48164b7076af56f1e73fd35397d33fbfefc433".

(** The program state once [init] has run. *)
Definition initialised_State : State :=
  match init initial_State with
  | Returns st => st
  | Panics => initial_State
  end.

(** ** Vocabulary of the further properties *)

(** The key objects that a decode of a record of the given type returns
    without error: an Ed25519 key by value, with the length of its kind; a
    non-nil pointer to an ECDSA key on P-256 whose numbers are all set; and
    the nil key of the RSA decoder. *)
Definition key_form `{Data : TufData} (type : string) (k : any) : Prop :=
  match k with
  | val_ed25519_PublicKey pub => type = KeyTypeEd25519 /\ len pub = 32
  | val_ed25519_PrivateKey priv => type = KeyTypeEd25519 /\ len priv = 64
  | ptr_ecdsa_PublicKey (Some pub) =>
    type = KeyTypeECDSA_SHA2_P256
    /\ PubCurve pub = elliptic_P256 /\ is_Some (X pub) /\ is_Some (Y pub)
  | ptr_ecdsa_PrivateKey (Some priv) =>
    type = KeyTypeECDSA_SHA2_P256
    /\ PubCurve (PublicKey priv) = elliptic_P256
    /\ is_Some (X (PublicKey priv)) /\ is_Some (Y (PublicKey priv))
    /\ is_Some (D priv)
  | nil_any => type = KeyTypeRSASSA_PSS_SHA256
  | _ => False
  end.

(** The kinds of [api.go] that an error carries: the sentinels that
    [errors.Is] finds in it. *)
Definition error_kinds (e : error) : list sentinel :=
  filter (fun kind => errors_Is e kind = true)
         [IsInvalidArgument; IsInvalidKey; IsHashUnavailable; IsInvalidSignature].

(** An ECDSA signer for P-256 built with [crypto.Hash(0)], a hash that is
    never available. *)
Definition ecdsaSigner_without_hash : ecdsaSigner :=
  {| name := "ecdsa-nohash"; hash := Hash0; keySize := 32; curveBits := 256 |}.

(** The keys of the "invalid key curve mismatch" tests: nothing but the
    curve P-384. *)
Definition P384_public_stub : ecdsa_PublicKey :=
  {| PubCurve := elliptic_P384; X := None; Y := None |}.

Definition P384_private_stub : ecdsa_PrivateKey :=
  {| PublicKey := P384_public_stub; D := None |}.

(** The decoded envelope of the ECDSA test key: the public point in
    uncompressed form and the private scalar on 32 bytes. *)
Definition test_ecdsa_public_bytes : bytes :=
  x04 :: big_endian 32 (fst test_ecdsa_point) ++ big_endian 32 (snd test_ecdsa_point).

Definition test_ecdsa_envelope : jsonKeyPair :=
  {| Public := test_ecdsa_public_bytes; Private := Some (big_endian 32 test_ecdsa_d) |}.

Definition test_ecdsa_public_envelope : jsonKeyPair :=
  {| Public := test_ecdsa_public_bytes; Private := None |}.

(** The names under which [init] registers its three algorithms. *)
Definition registered_names : list string :=
  ["ed25519"; "ecdsa-sha2-nistp256"; "ecdsa-sha384-nistp384"].

(** * Properties *)

(** ** Bytes and big-endian integers *)

Lemma byte_to_Z_range (b : byte) : 0 <= byte_to_Z b < 256.
Proof.
  unfold byte_to_Z. pose proof (Byte.to_N_bounded b). lia.
Qed.

Lemma byte_to_of_Z (z : Z) : byte_to_Z (byte_of_Z z) = z mod 256.
Proof.
  unfold byte_to_Z, byte_of_Z.
  pose proof (Z.mod_pos_bound z 256 ltac:(lia)) as Hr.
  destruct (Byte.of_N (Z.to_N (z mod 256))) as [b|] eqn:E.
  - apply Byte.to_of_N in E. rewrite E. lia.
  - apply Byte.of_N_None_iff in E. lia.
Qed.

Lemma big_SetBytes_snoc (buf : bytes) (b : byte) :
  big_SetBytes (buf ++ [b]) = big_SetBytes buf * 256 + byte_to_Z b.
Proof. unfold big_SetBytes. rewrite fold_left_app. reflexivity. Qed.

Lemma big_endian_length (n : nat) (x : Z) : length (big_endian n x) = n.
Proof.
  revert x. induction n as [|n IH]; intros x; simpl; [reflexivity|].
  rewrite length_app, IH. simpl. lia.
Qed.

(** Reading back the [n] big-endian digits of [x] gives [x] modulo 256^n. *)
Lemma big_SetBytes_big_endian (n : nat) (x : Z) :
  0 <= x -> big_SetBytes (big_endian n x) = x mod 256 ^ Z.of_nat n.
Proof.
  revert x. induction n as [|n IH]; intros x Hx.
  - simpl. rewrite Z.mod_1_r. reflexivity.
  - cbn [big_endian]. rewrite big_SetBytes_snoc, byte_to_of_Z.
    rewrite IH by (apply Z.div_pos; lia).
    rewrite Nat2Z.inj_succ, Z.pow_succ_r by lia.
    rewrite (Z.rem_mul_r x 256 (256 ^ Z.of_nat n)) by lia.
    lia.
Qed.

(** [FillBytes] followed by [SetBytes] is the identity on what fits. *)
Lemma big_FillBytes_SetBytes (x : Z) (n : nat) (buf : bytes) :
  0 <= x -> big_FillBytes x n = Returns buf ->
  length buf = n /\ big_SetBytes buf = x.
Proof.
  intros Hx. unfold big_FillBytes.
  destruct (Z.ltb_spec (Z.abs x) (256 ^ Z.of_nat n)) as [Hlt|]; [|discriminate].
  intros [= <-]. rewrite Z.abs_eq in * by lia. split.
  - apply big_endian_length.
  - rewrite big_SetBytes_big_endian by lia. apply Z.mod_small. lia.
Qed.

(** ** The reference library on the repository's test data *)

(** The digests of ["abc"] (FIPS 180-4, appendix). *)
Example sha2_abc :
  sha256 (list_byte_of_string "abc")
  = hex "ba7816bf8f01cfea414140de5dae2223b00361a396177a9cb410ff61f20015ad"
  /\ sha384 (list_byte_of_string "abc")
     = hex "cb00753f45a35e8bb5a03d699ac65007272c32ab0eded1631a8b605a43ff5bed8086072ba1e7cc2358baeca134c825a7"
  /\ sha512 (list_byte_of_string "abc")
     = hex "ddaf35a193617abacc417349ae20413112e6fa4e89a97ea20a9eeee64b55d39a2192992a274fc1a836ba3c23a3feebbd454d4423643ce80e2a9ac94fa54ca49f".
Proof. repeat split; vm_compute; reflexivity. Qed.

(** [Test_unmarshalEd25519Key]: the key pair of the test seed. *)
Lemma ref_NewKeyFromSeed_test : ref_NewKeyFromSeed test_seed = test_private.
Proof. vm_compute. reflexivity. Qed.

(** [GenerateKey] over a reader reads the seed and nothing else. *)
Lemma ref_GenerateKey_seed (seed rest : bytes) :
  length seed = 32%nat ->
  ref_GenerateKey (bytes_NewReader (seed ++ rest))
  = inl (skipn 32 (ref_NewKeyFromSeed seed), ref_NewKeyFromSeed seed).
Proof.
  intros Hlen. unfold ref_GenerateKey, ref_ReadFull.
  rewrite length_app, Hlen. cbn [Nat.add Nat.leb].
  rewrite <- Hlen, firstn_app, Nat.sub_diag, firstn_all. cbn [firstn].
  rewrite app_nil_r. reflexivity.
Qed.

Lemma GenerateKey_test_private :
  ed25519_GenerateKey (bytes_NewReader test_private) = inl (test_public, test_private).
Proof.
  unfold test_private. cbn [ed25519_GenerateKey GoRef].
  rewrite ref_GenerateKey_seed by reflexivity.
  rewrite ref_NewKeyFromSeed_test. reflexivity.
Qed.

Lemma GenerateKey_inconsistent_private :
  ed25519_GenerateKey (bytes_NewReader inconsistent_private)
  = inl (test_public, test_private).
Proof.
  unfold inconsistent_private. cbn [ed25519_GenerateKey GoRef].
  rewrite ref_GenerateKey_seed by reflexivity.
  rewrite ref_NewKeyFromSeed_test. reflexivity.
Qed.

(** [Test_ed25519Signer_Sign] and [Test_ed25519Signer_Verify], "valid - key":
    the library calls behind them. *)
Lemma ed25519_Sign_test :
  ed25519_PrivateKey_Sign test_private rand_Reader test_message Hash0
  = inl test_ed25519_signature.
Proof. vm_compute. reflexivity. Qed.

Lemma ed25519_Verify_test :
  ed25519_Verify test_public test_message test_ed25519_signature = true.
Proof. vm_compute. reflexivity. Qed.

(** The public point of the ECDSA test key. *)
Lemma test_ecdsa_point_derived :
  ref_ScalarBaseMult P256_params (big_endian 32 test_ecdsa_d) = test_ecdsa_point.
Proof. vm_compute. reflexivity. Qed.

(** [Test_ecdsaSigner_Verify], "valid - key pointer": the signature of the
    test, made by the library itself, verifies in the reference library. *)
Example ecdsaSigner_Verify_test :
  ecdsaSigner_Verify ecdsaSigner_P256 test_message test_ecdsa_signature
                     (ptr_ecdsa_PublicKey (Some (PublicKey test_ecdsa_private)))
  = Returns None.
Proof. vm_compute. reflexivity. Qed.

(** The reference library signing ["test"] with the ECDSA test key, and
    verifying its own signature. *)
Lemma ecdsa_Sign_test :
  ecdsa_Sign rand_Reader test_ecdsa_private (Hash_Sum SHA256 test_message)
  = Returns (inl test_ecdsa_rs).
Proof. vm_compute. reflexivity. Qed.

Lemma ecdsa_Verify_test :
  ecdsa_Verify (PublicKey test_ecdsa_private) (Hash_Sum SHA256 test_message)
               (fst test_ecdsa_rs) (snd test_ecdsa_rs)
  = Returns true.
Proof. vm_compute. reflexivity. Qed.

(** The envelopes of the key records used below. *)
Lemma json_Decode_test_public :
  json_Decode (io_LimitReader (bytes_NewReader test_public_json) MaxKeyInputSize)
  = inl {| Public := test_public; Private := None |}.
Proof. vm_compute. reflexivity. Qed.

Lemma json_Decode_test_private :
  json_Decode (io_LimitReader (bytes_NewReader test_private_json) MaxKeyInputSize)
  = inl {| Public := test_public; Private := Some test_private |}.
Proof. vm_compute. reflexivity. Qed.

Lemma json_Decode_inconsistent_private :
  json_Decode (io_LimitReader (bytes_NewReader inconsistent_private_json) MaxKeyInputSize)
  = inl {| Public := test_public; Private := Some inconsistent_private |}.
Proof. vm_compute. reflexivity. Qed.

Lemma json_Decode_oversized :
  json_Decode (io_LimitReader (bytes_NewReader oversized_value) MaxKeyInputSize)
  = inl {| Public := test_public; Private := None |}.
Proof. vm_compute. reflexivity. Qed.

(** The Ed25519 decoder on the test keys. *)
Lemma unmarshalEd25519Key_test_public :
  unmarshalEd25519Key (Some {| Public := test_public; Private := None |})
  = (val_ed25519_PublicKey test_public, None).
Proof. vm_compute. reflexivity. Qed.

Lemma unmarshalEd25519Key_test_private :
  unmarshalEd25519Key (Some {| Public := test_public; Private := Some test_private |})
  = (val_ed25519_PrivateKey test_private, None).
Proof.
  unfold unmarshalEd25519Key. cbn [Public Private].
  rewrite GenerateKey_test_private. vm_compute. reflexivity.
Qed.

Lemma unmarshalEd25519Key_inconsistent_private :
  unmarshalEd25519Key
    (Some {| Public := test_public; Private := Some inconsistent_private |})
  = (val_ed25519_PrivateKey inconsistent_private, None).
Proof.
  unfold unmarshalEd25519Key. cbn [Public Private].
  rewrite GenerateKey_inconsistent_private. vm_compute. reflexivity.
Qed.

(** ** The two decode entry points *)

Section EntryPoints.
Context `{Std : GoStd} `{Data : TufData} `{Table : LowOrderTable}.

Lemma FromPrivateKey_decoded (type : string) (value : bytes) (key : jsonKeyPair) :
  json_Decode (io_LimitReader (bytes_NewReader value) MaxKeyInputSize) = inl key ->
  FromPrivateKey (Some {| PrivateKey_Type := type; PrivateKey_Value := value |})
  = dispatch "key: unsupported private key type %q" type key.
Proof. intros H. unfold FromPrivateKey, dispatch. cbn [PrivateKey_Value PrivateKey_Type].
  rewrite H. reflexivity. Qed.

Lemma FromPublicKey_decoded (type : string) (value : bytes) (key : jsonKeyPair) :
  json_Decode (io_LimitReader (bytes_NewReader value) MaxKeyInputSize) = inl key ->
  FromPublicKey (Some {| PublicKey_Type := type; PublicKey_Value := value |})
  = dispatch "key: unsupported public key type %q" type key.
Proof. intros H. unfold FromPublicKey, dispatch. cbn [PublicKey_Value PublicKey_Type].
  rewrite H. reflexivity. Qed.

Lemma FromPrivateKey_undecoded (type : string) (value : bytes) (err : error) :
  json_Decode (io_LimitReader (bytes_NewReader value) MaxKeyInputSize) = inr err ->
  FromPrivateKey (Some {| PrivateKey_Type := type; PrivateKey_Value := value |})
  = failed (fmt_Errorf_w "key: unable to decode the key components: %w" [] err).
Proof. intros H. unfold FromPrivateKey. cbn [PrivateKey_Value]. rewrite H. reflexivity. Qed.

Lemma FromPublicKey_undecoded (type : string) (value : bytes) (err : error) :
  json_Decode (io_LimitReader (bytes_NewReader value) MaxKeyInputSize) = inr err ->
  FromPublicKey (Some {| PublicKey_Type := type; PublicKey_Value := value |})
  = failed (fmt_Errorf_w "key: unable to decode the key components: %w" [] err).
Proof. intros H. unfold FromPublicKey. cbn [PublicKey_Value]. rewrite H. reflexivity. Qed.

(** The three constants select three different branches. *)
Lemma KeyType_ECDSA_not_Ed25519 :
  String.eqb KeyTypeECDSA_SHA2_P256 KeyTypeEd25519 = false.
Proof.
  apply String.eqb_neq. intros E. pose proof KeyType_distinct as H.
  rewrite E in H. apply NoDup_cons in H as [H _]. apply H. left.
Qed.



Lemma dispatch_Ed25519 (unsupported : string) (key : jsonKeyPair) :
  dispatch unsupported KeyTypeEd25519 key = unmarshalEd25519Key (Some key).
Proof. unfold dispatch. rewrite String.eqb_refl. reflexivity. Qed.

Lemma dispatch_ECDSA (unsupported : string) (key : jsonKeyPair) :
  dispatch unsupported KeyTypeECDSA_SHA2_P256 key = unmarshalECDSAKey (Some key).
Proof.
  unfold dispatch. rewrite KeyType_ECDSA_not_Ed25519, String.eqb_refl. reflexivity.
Qed.




(** Only the first [MaxKeyInputSize] bytes of the value are read: the
    limit truncates the stream, it does not reject a longer one. *)
Lemma entry_points_read_prefix (type : string) (value : bytes) :
  FromPrivateKey (Some {| PrivateKey_Type := type; PrivateKey_Value := value |})
  = FromPrivateKey (Some {| PrivateKey_Type := type;
                            PrivateKey_Value := firstn (Z.to_nat MaxKeyInputSize) value |})
  /\ FromPublicKey (Some {| PublicKey_Type := type; PublicKey_Value := value |})
     = FromPublicKey (Some {| PublicKey_Type := type;
                              PublicKey_Value := firstn (Z.to_nat MaxKeyInputSize) value |}).
Proof.
  unfold FromPrivateKey, FromPublicKey, io_LimitReader. cbn [PrivateKey_Value PublicKey_Value].
  rewrite firstn_firstn, Nat.min_id. split; reflexivity.
Qed.
End EntryPoints.

(** [TestFromPrivateKey]: "empty", "too-large" and the two valid records. *)
Example FromPrivateKey_test :
  ~ succeeded (FromPrivateKey (Some {| PrivateKey_Type := ""; PrivateKey_Value := [] |}))
  /\ ~ succeeded (FromPrivateKey
        (Some {| PrivateKey_Type := KeyTypeEd25519;
                 PrivateKey_Value := repeat x00 (Z.to_nat (MaxKeyInputSize + 1)) |}))
  /\ FromPrivateKey (Some {| PrivateKey_Type := KeyTypeEd25519;
                             PrivateKey_Value := test_public_json |})
     = (val_ed25519_PublicKey test_public, None)
  /\ FromPrivateKey (Some {| PrivateKey_Type := KeyTypeEd25519;
                             PrivateKey_Value := test_private_json |})
     = (val_ed25519_PrivateKey test_private, None).
Proof.
  split; [|split; [|split]].
  - vm_compute. discriminate.
  - vm_compute. discriminate.
  - rewrite (FromPrivateKey_decoded _ _ _ json_Decode_test_public), dispatch_Ed25519.
    apply unmarshalEd25519Key_test_public.
  - rewrite (FromPrivateKey_decoded _ _ _ json_Decode_test_private), dispatch_Ed25519.
    apply unmarshalEd25519Key_test_private.
Qed.

(** C1 (the code at the failing input).  A record of the RSA type whose
    value is the empty JSON object: both entry points return a nil key and a
    nil error, where the claim requires an "unsupported key type" error. *)
Theorem rsa_record_returns_nil_key_without_error :
  FromPrivateKey (Some {| PrivateKey_Type := KeyTypeRSASSA_PSS_SHA256;
                          PrivateKey_Value := json_text "{}" |}) = (nil_any, None)
  /\ FromPublicKey (Some {| PublicKey_Type := KeyTypeRSASSA_PSS_SHA256;
                            PublicKey_Value := json_text "{}" |}) = (nil_any, None).
Proof. split; vm_compute; reflexivity. Qed.

(** C3 (the code at the failing input).  The value is longer than
    [MaxKeyInputSize], and both entry points decode it: they return the
    Ed25519 public key and a nil error, where the claim requires a failure. *)
Theorem oversized_record_is_decoded :
  MaxKeyInputSize < len oversized_value
  /\ FromPrivateKey (Some {| PrivateKey_Type := KeyTypeEd25519;
                             PrivateKey_Value := oversized_value |})
     = (val_ed25519_PublicKey test_public, None)
  /\ FromPublicKey (Some {| PublicKey_Type := KeyTypeEd25519;
                            PublicKey_Value := oversized_value |})
     = (val_ed25519_PublicKey test_public, None).
Proof.
  split; [|split].
  - vm_compute. reflexivity.
  - rewrite (FromPrivateKey_decoded _ _ _ json_Decode_oversized), dispatch_Ed25519.
    apply unmarshalEd25519Key_test_public.
  - rewrite (FromPublicKey_decoded _ _ _ json_Decode_oversized), dispatch_Ed25519.
    apply unmarshalEd25519Key_test_public.
Qed.

(** ** The decoders of the two key families *)

Lemma big_Cmp_eq (a b : Z) : big_Cmp a b = 0 <-> a = b.
Proof.
  unfold big_Cmp. destruct (Z.compare_spec a b); split; intros; subst; lia.
Qed.

(** The curve-membership check of the reference library is the curve
    equation y² = x³ - 3x + b modulo p, on reduced coordinates. *)
Lemma ref_IsOnCurve_equation (curve : CurveParams) (x y : Z) :
  ref_IsOnCurve curve x y = true
  <-> 0 <= x < P curve /\ 0 <= y < P curve
      /\ (y * y) mod P curve = (x * x * x - 3 * x + B curve) mod P curve.
Proof.
  unfold ref_IsOnCurve. rewrite !andb_true_iff, !Z.leb_le, !Z.ltb_lt, Z.eqb_eq.
  tauto.
Qed.

Section Decoders.
Context `{Std : GoStd} `{Table : LowOrderTable}.

(** A decode either fails with a nil key or succeeds. *)
Lemma unmarshalECDSAKey_cases (raw : option jsonKeyPair) :
  (exists e, unmarshalECDSAKey raw = failed e)
  \/ (exists k, unmarshalECDSAKey raw = (k, None)).
Proof.
  unfold unmarshalECDSAKey. repeat case_match; eauto.
Qed.

(** Every successful ECDSA decode went through a tag of 2, 3 or 4, the
    library decoder of that tag, and the curve-membership check. *)
Lemma unmarshalECDSAKey_success (raw : jsonKeyPair) (k : any) :
  unmarshalECDSAKey (Some raw) = (k, None) ->
  exists tag rest x y,
    Public raw = tag :: rest
    /\ ((byte_to_Z tag = 2 \/ byte_to_Z tag = 3)
          /\ elliptic_UnmarshalCompressed P256_params (Public raw) = Some (x, y)
        \/ byte_to_Z tag = 4
          /\ elliptic_Unmarshal P256_params (Public raw) = Some (x, y))
    /\ Curve_IsOnCurve P256_params x y = true
    /\ ecdsa_public_of k
       = Some {| PubCurve := elliptic_P256; X := Some x; Y := Some y |}
    /\ match Private raw with
       | None =>
         k = ptr_ecdsa_PublicKey
               (Some {| PubCurve := elliptic_P256; X := Some x; Y := Some y |})
       | Some scalar =>
         len scalar = 32
         /\ Curve_ScalarBaseMult P256_params scalar = (x, y)
         /\ k = ptr_ecdsa_PrivateKey
                  (Some {| PublicKey := {| PubCurve := elliptic_P256;
                                           X := Some x; Y := Some y |};
                           D := Some (big_SetBytes scalar) |})
       end.
Proof.
  unfold unmarshalECDSAKey.
  destruct (Public raw) as [|tag rest] eqn:Epub; [discriminate|].
  assert (Htail : forall x y,
    Curve_IsOnCurve P256_params x y = true ->
    match Private raw with
    | Some private =>
      if negb (len private =? curveByteSize P256_params)
      then failed (errors_New
             "key: invalid ecdsa private key length for the associated curve")
      else
        let '(dx, dy) := Curve_ScalarBaseMult P256_params private in
        if negb (big_Cmp dx x =? 0) || negb (big_Cmp dy y =? 0)
        then failed (errors_New "key: public and private keys doesn't match")
        else (ptr_ecdsa_PrivateKey
                (Some {| PublicKey := {| PubCurve := Some P256_params;
                                         X := Some x; Y := Some y |};
                         D := Some (big_SetBytes private) |}), None)
    | None =>
      (ptr_ecdsa_PublicKey
         (Some {| PubCurve := Some P256_params; X := Some x; Y := Some y |}), None)
    end = (k, None) ->
    ecdsa_public_of k
      = Some {| PubCurve := elliptic_P256; X := Some x; Y := Some y |}
    /\ match Private raw with
       | None =>
         k = ptr_ecdsa_PublicKey
               (Some {| PubCurve := elliptic_P256; X := Some x; Y := Some y |})
       | Some scalar =>
         len scalar = 32
         /\ Curve_ScalarBaseMult P256_params scalar = (x, y)
         /\ k = ptr_ecdsa_PrivateKey
                  (Some {| PublicKey := {| PubCurve := elliptic_P256;
                                           X := Some x; Y := Some y |};
                           D := Some (big_SetBytes scalar) |})
       end).
  { intros x y Hon H. destruct (Private raw) as [scalar|].
    - destruct (len scalar =? curveByteSize P256_params) eqn:Elen; [|discriminate].
      cbn [negb] in H.
      destruct (Curve_ScalarBaseMult P256_params scalar) as [dx dy] eqn:Emul.
      destruct (big_Cmp dx x =? 0) eqn:Ex; [|discriminate].
      destruct (big_Cmp dy y =? 0) eqn:Ey; [|discriminate].
      cbn in H. injection H as <-.
      rewrite Z.eqb_eq, big_Cmp_eq in Ex, Ey.
      subst dx dy. apply Z.eqb_eq in Elen. cbn in Elen. auto.
    - injection H as <-. auto. }
  destruct ((byte_to_Z tag =? 2) || (byte_to_Z tag =? 3)) eqn:E23.
  - destruct (elliptic_UnmarshalCompressed P256_params (tag :: rest))
      as [[x y]|] eqn:Edec; [|discriminate].
    destruct (Curve_IsOnCurve P256_params x y) eqn:Eon; [|discriminate].
    cbn [negb]. intros H. exists tag, rest, x, y.
    split; [reflexivity|]. split; [left; split; [lia|reflexivity]|].
    split; [exact Eon|]. apply Htail; [exact Eon|exact H].
  - destruct (byte_to_Z tag =? 4) eqn:E4; [|discriminate].
    destruct (elliptic_Unmarshal P256_params (tag :: rest))
      as [[x y]|] eqn:Edec; [|discriminate].
    destruct (Curve_IsOnCurve P256_params x y) eqn:Eon; [|discriminate].
    cbn [negb]. intros H. exists tag, rest, x, y.
    split; [reflexivity|]. split; [right; split; [lia|reflexivity]|].
    split; [exact Eon|]. apply Htail; [exact Eon|exact H].
Qed.
End Decoders.

(** C4.  For every ECDSA key record whose envelope decodes: a public key
    with a leading byte other than 2, 3 or 4 fails to decode; a public key
    that the library decodes to a pair (x, y) outside the curve fails to
    decode; and the key returned by a successful decode holds a point that
    satisfies the curve-membership check. *)
Theorem ecdsa_decode_rejects_off_curve_points
    `{Std : GoStd} `{Data : TufData} `{Table : LowOrderTable}
    (value : bytes) (raw : jsonKeyPair) :
  json_Decode (io_LimitReader (bytes_NewReader value) MaxKeyInputSize) = inl raw ->
  let private_entry :=
    FromPrivateKey (Some {| PrivateKey_Type := KeyTypeECDSA_SHA2_P256;
                            PrivateKey_Value := value |}) in
  let public_entry :=
    FromPublicKey (Some {| PublicKey_Type := KeyTypeECDSA_SHA2_P256;
                           PublicKey_Value := value |}) in
  private_entry = public_entry
  /\ (forall tag rest,
         Public raw = tag :: rest ->
         byte_to_Z tag <> 2 -> byte_to_Z tag <> 3 -> byte_to_Z tag <> 4 ->
         public_entry
         = failed (errors_New "key: unsupported ecdsa public key encoding"))
  /\ (forall tag rest x y,
         Public raw = tag :: rest ->
         (byte_to_Z tag = 2 \/ byte_to_Z tag = 3)
           /\ elliptic_UnmarshalCompressed P256_params (Public raw) = Some (x, y)
         \/ byte_to_Z tag = 4
           /\ elliptic_Unmarshal P256_params (Public raw) = Some (x, y) ->
         Curve_IsOnCurve P256_params x y = false ->
         public_entry
         = failed (errors_New
                     "key: ecdsa public key point is not on the associated curve"))
  /\ (forall k,
         public_entry = (k, None) ->
         exists tag rest x y,
           Public raw = tag :: rest
           /\ (byte_to_Z tag = 2 \/ byte_to_Z tag = 3 \/ byte_to_Z tag = 4)
           /\ ecdsa_public_of k
              = Some {| PubCurve := elliptic_P256; X := Some x; Y := Some y |}
           /\ Curve_IsOnCurve P256_params x y = true).
Proof.
  intros Hdec private_entry public_entry. subst private_entry public_entry.
  rewrite (FromPrivateKey_decoded _ _ _ Hdec), (FromPublicKey_decoded _ _ _ Hdec).
  rewrite !dispatch_ECDSA. split; [reflexivity|]. split; [|split].
  - intros tag rest Hpub H2 H3 H4. unfold unmarshalECDSAKey. rewrite Hpub.
    destruct (Z.eqb_spec (byte_to_Z tag) 2); [contradiction|].
    destruct (Z.eqb_spec (byte_to_Z tag) 3); [contradiction|].
    destruct (Z.eqb_spec (byte_to_Z tag) 4); [contradiction|].
    reflexivity.
  - intros tag rest x y Hpub Hdecoded Hoff. unfold unmarshalECDSAKey.
    rewrite Hpub in *.
    destruct Hdecoded as [[[H2|H3] Hc]|[H4 Hu]].
    + rewrite H2. cbn [Z.eqb Pos.eqb orb]. rewrite Hc, Hoff. reflexivity.
    + rewrite H3. cbn [Z.eqb Pos.eqb orb]. rewrite Hc, Hoff. reflexivity.
    + rewrite H4. cbn [Z.eqb Pos.eqb orb]. rewrite Hu, Hoff. reflexivity.
  - intros k Hk. apply unmarshalECDSAKey_success in Hk.
    destruct Hk as (tag & rest & x & y & Hpub & Htag & Hon & Hkey & _).
    exists tag, rest, x, y. repeat split; try assumption.
    destruct Htag as [[[H|H] _]|[H _]]; auto.
Qed.

(** The three parts of the property on records that reach them: the base
    point behind the unassigned tag 5, the off-curve pair (1, 1) under a
    library that does not check membership itself, and the base point. *)
Lemma ecdsa_decode_rejects_off_curve_points_witness :
  FromPublicKey (Some {| PublicKey_Type := KeyTypeECDSA_SHA2_P256;
                         PublicKey_Value := bad_tag_json |})
  = failed (errors_New "key: unsupported ecdsa public key encoding")
  /\ FromPublicKey (Std := LenientStd)
       (Some {| PublicKey_Type := KeyTypeECDSA_SHA2_P256;
                PublicKey_Value := off_curve_json |})
     = failed (errors_New "key: ecdsa public key point is not on the associated curve")
  /\ exists tag rest x y,
       Public {| Public := x03 :: big_endian 32 (Gx P256_params); Private := None |}
         = tag :: rest
       /\ (byte_to_Z tag = 2 \/ byte_to_Z tag = 3 \/ byte_to_Z tag = 4)
       /\ ecdsa_public_of
            (ptr_ecdsa_PublicKey
               (Some {| PubCurve := elliptic_P256;
                        X := Some (Gx P256_params); Y := Some (Gy P256_params) |}))
          = Some {| PubCurve := elliptic_P256; X := Some x; Y := Some y |}
       /\ Curve_IsOnCurve P256_params x y = true.
Proof.
  split; [|split].
  - refine (proj1 (proj2 (ecdsa_decode_rejects_off_curve_points
              (Std := GoRef) bad_tag_json
              {| Public := x05 :: big_endian 32 (Gx P256_params)
                               ++ big_endian 32 (Gy P256_params);
                 Private := None |} _)) x05 _ _ _ _ _).
    + vm_compute. reflexivity.
    + vm_compute. reflexivity.
    + vm_compute. discriminate.
    + vm_compute. discriminate.
    + vm_compute. discriminate.
  - refine (proj1 (proj2 (proj2 (ecdsa_decode_rejects_off_curve_points
              (Std := LenientStd) off_curve_json
              {| Public := x04 :: big_endian 32 1 ++ big_endian 32 1;
                 Private := None |} _))) x04 _ 1 1 _ _ _).
    + vm_compute. reflexivity.
    + vm_compute. reflexivity.
    + right. split; vm_compute; reflexivity.
    + vm_compute. reflexivity.
  - refine (proj2 (proj2 (proj2 (ecdsa_decode_rejects_off_curve_points
              (Std := GoRef) base_point_json
              {| Public := x03 :: big_endian 32 (Gx P256_params); Private := None |} _)))
              _ _).
    + vm_compute. reflexivity.
    + vm_compute. reflexivity.
Defined.

Lemma subtle_ConstantTimeCompare_eq (x y : bytes) :
  subtle_ConstantTimeCompare x y = 1 <-> x = y.
Proof.
  unfold subtle_ConstantTimeCompare. case_bool_decide; split; intros; try lia; congruence.
Qed.

Lemma isEdLowOrder_In `{Table : LowOrderTable} (pub : bytes) :
  isEdLowOrder pub = true <-> In pub edLowOrderPoints.
Proof.
  unfold isEdLowOrder. rewrite existsb_exists. split.
  - intros (point & Hin & Heq). apply bool_decide_eq_true in Heq. congruence.
  - intros Hin. exists pub. split; [exact Hin|]. apply bool_decide_eq_true. reflexivity.
Qed.

Section Ed25519Decoder.
Context `{Std : GoStd} `{Table : LowOrderTable}.

(** What a successful Ed25519 decode has checked.  For a private key it is
    the declared public key against the key generated from the private
    bytes; the second half of the private bytes is not looked at. *)
Lemma unmarshalEd25519Key_success (raw : jsonKeyPair) (k : any) :
  unmarshalEd25519Key (Some raw) = (k, None) ->
  len (Public raw) = ed25519_PublicKeySize
  /\ ~ In (Public raw) edLowOrderPoints
  /\ match Private raw with
     | None => k = val_ed25519_PublicKey (Public raw)
     | Some private =>
       len private = ed25519_PrivateKeySize
       /\ (exists generated,
              ed25519_GenerateKey (bytes_NewReader private)
              = inl (Public raw, generated))
       /\ k = val_ed25519_PrivateKey private
     end.
Proof.
  unfold unmarshalEd25519Key.
  destruct (Z.eqb_spec (len (Public raw)) ed25519_PublicKeySize) as [Hlen|];
    [|discriminate].
  cbn [negb].
  destruct (isEdLowOrder (Public raw)) eqn:Elow; [discriminate|].
  assert (Hnot : ~ In (Public raw) edLowOrderPoints).
  { intros Hin. apply isEdLowOrder_In in Hin. congruence. }
  destruct (Private raw) as [private|].
  - destruct (Z.eqb_spec (len private) ed25519_PrivateKeySize) as [Hplen|];
      [|discriminate].
    cbn [negb].
    destruct (ed25519_GenerateKey (bytes_NewReader private))
      as [[pub generated]|err] eqn:Egen; [|discriminate].
    destruct (Z.eqb_spec (subtle_ConstantTimeCompare (Public raw) pub) 1)
      as [Hcmp|]; [|discriminate].
    cbn [negb]. intros [= <-].
    apply subtle_ConstantTimeCompare_eq in Hcmp. subst pub. eauto 6.
  - intros [= <-]. auto.
Qed.

(** A public key of the right length that is in the table is rejected. *)
Lemma unmarshalEd25519Key_low_order (raw : jsonKeyPair) :
  len (Public raw) = ed25519_PublicKeySize ->
  In (Public raw) edLowOrderPoints ->
  unmarshalEd25519Key (Some raw)
  = failed (errors_New "key: the public key is blacklisted").
Proof.
  intros Hlen Hin. unfold unmarshalEd25519Key.
  rewrite Hlen, Z.eqb_refl. cbn [negb].
  apply isEdLowOrder_In in Hin. rewrite Hin. reflexivity.
Qed.
End Ed25519Decoder.

(** C2, the ECDSA half.  A decoded ECDSA private key holds the scalar read
    from the private bytes, and its public point is the base point
    multiplied by those bytes. *)
Lemma ecdsa_private_key_is_consistent `{Std : GoStd}
    (raw : jsonKeyPair) (priv : ecdsa_PrivateKey) :
  unmarshalECDSAKey (Some raw) = (ptr_ecdsa_PrivateKey (Some priv), None) ->
  exists scalar x y,
    Private raw = Some scalar
    /\ D priv = Some (big_SetBytes scalar)
    /\ X (PublicKey priv) = Some x /\ Y (PublicKey priv) = Some y
    /\ Curve_ScalarBaseMult P256_params scalar = (x, y).
Proof.
  intros H. apply unmarshalECDSAKey_success in H.
  destruct H as (tag & rest & x & y & _ & _ & _ & _ & Hpriv).
  destruct (Private raw) as [scalar|]; [|discriminate].
  destruct Hpriv as (_ & Hmul & [= ->]). exists scalar, x, y. auto.
Qed.

(** C2 (the code at the failing input).  The record declares the public key
    of the test seed and a private key made of the seed and 32 zero bytes.
    The decoder returns that private key with a nil error, although the
    public key generated from it is not its second half. *)
Theorem ed25519_private_key_with_foreign_public_half_is_accepted :
  FromPrivateKey (Some {| PrivateKey_Type := KeyTypeEd25519;
                          PrivateKey_Value := inconsistent_private_json |})
  = (val_ed25519_PrivateKey inconsistent_private, None)
  /\ ed25519_GenerateKey (bytes_NewReader inconsistent_private)
     = inl (test_public, test_private)
  /\ skipn 32 inconsistent_private <> test_public.
Proof.
  split; [|split].
  - rewrite (FromPrivateKey_decoded _ _ _ json_Decode_inconsistent_private).
    rewrite dispatch_Ed25519. apply unmarshalEd25519Key_inconsistent_private.
  - apply GenerateKey_inconsistent_private.
  - vm_compute. discriminate.
Qed.

(** What the accepted key does downstream: a signature made with it does
    not verify under the public key that the record declared. *)
Example inconsistent_private_key_signs_invalid_signatures :
  let sig := ref_ed25519_Sign inconsistent_private test_message in
  ed25519Signer_Sign mk_ed25519Signer test_message
                     (val_ed25519_PrivateKey inconsistent_private) []
  = Returns (sig, None)
  /\ ed25519Signer_Verify mk_ed25519Signer test_message sig
                          (val_ed25519_PublicKey test_public)
     = Returns (Some ErrInvalidSignature).
Proof. split; vm_compute; reflexivity. Qed.

(** C5 (counterexample).  The record whose public key is the all-zero
    low-order point fails to decode, but not with an error of the
    [InvalidKey] kind: the error is a plain [errors.New] value. *)
Lemma low_order_rejection_is_not_InvalidKey :
  ~ (exists e,
        FromPublicKey (Some {| PublicKey_Type := KeyTypeEd25519;
                               PublicKey_Value := low_order_json |}) = failed e
        /\ errors_Is e IsInvalidKey = true).
Proof.
  intros (e & Hfail & Hkind). vm_compute in Hfail.
  injection Hfail as <-. discriminate.
Qed.

(** C5 (amended).  For every Ed25519 key record whose envelope decodes to a
    32-byte public key that is in the table of low-order points, both entry
    points fail with the error "key: the public key is blacklisted", which
    carries none of the error kinds of package signatures; such a key is
    never accepted. *)
Theorem low_order_public_key_is_rejected
    `{Std : GoStd} `{Data : TufData} `{Table : LowOrderTable}
    (value : bytes) (raw : jsonKeyPair) :
  json_Decode (io_LimitReader (bytes_NewReader value) MaxKeyInputSize) = inl raw ->
  len (Public raw) = ed25519_PublicKeySize ->
  In (Public raw) edLowOrderPoints ->
  let rejected := errors_New "key: the public key is blacklisted" in
  FromPrivateKey (Some {| PrivateKey_Type := KeyTypeEd25519;
                          PrivateKey_Value := value |}) = failed rejected
  /\ FromPublicKey (Some {| PublicKey_Type := KeyTypeEd25519;
                            PublicKey_Value := value |}) = failed rejected
  /\ forall kind, errors_Is rejected kind = false.
Proof.
  intros Hdec Hlen Hin rejected.
  rewrite (FromPrivateKey_decoded _ _ _ Hdec), (FromPublicKey_decoded _ _ _ Hdec).
  rewrite !dispatch_Ed25519, (unmarshalEd25519Key_low_order _ Hlen Hin).
  split; [reflexivity|]. split; [reflexivity|]. intros []; reflexivity.
Qed.

Lemma low_order_public_key_is_rejected_witness :
  FromPrivateKey (Some {| PrivateKey_Type := KeyTypeEd25519;
                          PrivateKey_Value := low_order_json |})
  = failed (errors_New "key: the public key is blacklisted")
  /\ FromPublicKey (Some {| PublicKey_Type := KeyTypeEd25519;
                            PublicKey_Value := low_order_json |})
     = failed (errors_New "key: the public key is blacklisted")
  /\ forall kind, errors_Is (errors_New "key: the public key is blacklisted") kind = false.
Proof.
  refine (low_order_public_key_is_rejected (Std := GoRef) low_order_json
            {| Public := repeat x00 32; Private := None |} _ _ _).
  - vm_compute. reflexivity.
  - vm_compute. reflexivity.
  - vm_compute. right. right. left. reflexivity.
Defined.




(** ** The signers *)

Lemma len_nonempty {A : Type} (s : list A) : s <> [] -> (len s =? 0) = false.
Proof.
  intros H. destruct s; [contradiction|]. unfold len. cbn [length].
  apply Z.eqb_neq. lia.
Qed.

Lemma len_app {A : Type} (s t : list A) : len (s ++ t) = len s + len t.
Proof. unfold len. rewrite length_app. lia. Qed.

Lemma big_FillBytes_fits (x : Z) (n : nat) :
  0 <= x < 256 ^ Z.of_nat n -> big_FillBytes x n = Returns (big_endian n x).
Proof.
  intros Hx. unfold big_FillBytes. rewrite Z.abs_eq by lia.
  destruct (Z.ltb_spec x (256 ^ Z.of_nat n)); [reflexivity|lia].
Qed.

(** The bytes of a successful [FillBytes]: the digits of the absolute
    value, which read back as that value. *)
Lemma big_FillBytes_inv (x : Z) (n : nat) (buf : bytes) :
  big_FillBytes x n = Returns buf ->
  buf = big_endian n (Z.abs x) /\ length buf = n /\ big_SetBytes buf = Z.abs x.
Proof.
  unfold big_FillBytes.
  destruct (Z.ltb_spec (Z.abs x) (256 ^ Z.of_nat n)) as [Hlt|]; [|discriminate].
  intros [= <-]. split; [reflexivity|]. split; [apply big_endian_length|].
  rewrite big_SetBytes_big_endian by lia. apply Z.mod_small. lia.
Qed.

(** The byte size of the signature halves of the two registered algorithms. *)
Lemma registered_ecdsa_key_bytes (m : ecdsaSigner) :
  registered_ecdsa m ->
  (if Z.rem (curveBits m) 8 >? 0
   then Z.quot (curveBits m) 8 + 1 else Z.quot (curveBits m) 8) = keySize m
  /\ 0 < keySize m
  /\ (keySize m = 32 \/ keySize m = 48).
Proof. intros [-> | ->]; vm_compute; auto. Qed.

Section SignerLemmas.
Context `{Std : GoStd}.

(** [Sign] on arguments that pass its checks, in terms of the library's
    signing call and the two [FillBytes]. *)
Lemma ecdsaSigner_Sign_checked (m : ecdsaSigner) (msg : bytes) (key : any)
    (opts : list SignOption) (pk : ecdsa_PrivateKey) (params : CurveParams) :
  registered_ecdsa m ->
  msg <> [] ->
  ecdsa_private_key_value key = Some pk ->
  PubCurve (PublicKey pk) = Some params ->
  BitSize params = curveBits m ->
  Hash_Available (hash m) = true ->
  ecdsaSigner_Sign m msg key opts
  = match ecdsa_Sign (randSource (apply_options opts)) pk (Hash_Sum (hash m) msg) with
    | Panics => Panics
    | Returns (inl (r, s)) =>
      match big_FillBytes r (Z.to_nat (keySize m)),
            big_FillBytes s (Z.to_nat (keySize m)) with
      | Returns r_bytes, Returns s_bytes => Returns (r_bytes ++ s_bytes, None)
      | _, _ => Panics
      end
    | Returns (inr _) => sign_failed ErrInvalidSignature
    end.
Proof.
  intros Hm Hmsg Hkey Hcurve Hbits Hhash.
  destruct (registered_ecdsa_key_bytes m Hm) as (Hkb & Hpos & _).
  unfold ecdsaSigner_Sign. rewrite (len_nonempty _ Hmsg).
  assert (Hsel : match key with
                 | ptr_ecdsa_PrivateKey k => inl k
                 | val_ecdsa_PrivateKey k => inl (Some k)
                 | _ => inr (fmt_Errorf_w
                               "ecdsa: unsupported private key type (%T): %w"
                               [type_name_of key] ErrInvalidKey)
                 end = inl (Some pk)).
  { destruct key as [|[k|]| | | | | | | |]; cbn in Hkey; congruence. }
  replace (match key with nil_any => true | _ => false end) with false
    by (destruct key; [discriminate Hkey|reflexivity..]).
  rewrite Hsel, Hcurve, Hbits, Z.eqb_refl, Hhash. cbn [negb].
  fold (apply_options opts).
  destruct (ecdsa_Sign (randSource (apply_options opts)) pk (Hash_Sum (hash m) msg))
    as [[[r s]|err]|]; try reflexivity.
  rewrite Hkb.
  destruct (Z.ltb_spec (2 * keySize m) 0); [lia|].
  replace (2 * keySize m - keySize m) with (keySize m) by lia.
  reflexivity.
Qed.

(** [Verify] on arguments that pass its checks up to the length check. *)
Lemma ecdsaSigner_Verify_checked (m : ecdsaSigner) (msg signature : bytes) (key : any)
    (pub : ecdsa_PublicKey) (params : CurveParams) :
  msg <> [] ->
  signature <> [] ->
  ecdsa_public_key_value key = Some pub ->
  PubCurve pub = Some params ->
  BitSize params = curveBits m ->
  ecdsaSigner_Verify m msg signature key
  = if negb (len signature =? 2 * keySize m) then
      verify_failed (fmt_Errorf_w "ecdsa: invalid signature length: %w" []
                                  ErrInvalidSignature)
    else if negb (Hash_Available (hash m)) then verify_failed ErrHashUnavailable
    else
      match ecdsa_Verify pub (Hash_Sum (hash m) msg)
              (big_SetBytes (firstn (Z.to_nat (keySize m)) signature))
              (big_SetBytes (skipn (Z.to_nat (keySize m)) signature)) with
      | Panics => Panics
      | Returns true => Returns None
      | Returns false => verify_failed ErrInvalidSignature
      end.
Proof.
  intros Hmsg Hsig Hkey Hcurve Hbits.
  unfold ecdsaSigner_Verify.
  rewrite (len_nonempty _ Hmsg), (len_nonempty _ Hsig).
  assert (Hsel : match key with
                 | ptr_ecdsa_PublicKey k => inl k
                 | val_ecdsa_PublicKey k => inl (Some k)
                 | _ => inr (fmt_Errorf_w
                               "ecdsa: unsupported public key type (%T): %w"
                               [type_name_of key] ErrInvalidKey)
                 end = inl (Some pub)).
  { destruct key as [| | |[k|]| | | | | |]; cbn in Hkey; congruence. }
  replace (match key with nil_any => true | _ => false end) with false
    by (destruct key; [discriminate Hkey|reflexivity..]).
  rewrite Hsel, Hcurve, Hbits, Z.eqb_refl. cbn [negb]. reflexivity.
Qed.
End SignerLemmas.

(** C8 (counterexample).  [Sign] with a message and a nil key fails, but
    not with an error of the [InvalidArgument] kind. *)
Lemma nil_key_is_not_rejected_as_InvalidArgument :
  ~ (exists out e,
        ecdsaSigner_Sign ecdsaSigner_P256 test_message nil_any [] = Returns (out, Some e)
        /\ errors_Is e IsInvalidArgument = true).
Proof.
  intros (out & e & Hsign & Hkind). vm_compute in Hsign.
  injection Hsign as _ <-. discriminate.
Qed.

(** C8 (amended).  For every [Sign] call of either signer, an empty message
    is rejected with an error of the [InvalidArgument] kind, and a nil key
    (under a message that is not empty) with an error of the [InvalidKey]
    kind; both happen whatever the library is, before any of it is
    called. *)
Theorem sign_rejects_empty_message_and_nil_key `{Std : GoStd}
    (m : ecdsaSigner) (m' : ed25519Signer) (key : any) (opts : list SignOption) :
  ecdsaSigner_Sign m [] key opts
  = sign_failed (fmt_Errorf_w "ecdsa: provided msg is nil or empty: %w" []
                              ErrInvalidArgument)
  /\ ed25519Signer_Sign m' [] key opts
     = sign_failed (fmt_Errorf_w "ed25519: provided msg is nil or empty: %w" []
                                 ErrInvalidArgument)
  /\ (forall b msg,
         ecdsaSigner_Sign m (b :: msg) nil_any opts
         = sign_failed (fmt_Errorf_w "ecdsa: provided key is nil: %w" [] ErrInvalidKey)
         /\ ed25519Signer_Sign m' (b :: msg) nil_any opts
            = sign_failed (fmt_Errorf_w "ed25519: provided key is nil: %w" []
                                        ErrInvalidKey))
  /\ (forall format,
         errors_Is (fmt_Errorf_w format [] ErrInvalidArgument) IsInvalidArgument = true
         /\ errors_Is (fmt_Errorf_w format [] ErrInvalidKey) IsInvalidKey = true
         /\ errors_Is (fmt_Errorf_w format [] ErrInvalidKey) IsInvalidArgument = false).
Proof.
  split; [reflexivity|]. split; [reflexivity|]. split.
  - intros b msg. unfold ecdsaSigner_Sign, ed25519Signer_Sign.
    rewrite (len_nonempty (b :: msg)) by discriminate. split; reflexivity.
  - intros format. repeat split.
Qed.

(** C6.  For the two registered ECDSA algorithms and for Ed25519, for every
    message that is not empty and every key pair: when the library signs
    the message with the private key (with components that fit the
    signature halves, for ECDSA) and the library's verification accepts
    that signature under the public key, [Sign] returns a signature and
    [Verify] of the message, that signature and the public key returns no
    error. *)
Theorem sign_then_verify_succeeds `{Std : GoStd} :
  (forall (m : ecdsaSigner) (msg : bytes) (key pubkey : any) (opts : list SignOption)
          (priv : ecdsa_PrivateKey) (params : CurveParams) (r s : Z),
      registered_ecdsa m ->
      msg <> [] ->
      ecdsa_private_key_value key = Some priv ->
      ecdsa_public_key_value pubkey = Some (PublicKey priv) ->
      PubCurve (PublicKey priv) = Some params ->
      BitSize params = curveBits m ->
      Hash_Available (hash m) = true ->
      ecdsa_Sign (randSource (apply_options opts)) priv (Hash_Sum (hash m) msg)
      = Returns (inl (r, s)) ->
      0 < r < 256 ^ keySize m ->
      0 < s < 256 ^ keySize m ->
      ecdsa_Verify (PublicKey priv) (Hash_Sum (hash m) msg) r s = Returns true ->
      exists sig,
        Sign m msg key opts = Returns (sig, None)
        /\ Verify m msg sig pubkey = Returns None)
  /\ (forall (m : ed25519Signer) (msg : bytes) (key pubkey : any)
             (opts : list SignOption) (priv pub sig : bytes),
         msg <> [] ->
         ed25519_private_key_value key = Some priv ->
         ed25519_public_key_value pubkey = Some pub ->
         len priv = ed25519_PrivateKeySize ->
         len pub = ed25519_PublicKeySize ->
         ed25519_PrivateKey_Sign priv (randSource (apply_options opts)) msg Hash0
         = inl sig ->
         sig <> [] ->
         ed25519_Verify pub msg sig = true ->
         Sign m msg key opts = Returns (sig, None)
         /\ Verify m msg sig pubkey = Returns None).
Proof.
  split.
  - intros m msg key pubkey opts priv params r s
           Hm Hmsg Hkey Hpub Hcurve Hbits Hhash Hsign Hr Hs Hverify.
    destruct (registered_ecdsa_key_bytes m Hm) as (_ & Hpos & _).
    assert (Hn : Z.of_nat (Z.to_nat (keySize m)) = keySize m) by lia.
    exists (big_endian (Z.to_nat (keySize m)) r ++ big_endian (Z.to_nat (keySize m)) s).
    cbn [Sign Verify ecdsaSigner_Algorithm]. split.
    + rewrite (ecdsaSigner_Sign_checked m msg key opts priv params) by assumption.
      rewrite Hsign, !big_FillBytes_fits by (rewrite Hn; lia). reflexivity.
    + rewrite (ecdsaSigner_Verify_checked m msg _ pubkey (PublicKey priv) params);
        try assumption.
      * rewrite len_app. unfold len. rewrite !big_endian_length, Hn.
        replace (keySize m + keySize m =? 2 * keySize m) with true
          by (symmetry; apply Z.eqb_eq; lia).
        rewrite Hhash. cbn [negb].
        rewrite firstn_app, skipn_app, big_endian_length, Nat.sub_diag.
        rewrite firstn_all2, skipn_all2 by (rewrite big_endian_length; lia).
        cbn [firstn skipn]. rewrite app_nil_r, ?skipn_O. cbn [app].
        rewrite !big_SetBytes_big_endian, !Z.mod_small by (rewrite ?Hn; lia).
        rewrite Hverify. reflexivity.
      * intros Hnil. apply (f_equal (@length byte)) in Hnil.
        rewrite length_app, !big_endian_length in Hnil. cbn in Hnil. lia.
  - intros m msg key pubkey opts priv pub sig
           Hmsg Hkey Hpub Hplen Hpublen Hsign Hsig Hverify.
    cbn [Sign Verify ed25519Signer_Algorithm]. split.
    + unfold ed25519Signer_Sign. rewrite (len_nonempty _ Hmsg).
      destruct key as [| | | | |[k|]|k| | |]; cbn in Hkey; try discriminate;
        injection Hkey as ->; rewrite Hplen, Z.eqb_refl; cbn [negb];
        fold (apply_options opts); rewrite Hsign; reflexivity.
    + unfold ed25519Signer_Verify.
      rewrite (len_nonempty _ Hmsg), (len_nonempty _ Hsig).
      destruct pubkey as [| | | | | | |[k|]|k|]; cbn in Hpub; try discriminate;
        injection Hpub as ->; rewrite Hpublen, Z.eqb_refl, Hverify; reflexivity.
Qed.

(** The round trip on the test keys, each signing ["test"]: the P-256 key
    by pointer, and the Ed25519 key by value with the signature of the
    repository's tests. *)
Lemma sign_then_verify_succeeds_witness :
  (exists sig,
      Sign ecdsaSigner_P256 test_message
           (ptr_ecdsa_PrivateKey (Some test_ecdsa_private)) [] = Returns (sig, None)
      /\ Verify ecdsaSigner_P256 test_message sig
                (ptr_ecdsa_PublicKey (Some (PublicKey test_ecdsa_private)))
         = Returns None)
  /\ (Sign mk_ed25519Signer test_message (val_ed25519_PrivateKey test_private) []
      = Returns (test_ed25519_signature, None)
      /\ Verify mk_ed25519Signer test_message test_ed25519_signature
                (val_ed25519_PublicKey test_public)
         = Returns None).
Proof.
  split.
  - refine (proj1 (sign_then_verify_succeeds (Std := GoRef))
              ecdsaSigner_P256 test_message _ _ [] test_ecdsa_private P256_params
              (fst test_ecdsa_rs) (snd test_ecdsa_rs) _ _ _ _ _ _ _ _ _ _ _).
    + left. reflexivity.
    + discriminate.
    + reflexivity.
    + reflexivity.
    + reflexivity.
    + reflexivity.
    + reflexivity.
    + exact ecdsa_Sign_test.
    + vm_compute. split; reflexivity.
    + vm_compute. split; reflexivity.
    + exact ecdsa_Verify_test.
  - refine (proj2 (sign_then_verify_succeeds (Std := GoRef))
              mk_ed25519Signer test_message _ _ [] test_private test_public
              test_ed25519_signature _ _ _ _ _ _ _ _).
    + discriminate.
    + reflexivity.
    + reflexivity.
    + reflexivity.
    + reflexivity.
    + exact ed25519_Sign_test.
    + discriminate.
    + exact ed25519_Verify_test.
Defined.

(** C7.  For the two registered ECDSA algorithms.  A successful [Sign]
    returns exactly 2 x keySize bytes: the first keySize bytes are the r of
    the library's signature as a big-endian integer padded with zeros on
    the left, the last keySize bytes are s likewise, with no framing.
    [Verify], once its arguments have passed the checks that come before
    the length check (a message and a signature that are not empty, and an
    ECDSA public key, by pointer or by value, on a curve of the
    algorithm's bit size), rejects every signature whose length differs
    from 2 x keySize with an error of the [InvalidSignature] kind, and
    splits a signature of that length at keySize into the big-endian r and
    s that it hands to the library. *)
Theorem ecdsa_signature_is_r_then_s `{Std : GoStd} (m : ecdsaSigner) :
  registered_ecdsa m ->
  (forall msg key opts sig,
      ecdsaSigner_Sign m msg key opts = Returns (sig, None) ->
      exists priv r s,
        ecdsa_private_key_value key = Some priv
        /\ ecdsa_Sign (randSource (apply_options opts)) priv (Hash_Sum (hash m) msg)
           = Returns (inl (r, s))
        /\ len sig = 2 * keySize m
        /\ sig = big_endian (Z.to_nat (keySize m)) (Z.abs r)
                 ++ big_endian (Z.to_nat (keySize m)) (Z.abs s)
        /\ big_SetBytes (firstn (Z.to_nat (keySize m)) sig) = Z.abs r
        /\ big_SetBytes (skipn (Z.to_nat (keySize m)) sig) = Z.abs s)
  /\ (forall msg signature key pub params,
         msg <> [] ->
         signature <> [] ->
         ecdsa_public_key_value key = Some pub ->
         PubCurve pub = Some params ->
         BitSize params = curveBits m ->
         (len signature <> 2 * keySize m ->
          ecdsaSigner_Verify m msg signature key
          = verify_failed (fmt_Errorf_w "ecdsa: invalid signature length: %w" []
                                        ErrInvalidSignature))
         /\ (len signature = 2 * keySize m ->
             Hash_Available (hash m) = true ->
             ecdsaSigner_Verify m msg signature key
             = match ecdsa_Verify pub (Hash_Sum (hash m) msg)
                       (big_SetBytes (firstn (Z.to_nat (keySize m)) signature))
                       (big_SetBytes (skipn (Z.to_nat (keySize m)) signature)) with
               | Panics => Panics
               | Returns true => Returns None
               | Returns false => verify_failed ErrInvalidSignature
               end))
  /\ errors_Is (fmt_Errorf_w "ecdsa: invalid signature length: %w" []
                             ErrInvalidSignature) IsInvalidSignature = true
  /\ (keySize ecdsaSigner_P256 = 32 /\ keySize ecdsaSigner_P384 = 48).
Proof.
  intros Hm. destruct (registered_ecdsa_key_bytes m Hm) as (Hkb & Hpos & _).
  assert (Hn : Z.of_nat (Z.to_nat (keySize m)) = keySize m) by lia.
  split; [|split; [|split; [reflexivity|split; reflexivity]]].
  - intros msg key opts sig H.
    assert (Hmsg : msg <> []).
    { intros ->. discriminate H. }
    assert (exists priv, ecdsa_private_key_value key = Some priv) as [priv Hkey].
    { unfold ecdsaSigner_Sign in H. rewrite (len_nonempty _ Hmsg) in H.
      destruct key as [|[k|]|k| | | | | | |]; cbn in H; try discriminate;
        eexists; reflexivity. }
    assert (exists params,
               PubCurve (PublicKey priv) = Some params
               /\ BitSize params = curveBits m
               /\ Hash_Available (hash m) = true) as (params & Hcurve & Hbits & Hhash).
    { unfold ecdsaSigner_Sign in H. rewrite (len_nonempty _ Hmsg) in H.
      assert (Hsel : match key with
                     | ptr_ecdsa_PrivateKey k => inl k
                     | val_ecdsa_PrivateKey k => inl (Some k)
                     | _ => inr (fmt_Errorf_w
                                   "ecdsa: unsupported private key type (%T): %w"
                                   [type_name_of key] ErrInvalidKey)
                     end = inl (Some priv)).
      { destruct key as [|[k|]| | | | | | | |]; cbn in Hkey; congruence. }
      replace (match key with nil_any => true | _ => false end) with false in H
        by (destruct key; [discriminate Hkey|reflexivity..]).
      rewrite Hsel in H.
      destruct (PubCurve (PublicKey priv)) as [params|]; [|discriminate].
      destruct (Z.eqb_spec (curveBits m) (BitSize params)); [|discriminate].
      destruct (Hash_Available (hash m)); [|discriminate].
      exists params. auto. }
    rewrite (ecdsaSigner_Sign_checked m msg key opts priv params) in H by assumption.
    destruct (ecdsa_Sign (randSource (apply_options opts)) priv (Hash_Sum (hash m) msg))
      as [[[r s]|err]|] eqn:Esign; try discriminate.
    destruct (big_FillBytes r (Z.to_nat (keySize m))) as [r_bytes|] eqn:Er;
      [|discriminate].
    destruct (big_FillBytes s (Z.to_nat (keySize m))) as [s_bytes|] eqn:Es;
      [|discriminate].
    injection H as <-.
    apply big_FillBytes_inv in Er as (-> & Hrl & Hrv).
    apply big_FillBytes_inv in Es as (-> & Hsl & Hsv).
    exists priv, r, s. split; [exact Hkey|]. split; [exact Esign|].
    split; [rewrite len_app; unfold len; rewrite Hrl, Hsl; lia|].
    split; [reflexivity|].
    rewrite firstn_app, skipn_app, Hrl, Nat.sub_diag.
    rewrite firstn_all2, skipn_all2 by lia.
    cbn [firstn skipn]. rewrite app_nil_r, ?skipn_O. cbn [app]. auto.
  - intros msg signature key pub params Hmsg Hsig Hkey Hcurve Hbits.
    rewrite (ecdsaSigner_Verify_checked m msg signature key pub params) by assumption.
    split.
    + intros Hlen.
      destruct (Z.eqb_spec (len signature) (2 * keySize m)); [contradiction|].
      reflexivity.
    + intros Hlen Hhash. rewrite Hlen, Z.eqb_refl, Hhash. reflexivity.
Qed.

(** [Sign] with the ECDSA test key, from the library's signing call. *)
Lemma ecdsaSigner_Sign_test :
  ecdsaSigner_Sign ecdsaSigner_P256 test_message
                   (ptr_ecdsa_PrivateKey (Some test_ecdsa_private)) []
  = Returns (test_ecdsa_own_signature, None).
Proof.
  rewrite (ecdsaSigner_Sign_checked ecdsaSigner_P256 test_message _ []
             test_ecdsa_private P256_params);
    [|left; reflexivity|discriminate|reflexivity..].
  cbn [apply_options fold_left randSource hash ecdsaSigner_P256].
  rewrite ecdsa_Sign_test. vm_compute. reflexivity.
Qed.

(** The layout on the signature of the test key, and the check of "invalid
    signature length" in [Test_ecdsaSigner_Verify]. *)
Lemma ecdsa_signature_is_r_then_s_witness :
  (exists priv r s,
      ecdsa_private_key_value (ptr_ecdsa_PrivateKey (Some test_ecdsa_private)) = Some priv
      /\ ecdsa_Sign (randSource (apply_options [])) priv
                    (Hash_Sum (hash ecdsaSigner_P256) test_message)
         = Returns (inl (r, s))
      /\ len test_ecdsa_own_signature = 2 * keySize ecdsaSigner_P256
      /\ test_ecdsa_own_signature
         = big_endian (Z.to_nat (keySize ecdsaSigner_P256)) (Z.abs r)
           ++ big_endian (Z.to_nat (keySize ecdsaSigner_P256)) (Z.abs s)
      /\ big_SetBytes (firstn (Z.to_nat (keySize ecdsaSigner_P256))
                              test_ecdsa_own_signature) = Z.abs r
      /\ big_SetBytes (skipn (Z.to_nat (keySize ecdsaSigner_P256))
                             test_ecdsa_own_signature) = Z.abs s)
  /\ ecdsaSigner_Verify ecdsaSigner_P256 test_message [x00]
       (ptr_ecdsa_PublicKey (Some (PublicKey test_ecdsa_private)))
     = verify_failed (fmt_Errorf_w "ecdsa: invalid signature length: %w" []
                                   ErrInvalidSignature).
Proof.
  pose proof (ecdsa_signature_is_r_then_s (Std := GoRef) ecdsaSigner_P256
                (or_introl eq_refl)) as (Hsign & Hverify & _).
  split.
  - apply (Hsign test_message (ptr_ecdsa_PrivateKey (Some test_ecdsa_private)) []).
    exact ecdsaSigner_Sign_test.
  - refine (proj1 (Hverify test_message [x00]
              (ptr_ecdsa_PublicKey (Some (PublicKey test_ecdsa_private)))
              (PublicKey test_ecdsa_private) P256_params _ _ _ _ _) _).
    + discriminate.
    + discriminate.
    + reflexivity.
    + reflexivity.
    + reflexivity.
    + vm_compute. discriminate.
Defined.

(** ** The registry *)

Lemma init_returns : init initial_State = Returns initialised_State.
Proof. vm_compute. reflexivity. Qed.

(** C9 (counterexample).  After [init], the lookup of a registered name
    returns an algorithm that is not freshly constructed: the struct it
    points to is already in the heap the lookup starts from, and the lookup
    allocates nothing. *)
Lemma registered_algorithm_is_not_freshly_constructed :
  exists a,
    init initial_State = Returns initialised_State
    /\ GetAlgorithm "ecdsa-sha2-nistp256" initialised_State
       = Returns (a, initialised_State)
    /\ ~ freshly_constructed (memory initialised_State) a.
Proof.
  exists (ptr_ecdsaSigner 2%positive). split; [exact init_returns|]. split.
  - vm_compute. reflexivity.
  - vm_compute. discriminate.
Qed.

(** C9 (amended).  For every name with no registered entry, [GetAlgorithm]
    returns nil and leaves the state as it is; it neither fails nor panics.
    For every name registered with a builder, it returns what that builder
    returns.  The three builders that [init] registers return the value of
    a package-level variable, which after [init] points to a struct
    allocated by [init]: every lookup returns that same shared algorithm
    and allocates nothing. *)
Theorem GetAlgorithm_resolves (name : string) (st : State) :
  (registry st !! name = None -> GetAlgorithm name st = Returns (nil_Algorithm, st))
  /\ (forall run,
         registry st !! name = Some (stored_Builder (Some run)) ->
         GetAlgorithm name st
         = ('(alg, mem) ← run (memory st);
            Returns (alg, {| memory := mem; registry := registry st |})))
  /\ (registry st !! name = Some (stored_Builder builder_Ed25519) ->
      GetAlgorithm name st = Returns (Ed25519 (memory st), st))
  /\ (registry st !! name = Some (stored_Builder builder_ECDSA_P256_SHA256) ->
      GetAlgorithm name st = Returns (ECDSA_P256_SHA256 (memory st), st))
  /\ (registry st !! name = Some (stored_Builder builder_ECDSA_P384_SHA384) ->
      GetAlgorithm name st = Returns (ECDSA_P384_SHA384 (memory st), st))
  /\ (st = initialised_State ->
      registry st !! "ed25519" = Some (stored_Builder builder_Ed25519)
      /\ registry st !! "ecdsa-sha2-nistp256"
         = Some (stored_Builder builder_ECDSA_P256_SHA256)
      /\ registry st !! "ecdsa-sha384-nistp384"
         = Some (stored_Builder builder_ECDSA_P384_SHA384)
      /\ ~ freshly_constructed (memory st) (Ed25519 (memory st))
      /\ ~ freshly_constructed (memory st) (ECDSA_P256_SHA256 (memory st))
      /\ ~ freshly_constructed (memory st) (ECDSA_P384_SHA384 (memory st))).
Proof.
  unfold GetAlgorithm.
  split; [intros ->; reflexivity|].
  split; [intros run ->; reflexivity|].
  split; [intros ->; destruct st; reflexivity|].
  split; [intros ->; destruct st; reflexivity|].
  split; [intros ->; destruct st; reflexivity|].
  intros ->. repeat split; try (vm_compute; reflexivity); vm_compute; discriminate.
Qed.

(** The lookups of the registry tests: an unknown name, and the three
    registered names, each looked up in the state that [init] leaves. *)
Lemma GetAlgorithm_resolves_witness :
  GetAlgorithm "not-existent" initialised_State
  = Returns (nil_Algorithm, initialised_State)
  /\ GetAlgorithm "ed25519" initialised_State
     = Returns (Ed25519 (memory initialised_State), initialised_State)
  /\ GetAlgorithm "ecdsa-sha2-nistp256" initialised_State
     = Returns (ECDSA_P256_SHA256 (memory initialised_State), initialised_State)
  /\ GetAlgorithm "ecdsa-sha384-nistp384" initialised_State
     = Returns (ECDSA_P384_SHA384 (memory initialised_State), initialised_State).
Proof.
  split; [|split; [|split]].
  - apply (proj1 (GetAlgorithm_resolves "not-existent" initialised_State)).
    vm_compute. reflexivity.
  - apply (proj1 (proj2 (proj2 (GetAlgorithm_resolves "ed25519" initialised_State)))).
    vm_compute. reflexivity.
  - apply (proj1 (proj2 (proj2 (proj2
             (GetAlgorithm_resolves "ecdsa-sha2-nistp256" initialised_State))))).
    vm_compute. reflexivity.
  - apply (proj1 (proj2 (proj2 (proj2 (proj2
             (GetAlgorithm_resolves "ecdsa-sha384-nistp384" initialised_State)))))).
    vm_compute. reflexivity.
Defined.

(** * Further properties of the code *)

(** ** Package key: the decoders *)

Section KeyProperties.
Context `{Std : GoStd} `{Data : TufData} `{Table : LowOrderTable}.

(** X1.  [unmarshalEd25519Key] accepts a decoded envelope exactly when the
    public key has 32 bytes and is not reported by [isEdLowOrder], and
    either there is no private part, and the result is the public key by
    value, or the private part has 64 bytes and the key pair that the
    library generates from a reader over it has the declared public key,
    and the result is the private bytes by value, unchanged. *)
Theorem unmarshalEd25519Key_accepts_exactly (raw : jsonKeyPair) (k : any) :
  unmarshalEd25519Key (Some raw) = (k, None)
  <-> len (Public raw) = 32
      /\ isEdLowOrder (Public raw) = false
      /\ match Private raw with
         | None => k = val_ed25519_PublicKey (Public raw)
         | Some private =>
           len private = 64
           /\ (exists generated,
                  ed25519_GenerateKey (bytes_NewReader private)
                  = inl (Public raw, generated))
           /\ k = val_ed25519_PrivateKey private
         end.
Proof.
  split.
  - intros H. split; [|split].
    + apply (unmarshalEd25519Key_success raw k H).
    + unfold unmarshalEd25519Key in H.
      destruct (negb (len (Public raw) =? ed25519_PublicKeySize)); [discriminate|].
      destruct (isEdLowOrder (Public raw)); [discriminate|reflexivity].
    + apply (unmarshalEd25519Key_success raw k H).
  - intros (Hlen & Hlow & Hpriv). unfold unmarshalEd25519Key.
    change ed25519_PublicKeySize with 32. change ed25519_PrivateKeySize with 64.
    rewrite Hlen, Hlow. cbn [Z.eqb Pos.eqb negb].
    destruct (Private raw) as [private|].
    + destruct Hpriv as (Hplen & (generated & Hgen) & ->).
      rewrite Hplen, Hgen. cbn [Z.eqb Pos.eqb negb].
      replace (subtle_ConstantTimeCompare (Public raw) (Public raw)) with 1
        by (symmetry; apply subtle_ConstantTimeCompare_eq; reflexivity).
      reflexivity.
    + rewrite Hpriv. reflexivity.
Qed.

(** An envelope that satisfies every check of [unmarshalECDSAKey] is
    decoded. *)
Lemma unmarshalECDSAKey_accepted (raw : jsonKeyPair) (tag : byte) (rest : bytes)
    (x y : Z) :
  Public raw = tag :: rest ->
  (byte_to_Z tag = 2 \/ byte_to_Z tag = 3)
    /\ elliptic_UnmarshalCompressed P256_params (Public raw) = Some (x, y)
  \/ byte_to_Z tag = 4
    /\ elliptic_Unmarshal P256_params (Public raw) = Some (x, y) ->
  Curve_IsOnCurve P256_params x y = true ->
  let pub := {| PubCurve := elliptic_P256; X := Some x; Y := Some y |} in
  match Private raw with
  | None => unmarshalECDSAKey (Some raw) = (ptr_ecdsa_PublicKey (Some pub), None)
  | Some scalar =>
    len scalar = 32 ->
    Curve_ScalarBaseMult P256_params scalar = (x, y) ->
    unmarshalECDSAKey (Some raw)
    = (ptr_ecdsa_PrivateKey
         (Some {| PublicKey := pub; D := Some (big_SetBytes scalar) |}), None)
  end.
Proof.
  intros Hpub Hdec Hon pub. subst pub.
  unfold unmarshalECDSAKey. rewrite Hpub in *.
  assert (Hdecoded :
    (if (byte_to_Z tag =? 2) || (byte_to_Z tag =? 3)
     then inl (elliptic_UnmarshalCompressed P256_params (tag :: rest))
     else if byte_to_Z tag =? 4
          then inl (elliptic_Unmarshal P256_params (tag :: rest))
          else inr (errors_New "key: unsupported ecdsa public key encoding"))
    = inl (Some (x, y))).
  { destruct Hdec as [[[-> | ->] ->] | [-> ->]]; reflexivity. }
  rewrite Hdecoded, Hon. cbn [negb].
  destruct (Private raw) as [scalar|]; [|reflexivity].
  intros Hlen Hmul.
  rewrite Hlen, Hmul. change (curveByteSize P256_params) with 32.
  cbn [Z.eqb Pos.eqb negb].
  replace (big_Cmp x x =? 0) with true
    by (symmetry; apply Z.eqb_eq, big_Cmp_eq; reflexivity).
  replace (big_Cmp y y =? 0) with true
    by (symmetry; apply Z.eqb_eq, big_Cmp_eq; reflexivity).
  reflexivity.
Qed.

(** X2.  [unmarshalECDSAKey] accepts a decoded envelope exactly when the
    public part starts with the tag 2 or 3 and the library decodes it as a
    compressed P-256 point, or starts with the tag 4 and the library
    decodes it as an uncompressed point; the point passes [IsOnCurve]; and
    either there is no private part, and the result is a pointer to the
    public key, or the private part has 32 bytes and the base point
    multiplied by it is the declared point, and the result is a pointer to
    the private key whose scalar is the private part read as a big-endian
    integer. *)
Theorem unmarshalECDSAKey_accepts_exactly (raw : jsonKeyPair) (k : any) :
  unmarshalECDSAKey (Some raw) = (k, None)
  <-> exists tag rest x y,
        Public raw = tag :: rest
        /\ ((byte_to_Z tag = 2 \/ byte_to_Z tag = 3)
              /\ elliptic_UnmarshalCompressed P256_params (Public raw) = Some (x, y)
            \/ byte_to_Z tag = 4
              /\ elliptic_Unmarshal P256_params (Public raw) = Some (x, y))
        /\ Curve_IsOnCurve P256_params x y = true
        /\ match Private raw with
           | None =>
             k = ptr_ecdsa_PublicKey
                   (Some {| PubCurve := elliptic_P256; X := Some x; Y := Some y |})
           | Some scalar =>
             len scalar = 32
             /\ Curve_ScalarBaseMult P256_params scalar = (x, y)
             /\ k = ptr_ecdsa_PrivateKey
                      (Some {| PublicKey := {| PubCurve := elliptic_P256;
                                               X := Some x; Y := Some y |};
                               D := Some (big_SetBytes scalar) |})
           end.
Proof.
  split.
  - intros H. destruct (unmarshalECDSAKey_success raw k H)
      as (tag & rest & x & y & Hpub & Hdec & Hon & _ & Hpriv).
    exists tag, rest, x, y. auto.
  - intros (tag & rest & x & y & Hpub & Hdec & Hon & Hpriv).
    pose proof (unmarshalECDSAKey_accepted raw tag rest x y Hpub Hdec Hon) as H.
    cbv zeta in H. destruct (Private raw) as [scalar|].
    + destruct Hpriv as (Hlen & Hmul & ->). apply H; assumption.
    + rewrite Hpriv. exact H.
Qed.

(** A decode of an Ed25519 envelope either fails with a nil key or succeeds. *)
Lemma unmarshalEd25519Key_cases (raw : option jsonKeyPair) :
  (exists e, unmarshalEd25519Key raw = failed e)
  \/ (exists k, unmarshalEd25519Key raw = (k, None)).
Proof.
  unfold unmarshalEd25519Key. repeat case_match; eauto.
Qed.

(** What the dispatch on the record's type returns: an error with a nil
    key, or a key of the form that belongs to the type. *)
Lemma dispatch_key_form (unsupported type : string) (key : jsonKeyPair) :
  match dispatch unsupported type key with
  | (k, Some _) => k = nil_any
  | (k, None) => key_form type k
  end.
Proof.
  unfold dispatch.
  destruct (String.eqb_spec type KeyTypeEd25519) as [->|_].
  { destruct (unmarshalEd25519Key_cases (Some key)) as [[e ->]|[k Hk]];
      [reflexivity|].
    rewrite Hk. apply unmarshalEd25519Key_success in Hk as (Hlen & _ & Hpriv).
    destruct (Private key) as [private|].
    - destruct Hpriv as (Hplen & _ & ->). split; [reflexivity|exact Hplen].
    - subst k. split; [reflexivity|exact Hlen]. }
  destruct (String.eqb_spec type KeyTypeECDSA_SHA2_P256) as [->|_].
  { destruct (unmarshalECDSAKey_cases (Some key)) as [[e ->]|[k Hk]];
      [reflexivity|].
    rewrite Hk. apply unmarshalECDSAKey_success in Hk
      as (tag & rest & x & y & _ & _ & _ & _ & Hpriv).
    destruct (Private key) as [scalar|].
    - destruct Hpriv as (_ & _ & ->). cbn. eauto 6.
    - subst k. cbn. eauto. }
  destruct (String.eqb_spec type KeyTypeRSASSA_PSS_SHA256) as [->|_];
    reflexivity.
Qed.

(** X3.  Whatever the record, each entry point returns either an error
    together with the nil key, or no error together with a key of the form
    that belongs to the record's type: an Ed25519 public key of 32 bytes or
    private key of 64 bytes, by value; a non-nil pointer to an ECDSA
    public or private key on P-256 with all its numbers set; and, for the
    RSA type only, the nil key. *)
Theorem entry_points_return_error_or_key (type : string) (value : bytes) :
  match FromPrivateKey (Some {| PrivateKey_Type := type; PrivateKey_Value := value |}) with
  | (k, Some _) => k = nil_any
  | (k, None) => key_form type k
  end
  /\ match FromPublicKey (Some {| PublicKey_Type := type; PublicKey_Value := value |}) with
     | (k, Some _) => k = nil_any
     | (k, None) => key_form type k
     end.
Proof.
  destruct (json_Decode (io_LimitReader (bytes_NewReader value) MaxKeyInputSize))
    as [key|err] eqn:Edec.
  - rewrite (FromPrivateKey_decoded type value key Edec),
            (FromPublicKey_decoded type value key Edec).
    split; apply dispatch_key_form.
  - rewrite (FromPrivateKey_undecoded type value err Edec),
            (FromPublicKey_undecoded type value err Edec).
    split; reflexivity.
Qed.

(** X4.  For a record whose type is none of the three key types of the
    switch, both entry points fail: with the decoder's error, wrapped, when
    the envelope does not decode (the type is looked at after the
    envelope), and otherwise with the unsupported-type error that quotes
    the type.  A nil record fails before anything is read. *)
Theorem unknown_key_type_is_rejected (type : string) (value : bytes) :
  type <> KeyTypeEd25519 ->
  type <> KeyTypeECDSA_SHA2_P256 ->
  type <> KeyTypeRSASSA_PSS_SHA256 ->
  let decoded := json_Decode (io_LimitReader (bytes_NewReader value) MaxKeyInputSize) in
  FromPrivateKey (Some {| PrivateKey_Type := type; PrivateKey_Value := value |})
  = failed match decoded with
           | inr err => fmt_Errorf_w "key: unable to decode the key components: %w" [] err
           | inl _ => fmt_Errorf "key: unsupported private key type %q" [type]
           end
  /\ FromPublicKey (Some {| PublicKey_Type := type; PublicKey_Value := value |})
     = failed match decoded with
              | inr err => fmt_Errorf_w "key: unable to decode the key components: %w" [] err
              | inl _ => fmt_Errorf "key: unsupported public key type %q" [type]
              end
  /\ FromPrivateKey None = failed (errors_New "key: invalid private key object")
  /\ FromPublicKey None = failed (errors_New "key: invalid public key object").
Proof.
  intros H1 H2 H3 decoded. subst decoded.
  unfold FromPrivateKey, FromPublicKey.
  cbn [PrivateKey_Type PrivateKey_Value PublicKey_Type PublicKey_Value].
  destruct (json_Decode (io_LimitReader (bytes_NewReader value) MaxKeyInputSize))
    as [key|err]; [|auto].
  destruct (String.eqb_spec type KeyTypeEd25519); [contradiction|].
  destruct (String.eqb_spec type KeyTypeECDSA_SHA2_P256); [contradiction|].
  destruct (String.eqb_spec type KeyTypeRSASSA_PSS_SHA256); [contradiction|].
  auto.
Qed.

(** X5.  For a curve of a non-negative bit size, [curveByteSize] is the
    number of bytes that hold that many bits: the bit size divided by 8,
    rounded up.  It is also the length that [Sign] of the ECDSA signers
    computes for each half of a signature. *)
Theorem curveByteSize_rounds_up (params : CurveParams) :
  0 <= BitSize params ->
  curveByteSize params = (BitSize params + 7) / 8
  /\ BitSize params <= 8 * curveByteSize params < BitSize params + 8
  /\ curveByteSize params
     = (if Z.rem (BitSize params) 8 >? 0
        then Z.quot (BitSize params) 8 + 1 else Z.quot (BitSize params) 8).
Proof.
  intros Hbits. unfold curveByteSize. cbv zeta.
  rewrite Z.quot_div_nonneg, Z.rem_mod_nonneg by lia.
  pose proof (Z.mod_pos_bound (BitSize params) 8 ltac:(lia)) as Hmod.
  pose proof (Z.div_mod (BitSize params) 8 ltac:(lia)) as Hdiv.
  assert (Hup : (BitSize params + 7) / 8
                = if BitSize params mod 8 =? 0
                  then BitSize params / 8 else BitSize params / 8 + 1).
  { destruct (Z.eqb_spec (BitSize params mod 8) 0) as [E|E].
    - symmetry. apply (Z.div_unique _ 8 _ 7); lia.
    - symmetry. apply (Z.div_unique _ 8 _ (BitSize params mod 8 - 1)); lia. }
  rewrite Hup.
  destruct (Z.eqb_spec (BitSize params mod 8) 0) as [E|E]; cbn [negb].
  - rewrite E. cbn. split; [reflexivity|]. split; [lia|reflexivity].
  - replace (BitSize params mod 8 >? 0) with true by (symmetry; apply Z.gtb_lt; lia).
    split; [reflexivity|]. split; [lia|reflexivity].
Qed.

End KeyProperties.

(** The unknown type and the empty record of [TestFromPrivateKey], and the
    nil record. *)
Lemma unknown_key_type_is_rejected_witness :
  FromPrivateKey (Some {| PrivateKey_Type := "unknown"; PrivateKey_Value := test_public_json |})
  = failed (fmt_Errorf "key: unsupported private key type %q" ["unknown"])
  /\ FromPublicKey (Some {| PublicKey_Type := "unknown"; PublicKey_Value := test_public_json |})
     = failed (fmt_Errorf "key: unsupported public key type %q" ["unknown"])
  /\ FromPrivateKey None = failed (errors_New "key: invalid private key object")
  /\ FromPublicKey None = failed (errors_New "key: invalid public key object").
Proof.
  pose proof (unknown_key_type_is_rejected (Std := GoRef) (Data := SpecData)
                "unknown" test_public_json
                ltac:(vm_compute; discriminate) ltac:(vm_compute; discriminate)
                ltac:(vm_compute; discriminate)) as H.
  cbv zeta in H. rewrite json_Decode_test_public in H. exact H.
Defined.

(** The curves P-256 and P-384, and a curve of 521 bits. *)
Lemma curveByteSize_rounds_up_witness :
  curveByteSize P256_params = 32
  /\ curveByteSize P384_params = 48
  /\ curveByteSize {| P := 2 ^ 521 - 1; N := 0; B := 0; Gx := 0; Gy := 0;
                      BitSize := 521; CurveName := "P-521" |} = 66.
Proof.
  split; [|split].
  - apply (proj1 (curveByteSize_rounds_up P256_params ltac:(vm_compute; discriminate))).
  - apply (proj1 (curveByteSize_rounds_up P384_params ltac:(vm_compute; discriminate))).
  - refine (proj1 (curveByteSize_rounds_up
             {| P := 2 ^ 521 - 1; N := 0; B := 0; Gx := 0; Gy := 0;
                BitSize := 521; CurveName := "P-521" |} _)).
    vm_compute. discriminate.
Defined.

(** ** Package signatures: the signers *)

Section SignerProperties.
Context `{Std : GoStd}.

(** X6.  A signer checks the bit size of the key's curve against its own
    before anything else is done with the key: for a message that is not
    empty, [Sign] with a private key of another curve size, and [Verify]
    of any non-empty signature with a public key of another curve size,
    return the curve-mismatch error, of the [InvalidKey] kind, whatever
    the options, the signature and the library. *)
Theorem ecdsa_key_of_another_curve_is_rejected
    (m : ecdsaSigner) (msg : bytes) (params : CurveParams) :
  msg <> [] ->
  curveBits m <> BitSize params ->
  let mismatch :=
    fmt_Errorf_w
      "ecdsa: can't use the provided key with this signer instance, curve mismatch: %w"
      [] ErrInvalidKey in
  (forall key pk opts,
      ecdsa_private_key_value key = Some pk ->
      PubCurve (PublicKey pk) = Some params ->
      ecdsaSigner_Sign m msg key opts = sign_failed mismatch)
  /\ (forall key pub signature,
         signature <> [] ->
         ecdsa_public_key_value key = Some pub ->
         PubCurve pub = Some params ->
         ecdsaSigner_Verify m msg signature key = verify_failed mismatch)
  /\ error_kinds mismatch = [IsInvalidKey].
Proof.
  intros Hmsg Hbits mismatch. split; [|split; [|reflexivity]].
  - intros key pk opts Hkey Hcurve. unfold ecdsaSigner_Sign.
    rewrite (len_nonempty _ Hmsg).
    destruct key as [|[k|]|k| | | | | | |]; cbn in Hkey; try discriminate;
      injection Hkey as ->; rewrite Hcurve;
      destruct (Z.eqb_spec (curveBits m) (BitSize params));
      (contradiction || reflexivity).
  - intros key pub signature Hsig Hkey Hcurve. unfold ecdsaSigner_Verify.
    rewrite (len_nonempty _ Hmsg), (len_nonempty _ Hsig).
    destruct key as [| | |[k|]|k| | | | |]; cbn in Hkey; try discriminate;
      injection Hkey as ->; rewrite Hcurve;
      destruct (Z.eqb_spec (curveBits m) (BitSize params));
      (contradiction || reflexivity).
Qed.

(** X7.  Every error that the signers return is classified.  An error of
    the ECDSA [Sign] and [Verify] and of the Ed25519 [Verify] carries
    exactly one of the four kinds of [api.go]; an error of the Ed25519
    [Sign] carries exactly one kind or wraps the error of the library's
    signing call.  [Sign] returns no signature bytes together with an
    error. *)
Theorem signer_errors_are_classified :
  (forall (m : ecdsaSigner) msg key opts out e,
      ecdsaSigner_Sign m msg key opts = Returns (out, Some e) ->
      out = [] /\ length (error_kinds e) = 1%nat)
  /\ (forall (m : ecdsaSigner) msg signature key e,
         ecdsaSigner_Verify m msg signature key = Returns (Some e) ->
         length (error_kinds e) = 1%nat)
  /\ (forall (m : ed25519Signer) msg key opts out e,
         ed25519Signer_Sign m msg key opts = Returns (out, Some e) ->
         out = []
         /\ (length (error_kinds e) = 1%nat
             \/ exists pk err,
                  ed25519_private_key_value key = Some pk
                  /\ ed25519_PrivateKey_Sign pk (randSource (apply_options opts)) msg Hash0
                     = inr err
                  /\ e = fmt_Errorf_w "ed25519: unable to sign payload: %w" [] err))
  /\ (forall (m : ed25519Signer) msg signature key e,
         ed25519Signer_Verify m msg signature key = Returns (Some e) ->
         length (error_kinds e) = 1%nat).
Proof.
  split; [|split; [|split]].
  - intros m msg key opts out e. unfold ecdsaSigner_Sign, sign_failed.
    repeat case_match; try discriminate; intros [= <- <-]; split; reflexivity.
  - intros m msg signature key e. unfold ecdsaSigner_Verify, verify_failed.
    repeat case_match; try discriminate; intros [= <-]; reflexivity.
  - intros m msg key opts out e. unfold ed25519Signer_Sign, sign_failed.
    fold (apply_options opts).
    repeat case_match; try discriminate; intros [= <- <-];
      (split; [reflexivity|]); try (left; reflexivity);
      right; subst; eauto.
  - intros m msg signature key e. unfold ed25519Signer_Verify, verify_failed.
    repeat case_match; try discriminate; intros [= <-]; reflexivity.
Qed.

(** X8.  A key handed over by value is treated as the same key handed
    over by pointer, in both signers and both operations.  A pointer that
    is nil inside the interface value is not the nil key: it passes the
    nil check and the type switch, and the call panics on the first use of
    the key. *)
Theorem key_by_value_is_key_by_pointer :
  (forall (m : ecdsaSigner) msg k opts,
      ecdsaSigner_Sign m msg (val_ecdsa_PrivateKey k) opts
      = ecdsaSigner_Sign m msg (ptr_ecdsa_PrivateKey (Some k)) opts)
  /\ (forall (m : ecdsaSigner) msg signature k,
         ecdsaSigner_Verify m msg signature (val_ecdsa_PublicKey k)
         = ecdsaSigner_Verify m msg signature (ptr_ecdsa_PublicKey (Some k)))
  /\ (forall (m : ed25519Signer) msg k opts,
         ed25519Signer_Sign m msg (val_ed25519_PrivateKey k) opts
         = ed25519Signer_Sign m msg (ptr_ed25519_PrivateKey (Some k)) opts)
  /\ (forall (m : ed25519Signer) msg signature k,
         ed25519Signer_Verify m msg signature (val_ed25519_PublicKey k)
         = ed25519Signer_Verify m msg signature (ptr_ed25519_PublicKey (Some k)))
  /\ (forall (m : ecdsaSigner) (m' : ed25519Signer) b msg c signature opts,
         ecdsaSigner_Sign m (b :: msg) (ptr_ecdsa_PrivateKey None) opts = Panics
         /\ ecdsaSigner_Verify m (b :: msg) (c :: signature) (ptr_ecdsa_PublicKey None)
            = Panics
         /\ ed25519Signer_Sign m' (b :: msg) (ptr_ed25519_PrivateKey None) opts = Panics
         /\ ed25519Signer_Verify m' (b :: msg) (c :: signature)
                                 (ptr_ed25519_PublicKey None) = Panics).
Proof.
  split; [reflexivity|]. split; [reflexivity|].
  split; [reflexivity|]. split; [reflexivity|].
  intros m m' b msg c signature opts.
  unfold ecdsaSigner_Sign, ecdsaSigner_Verify, ed25519Signer_Sign, ed25519Signer_Verify.
  rewrite (len_nonempty (b :: msg)), ?(len_nonempty (c :: signature)) by discriminate.
  repeat split.
Qed.

(** X9.  The ECDSA [Verify] returns no error exactly when the message and
    the signature are not empty, the key is an ECDSA public key (by
    pointer or by value) on a curve of the signer's bit size, the
    signature has twice the signer's key size, the signer's hash is
    available, and the library accepts the digest of the message with the
    two halves of the signature read as big-endian integers. *)
Theorem ecdsa_Verify_accepts_exactly (m : ecdsaSigner) (msg signature : bytes) (key : any) :
  ecdsaSigner_Verify m msg signature key = Returns None
  <-> msg <> [] /\ signature <> []
      /\ len signature = 2 * keySize m
      /\ Hash_Available (hash m) = true
      /\ exists pub params,
           ecdsa_public_key_value key = Some pub
           /\ PubCurve pub = Some params
           /\ BitSize params = curveBits m
           /\ ecdsa_Verify pub (Hash_Sum (hash m) msg)
                (big_SetBytes (firstn (Z.to_nat (keySize m)) signature))
                (big_SetBytes (skipn (Z.to_nat (keySize m)) signature))
              = Returns true.
Proof.
  split.
  - intros H.
    assert (Hmsg : msg <> []) by (intros ->; discriminate H).
    assert (Hsig : signature <> []).
    { intros ->. unfold ecdsaSigner_Verify in H.
      rewrite (len_nonempty _ Hmsg) in H. discriminate H. }
    assert (exists pub params,
               ecdsa_public_key_value key = Some pub
               /\ PubCurve pub = Some params
               /\ BitSize params = curveBits m) as (pub & params & Hkey & Hcurve & Hbits).
    { unfold ecdsaSigner_Verify in H.
      rewrite (len_nonempty _ Hmsg), (len_nonempty _ Hsig) in H.
      destruct key as [| | |[k|]|k| | | | |]; cbn in H; try discriminate;
        (destruct (PubCurve k) as [params|] eqn:Ecurve; [|discriminate]);
        (destruct (Z.eqb_spec (curveBits m) (BitSize params)); [|discriminate]);
        exists k, params; repeat split; congruence. }
    rewrite (ecdsaSigner_Verify_checked m msg signature key pub params) in H
      by assumption.
    destruct (Z.eqb_spec (len signature) (2 * keySize m)) as [Hlen|]; [|discriminate].
    destruct (Hash_Available (hash m)); [|discriminate]. cbn [negb] in H.
    destruct (ecdsa_Verify pub (Hash_Sum (hash m) msg) _ _) as [[|]|] eqn:Everify;
      try discriminate.
    eauto 12.
  - intros (Hmsg & Hsig & Hlen & Hhash & pub & params & Hkey & Hcurve & Hbits & Hverify).
    rewrite (ecdsaSigner_Verify_checked m msg signature key pub params) by assumption.
    rewrite Hlen, Z.eqb_refl, Hhash, Hverify. reflexivity.
Qed.

(** X10.  The Ed25519 [Sign] returns a signature without error exactly
    when the message is not empty, the key is an Ed25519 private key (by
    pointer or by value) of 64 bytes, and the library's signing call with
    the selected random source returns that signature.  The Ed25519
    [Verify] returns no error exactly when the message and the signature
    are not empty, the key is an Ed25519 public key of 32 bytes, and the
    library accepts the signature. *)
Theorem ed25519_accepts_exactly (m : ed25519Signer) (msg : bytes) (key : any) :
  (forall opts signature,
      ed25519Signer_Sign m msg key opts = Returns (signature, None)
      <-> msg <> []
          /\ exists pk,
               ed25519_private_key_value key = Some pk
               /\ len pk = 64
               /\ ed25519_PrivateKey_Sign pk (randSource (apply_options opts)) msg Hash0
                  = inl signature)
  /\ (forall signature,
         ed25519Signer_Verify m msg signature key = Returns None
         <-> msg <> [] /\ signature <> []
             /\ exists pub,
                  ed25519_public_key_value key = Some pub
                  /\ len pub = 32
                  /\ ed25519_Verify pub msg signature = true).
Proof.
  split.
  - intros opts signature. unfold ed25519Signer_Sign. fold (apply_options opts).
    change ed25519_PrivateKeySize with 64. split.
    + intros H.
      assert (Hmsg : msg <> []) by (intros ->; discriminate H).
      rewrite (len_nonempty _ Hmsg) in H. split; [exact Hmsg|].
      destruct key as [| | | | |[k|]|k| | |]; cbn in H; try discriminate;
        (destruct (Z.eqb_spec (len k) 64) as [Hlen|]; [|discriminate]);
        cbn [negb] in H;
        (destruct (ed25519_PrivateKey_Sign k _ msg Hash0) as [sig|err] eqn:Esign;
         [|discriminate]);
        injection H as <-; exists k; auto.
    + intros (Hmsg & pk & Hkey & Hlen & Hsign). rewrite (len_nonempty _ Hmsg).
      destruct key as [| | | | |[k|]|k| | |]; cbn in Hkey; try discriminate;
        injection Hkey as ->; rewrite Hlen, Hsign; reflexivity.
  - intros signature. unfold ed25519Signer_Verify.
    change ed25519_PublicKeySize with 32. split.
    + intros H.
      assert (Hmsg : msg <> []) by (intros ->; discriminate H).
      rewrite (len_nonempty _ Hmsg) in H.
      assert (Hsig : signature <> []) by (intros ->; discriminate H).
      rewrite (len_nonempty _ Hsig) in H. split; [exact Hmsg|]. split; [exact Hsig|].
      destruct key as [| | | | | | |[k|]|k|]; cbn in H; try discriminate;
        (destruct (Z.eqb_spec (len k) 32) as [Hlen|]; [|discriminate]);
        cbn [negb] in H;
        (destruct (ed25519_Verify k msg signature) eqn:Everify; [|discriminate]);
        exists k; auto.
    + intros (Hmsg & Hsig & pub & Hkey & Hlen & Hverify).
      rewrite (len_nonempty _ Hmsg), (len_nonempty _ Hsig).
      destruct key as [| | | | | | |[k|]|k|]; cbn in Hkey; try discriminate;
        injection Hkey as ->; rewrite Hlen, Hverify; reflexivity.
Qed.

(** X11.  An Ed25519 key of another length than the library's is rejected
    with an error of the [InvalidKey] kind before the library is called:
    [Sign] wants a private key of 64 bytes (the 32-byte seed alone is not
    one), [Verify] a public key of 32 bytes. *)
Theorem ed25519_key_of_another_length_is_rejected
    (m : ed25519Signer) (msg : bytes) (key : any) (k : bytes) :
  msg <> [] ->
  let rejected := fmt_Errorf_w "ed25519: invalid key size: %w" [] ErrInvalidKey in
  (ed25519_private_key_value key = Some k -> len k <> 64 ->
   forall opts, ed25519Signer_Sign m msg key opts = sign_failed rejected)
  /\ (ed25519_public_key_value key = Some k -> len k <> 32 ->
      forall signature,
        signature <> [] ->
        ed25519Signer_Verify m msg signature key = verify_failed rejected)
  /\ error_kinds rejected = [IsInvalidKey].
Proof.
  intros Hmsg rejected. split; [|split; [|reflexivity]].
  - intros Hkey Hlen opts. unfold ed25519Signer_Sign. rewrite (len_nonempty _ Hmsg).
    change ed25519_PrivateKeySize with 64.
    destruct key as [| | | | |[k'|]|k'| | |]; cbn in Hkey; try discriminate;
      injection Hkey as ->; (destruct (Z.eqb_spec (len k) 64); [contradiction|]);
      reflexivity.
  - intros Hkey Hlen signature Hsig. unfold ed25519Signer_Verify.
    rewrite (len_nonempty _ Hmsg), (len_nonempty _ Hsig).
    change ed25519_PublicKeySize with 32.
    destruct key as [| | | | | | |[k'|]|k'|]; cbn in Hkey; try discriminate;
      injection Hkey as ->; (destruct (Z.eqb_spec (len k) 32); [contradiction|]);
      reflexivity.
Qed.

(** X12.  The options of a [Sign] call act in order on one options
    struct that starts with [rand.Reader] as random source, so the last
    [withSignRandomSource] decides: the options before it have no effect
    on the result, and selecting [rand.Reader] is the same as giving no
    option. *)
Theorem last_random_source_is_used (r : io_Reader) (opts : list SignOption) :
  apply_options (opts ++ [withSignRandomSource r]) = {| randSource := r |}
  /\ (forall (m : ecdsaSigner) msg key,
         ecdsaSigner_Sign m msg key (opts ++ [withSignRandomSource r])
         = ecdsaSigner_Sign m msg key [withSignRandomSource r]
         /\ ecdsaSigner_Sign m msg key [withSignRandomSource rand_Reader]
            = ecdsaSigner_Sign m msg key [])
  /\ (forall (m : ed25519Signer) msg key,
         ed25519Signer_Sign m msg key (opts ++ [withSignRandomSource r])
         = ed25519Signer_Sign m msg key [withSignRandomSource r]
         /\ ed25519Signer_Sign m msg key [withSignRandomSource rand_Reader]
            = ed25519Signer_Sign m msg key []).
Proof.
  assert (Hlast : forall d : SignOptions,
             fold_left (fun d o => o d) (opts ++ [withSignRandomSource r]) d
             = {| randSource := r |}).
  { intros d. rewrite fold_left_app. reflexivity. }
  split; [apply Hlast|]. split.
  - intros m msg key. split; [|reflexivity].
    unfold ecdsaSigner_Sign. rewrite Hlast. reflexivity.
  - intros m msg key. split; [|reflexivity].
    unfold ed25519Signer_Sign. rewrite Hlast. reflexivity.
Qed.

(** What a successful [Sign] of a registered ECDSA algorithm has checked,
    and the length of what it returns. *)
Lemma ecdsaSigner_Sign_returned (m : ecdsaSigner) (msg : bytes) (key : any)
    (opts : list SignOption) (signature : bytes) :
  registered_ecdsa m ->
  ecdsaSigner_Sign m msg key opts = Returns (signature, None) ->
  msg <> [] /\ Hash_Available (hash m) = true /\ len signature = 2 * keySize m.
Proof.
  intros Hm H. destruct (registered_ecdsa_key_bytes m Hm) as (Hkb & Hpos & _).
  assert (Hmsg : msg <> []) by (intros ->; discriminate H).
  split; [exact Hmsg|].
  unfold ecdsaSigner_Sign in H. rewrite (len_nonempty _ Hmsg) in H.
  assert (exists priv, ecdsa_private_key_value key = Some priv) as [priv Hkey].
  { destruct key as [|[k|]|k| | | | | | |]; cbn in H; try discriminate;
      eexists; reflexivity. }
  assert (exists params,
             PubCurve (PublicKey priv) = Some params
             /\ BitSize params = curveBits m
             /\ Hash_Available (hash m) = true) as (params & Hcurve & Hbits & Hhash).
  { destruct key as [|[k|]|k| | | | | | |]; cbn in Hkey; try discriminate;
      injection Hkey as ->; cbn in H;
      (destruct (PubCurve (PublicKey priv)) as [params|] eqn:Ecurve; [|discriminate]);
      (destruct (Z.eqb_spec (curveBits m) (BitSize params)); [|discriminate]);
      (destruct (Hash_Available (hash m)); [|discriminate]);
      exists params; repeat split; congruence. }
  split; [exact Hhash|].
  fold (ecdsaSigner_Sign m msg key opts) in H.
  assert (H' : ecdsaSigner_Sign m msg key opts = Returns (signature, None)).
  { unfold ecdsaSigner_Sign. rewrite (len_nonempty _ Hmsg). exact H. }
  rewrite (ecdsaSigner_Sign_checked m msg key opts priv params) in H' by assumption.
  destruct (ecdsa_Sign (randSource (apply_options opts)) priv (Hash_Sum (hash m) msg))
    as [[[r s]|err]|]; try discriminate.
  destruct (big_FillBytes r (Z.to_nat (keySize m))) as [r_bytes|] eqn:Er;
    [|discriminate].
  destruct (big_FillBytes s (Z.to_nat (keySize m))) as [s_bytes|] eqn:Es;
    [|discriminate].
  injection H' as <-.
  apply big_FillBytes_inv in Er as (_ & Hrl & _).
  apply big_FillBytes_inv in Es as (_ & Hsl & _).
  rewrite len_app. unfold len. rewrite Hrl, Hsl. lia.
Qed.

(** X13.  The two registered ECDSA algorithms do not accept each other's
    signatures: a signature that one of them returned without error has
    twice its own key size, and [Verify] of the other one, given any
    public key of its own curve size, rejects it for its length with an
    error of the [InvalidSignature] kind, without consulting the library. *)
Theorem signature_of_the_other_curve_is_rejected
    (m m' : ecdsaSigner) (msg signature : bytes) (key key' : any)
    (opts : list SignOption) (pub : ecdsa_PublicKey) (params : CurveParams) :
  registered_ecdsa m -> registered_ecdsa m' -> m <> m' ->
  ecdsaSigner_Sign m msg key opts = Returns (signature, None) ->
  ecdsa_public_key_value key' = Some pub ->
  PubCurve pub = Some params ->
  BitSize params = curveBits m' ->
  let rejected := fmt_Errorf_w "ecdsa: invalid signature length: %w" [] ErrInvalidSignature in
  ecdsaSigner_Verify m' msg signature key' = verify_failed rejected
  /\ error_kinds rejected = [IsInvalidSignature].
Proof.
  intros Hm Hm' Hneq Hsign Hkey Hcurve Hbits rejected. split; [|reflexivity].
  destruct (ecdsaSigner_Sign_returned m msg key opts signature Hm Hsign)
    as (Hmsg & _ & Hlen).
  assert (Hsig : signature <> []).
  { intros ->. destruct Hm as [-> | ->]; discriminate Hlen. }
  rewrite (ecdsaSigner_Verify_checked m' msg signature key' pub params) by assumption.
  rewrite Hlen.
  destruct Hm as [-> | ->], Hm' as [-> | ->]; try contradiction; reflexivity.
Qed.

(** X14.  A signer whose hash function is not available never returns a
    signature and never accepts one; for arguments that pass its checks
    of the message, the key and the signature length, the error is
    [ErrHashUnavailable] itself, and the library is not asked to sign or
    to verify. *)
Theorem unavailable_hash_stops_the_signer (m : ecdsaSigner) (msg : bytes) :
  Hash_Available (hash m) = false ->
  (forall key opts signature,
      ecdsaSigner_Sign m msg key opts <> Returns (signature, None))
  /\ (forall key signature, ecdsaSigner_Verify m msg signature key <> Returns None)
  /\ (forall key pk params opts,
         msg <> [] ->
         ecdsa_private_key_value key = Some pk ->
         PubCurve (PublicKey pk) = Some params ->
         BitSize params = curveBits m ->
         ecdsaSigner_Sign m msg key opts = sign_failed ErrHashUnavailable)
  /\ (forall key pub params signature,
         msg <> [] ->
         ecdsa_public_key_value key = Some pub ->
         PubCurve pub = Some params ->
         BitSize params = curveBits m ->
         len signature = 2 * keySize m -> signature <> [] ->
         ecdsaSigner_Verify m msg signature key = verify_failed ErrHashUnavailable).
Proof.
  intros Hhash. split; [|split; [|split]].
  - intros key opts signature. unfold ecdsaSigner_Sign, sign_failed. rewrite Hhash.
    repeat case_match; discriminate.
  - intros key signature. unfold ecdsaSigner_Verify, verify_failed. rewrite Hhash.
    repeat case_match; discriminate.
  - intros key pk params opts Hmsg Hkey Hcurve Hbits. unfold ecdsaSigner_Sign.
    rewrite (len_nonempty _ Hmsg), Hhash.
    destruct key as [|[k|]|k| | | | | | |]; cbn in Hkey; try discriminate;
      injection Hkey as ->; rewrite Hcurve, Hbits, Z.eqb_refl; reflexivity.
  - intros key pub params signature Hmsg Hkey Hcurve Hbits Hlen Hsig.
    rewrite (ecdsaSigner_Verify_checked m msg signature key pub params) by assumption.
    rewrite Hlen, Z.eqb_refl, Hhash. reflexivity.
Qed.

End SignerProperties.

(** The Ed25519 key pair of the tests, public alone and with its private
    key, decoded from the envelope. *)
Lemma unmarshalEd25519Key_accepts_exactly_witness :
  unmarshalEd25519Key (Some {| Public := test_public; Private := Some test_private |})
  = (val_ed25519_PrivateKey test_private, None)
  /\ (len test_public = 32 /\ isEdLowOrder test_public = false
      /\ val_ed25519_PublicKey test_public = val_ed25519_PublicKey test_public).
Proof.
  split.
  - apply (proj2 (unmarshalEd25519Key_accepts_exactly (Std := GoRef)
                    {| Public := test_public; Private := Some test_private |}
                    (val_ed25519_PrivateKey test_private))).
    split; [reflexivity|]. split; [reflexivity|].
    split; [reflexivity|]. split; [|reflexivity].
    exists test_private. exact GenerateKey_test_private.
  - apply (proj1 (unmarshalEd25519Key_accepts_exactly (Std := GoRef)
                    {| Public := test_public; Private := None |}
                    (val_ed25519_PublicKey test_public))).
    exact unmarshalEd25519Key_test_public.
Defined.

(** The "invalid key curve mismatch" cases of the ECDSA tests: the P-256
    signer with keys that have nothing but the curve P-384. *)
Lemma ecdsa_key_of_another_curve_is_rejected_witness :
  ecdsaSigner_Sign ecdsaSigner_P256 test_message
                   (ptr_ecdsa_PrivateKey (Some P384_private_stub)) []
  = sign_failed
      (fmt_Errorf_w
         "ecdsa: can't use the provided key with this signer instance, curve mismatch: %w"
         [] ErrInvalidKey)
  /\ ecdsaSigner_Verify ecdsaSigner_P256 test_message test_ed25519_signature
                        (ptr_ecdsa_PublicKey (Some P384_public_stub))
     = verify_failed
         (fmt_Errorf_w
            "ecdsa: can't use the provided key with this signer instance, curve mismatch: %w"
            [] ErrInvalidKey).
Proof.
  pose proof (ecdsa_key_of_another_curve_is_rejected (Std := GoRef)
                ecdsaSigner_P256 test_message P384_params
                ltac:(discriminate) ltac:(discriminate)) as (Hsign & Hverify & _).
  split.
  - apply (Hsign (ptr_ecdsa_PrivateKey (Some P384_private_stub)) P384_private_stub []
                 eq_refl eq_refl).
  - apply (Hverify (ptr_ecdsa_PublicKey (Some P384_public_stub)) P384_public_stub
                   test_ed25519_signature ltac:(discriminate) eq_refl eq_refl).
Defined.

(** The "invalid key type" case of the ECDSA tests and the "invalid key
    size" case of the Ed25519 tests. *)
Lemma signer_errors_are_classified_witness :
  (ecdsaSigner_Sign ecdsaSigner_P256 test_message (ptr_ed25519_PrivateKey (Some [])) []
   = Returns ([], Some (fmt_Errorf_w "ecdsa: unsupported private key type (%T): %w"
                                     ["*ed25519.PrivateKey"] ErrInvalidKey))
   /\ error_kinds (fmt_Errorf_w "ecdsa: unsupported private key type (%T): %w"
                                ["*ed25519.PrivateKey"] ErrInvalidKey)
      = [IsInvalidKey])
  /\ (ed25519Signer_Verify mk_ed25519Signer test_message test_ed25519_signature
                           (val_ed25519_PublicKey [])
      = Returns (Some (fmt_Errorf_w "ed25519: invalid key size: %w" [] ErrInvalidKey))
      /\ length (error_kinds (fmt_Errorf_w "ed25519: invalid key size: %w" []
                                           ErrInvalidKey)) = 1%nat).
Proof.
  split; (split; [reflexivity|]).
  - reflexivity.
  - apply (proj2 (proj2 (proj2 (signer_errors_are_classified (Std := GoRef))))
             mk_ed25519Signer test_message test_ed25519_signature
             (val_ed25519_PublicKey [])).
    reflexivity.
Defined.

(** The "valid - key pointer" case of [Test_ecdsaSigner_Verify]. *)
Lemma ecdsa_Verify_accepts_exactly_witness :
  test_message <> [] /\ test_ecdsa_signature <> []
  /\ len test_ecdsa_signature = 2 * keySize ecdsaSigner_P256
  /\ Hash_Available (hash ecdsaSigner_P256) = true
  /\ exists pub params,
       ecdsa_public_key_value (ptr_ecdsa_PublicKey (Some (PublicKey test_ecdsa_private)))
       = Some pub
       /\ PubCurve pub = Some params
       /\ BitSize params = curveBits ecdsaSigner_P256
       /\ ecdsa_Verify pub (Hash_Sum (hash ecdsaSigner_P256) test_message)
            (big_SetBytes (firstn (Z.to_nat (keySize ecdsaSigner_P256))
                                  test_ecdsa_signature))
            (big_SetBytes (skipn (Z.to_nat (keySize ecdsaSigner_P256))
                                 test_ecdsa_signature))
          = Returns true.
Proof.
  apply (proj1 (ecdsa_Verify_accepts_exactly (Std := GoRef) ecdsaSigner_P256
                  test_message test_ecdsa_signature
                  (ptr_ecdsa_PublicKey (Some (PublicKey test_ecdsa_private))))).
  exact ecdsaSigner_Verify_test.
Defined.

(** The "valid - key" cases of the Ed25519 tests. *)
Lemma ed25519_accepts_exactly_witness :
  ed25519Signer_Sign mk_ed25519Signer test_message (val_ed25519_PrivateKey test_private) []
  = Returns (test_ed25519_signature, None)
  /\ ed25519Signer_Verify mk_ed25519Signer test_message test_ed25519_signature
                          (val_ed25519_PublicKey test_public)
     = Returns None.
Proof.
  pose proof (ed25519_accepts_exactly (Std := GoRef) mk_ed25519Signer test_message)
    as Hexact.
  split.
  - apply (proj1 (Hexact (val_ed25519_PrivateKey test_private))).
    split; [discriminate|]. exists test_private.
    split; [reflexivity|]. split; [reflexivity|]. exact ed25519_Sign_test.
  - apply (proj2 (Hexact (val_ed25519_PublicKey test_public))).
    split; [discriminate|]. split; [discriminate|]. exists test_public.
    split; [reflexivity|]. split; [reflexivity|]. exact ed25519_Verify_test.
Defined.

(** The "invalid key size" cases of the Ed25519 tests (an empty key), and
    the 32-byte seed of the tests used as a private key. *)
Lemma ed25519_key_of_another_length_is_rejected_witness :
  ed25519Signer_Sign mk_ed25519Signer test_message (ptr_ed25519_PrivateKey (Some [])) []
  = sign_failed (fmt_Errorf_w "ed25519: invalid key size: %w" [] ErrInvalidKey)
  /\ ed25519Signer_Sign mk_ed25519Signer test_message (val_ed25519_PrivateKey test_seed) []
     = sign_failed (fmt_Errorf_w "ed25519: invalid key size: %w" [] ErrInvalidKey)
  /\ ed25519Signer_Verify mk_ed25519Signer test_message test_ed25519_signature
                          (ptr_ed25519_PublicKey (Some []))
     = verify_failed (fmt_Errorf_w "ed25519: invalid key size: %w" [] ErrInvalidKey).
Proof.
  split; [|split].
  - apply (proj1 (ed25519_key_of_another_length_is_rejected (Std := GoRef)
                    mk_ed25519Signer test_message (ptr_ed25519_PrivateKey (Some [])) []
                    ltac:(discriminate)) eq_refl ltac:(discriminate) []).
  - apply (proj1 (ed25519_key_of_another_length_is_rejected (Std := GoRef)
                    mk_ed25519Signer test_message (val_ed25519_PrivateKey test_seed)
                    test_seed ltac:(discriminate)) eq_refl ltac:(discriminate) []).
  - apply (proj1 (proj2 (ed25519_key_of_another_length_is_rejected (Std := GoRef)
                    mk_ed25519Signer test_message (ptr_ed25519_PublicKey (Some [])) []
                    ltac:(discriminate))) eq_refl ltac:(discriminate)
             test_ed25519_signature ltac:(discriminate)).
Defined.

(** The signature of the P-256 test key, offered to the P-384 algorithm
    with a key of the curve P-384. *)
Lemma signature_of_the_other_curve_is_rejected_witness :
  ecdsaSigner_Verify ecdsaSigner_P384 test_message test_ecdsa_own_signature
                     (ptr_ecdsa_PublicKey (Some P384_public_stub))
  = verify_failed (fmt_Errorf_w "ecdsa: invalid signature length: %w" []
                                ErrInvalidSignature).
Proof.
  apply (signature_of_the_other_curve_is_rejected (Std := GoRef)
           ecdsaSigner_P256 ecdsaSigner_P384 test_message test_ecdsa_own_signature
           (ptr_ecdsa_PrivateKey (Some test_ecdsa_private))
           (ptr_ecdsa_PublicKey (Some P384_public_stub))
           [] P384_public_stub P384_params
           (or_introl eq_refl) (or_intror eq_refl) ltac:(discriminate)
           ecdsaSigner_Sign_test eq_refl eq_refl eq_refl).
Defined.

(** A P-256 signer built with [crypto.Hash(0)], which is not available,
    given the key and the signature of the tests. *)
Lemma unavailable_hash_stops_the_signer_witness :
  ecdsaSigner_Sign ecdsaSigner_without_hash test_message
                   (ptr_ecdsa_PrivateKey (Some test_ecdsa_private)) []
  = sign_failed ErrHashUnavailable
  /\ ecdsaSigner_Verify ecdsaSigner_without_hash test_message test_ecdsa_signature
                        (ptr_ecdsa_PublicKey (Some (PublicKey test_ecdsa_private)))
     = verify_failed ErrHashUnavailable.
Proof.
  pose proof (unavailable_hash_stops_the_signer (Std := GoRef)
                ecdsaSigner_without_hash test_message eq_refl)
    as (_ & _ & Hsign & Hverify).
  split.
  - apply (Hsign (ptr_ecdsa_PrivateKey (Some test_ecdsa_private))
                 test_ecdsa_private P256_params []);
      [discriminate|reflexivity|reflexivity|reflexivity].
  - apply (Hverify (ptr_ecdsa_PublicKey (Some (PublicKey test_ecdsa_private)))
                   (PublicKey test_ecdsa_private) P256_params);
      [discriminate|reflexivity|reflexivity|reflexivity|reflexivity|discriminate].
Defined.

(** ** Decoded keys in the hands of the signers *)

(** The ECDSA test key, decoded from its envelope. *)
Lemma unmarshalECDSAKey_test_envelope :
  unmarshalECDSAKey (Some test_ecdsa_envelope)
  = (ptr_ecdsa_PrivateKey (Some test_ecdsa_private), None)
  /\ unmarshalECDSAKey (Some test_ecdsa_public_envelope)
     = (ptr_ecdsa_PublicKey (Some (PublicKey test_ecdsa_private)), None).
Proof.
  assert (Hdec : elliptic_Unmarshal P256_params test_ecdsa_public_bytes
                 = Some (fst test_ecdsa_point, snd test_ecdsa_point))
    by (vm_compute; reflexivity).
  assert (Hon : Curve_IsOnCurve P256_params (fst test_ecdsa_point) (snd test_ecdsa_point)
                = true)
    by (vm_compute; reflexivity).
  split.
  - pose proof (unmarshalECDSAKey_accepted (Std := GoRef) test_ecdsa_envelope x04
                  (big_endian 32 (fst test_ecdsa_point)
                   ++ big_endian 32 (snd test_ecdsa_point))
                  (fst test_ecdsa_point) (snd test_ecdsa_point) eq_refl
                  (or_intror (conj eq_refl Hdec)) Hon) as H.
    cbv zeta in H. cbn [Private test_ecdsa_envelope] in H.
    rewrite H; [| reflexivity | exact test_ecdsa_point_derived].
    unfold test_ecdsa_private.
    replace (big_SetBytes (big_endian 32 test_ecdsa_d)) with test_ecdsa_d
      by (vm_compute; reflexivity).
    reflexivity.
  - exact (unmarshalECDSAKey_accepted (Std := GoRef) test_ecdsa_public_envelope x04
             (big_endian 32 (fst test_ecdsa_point)
              ++ big_endian 32 (snd test_ecdsa_point))
             (fst test_ecdsa_point) (snd test_ecdsa_point) eq_refl
             (or_intror (conj eq_refl Hdec)) Hon).
Qed.

Section DecodedKeys.
Context `{Std : GoStd} `{Table : LowOrderTable}.

(** X15.  What the ECDSA decoder returns fits the registered P-256
    algorithm and no other curve size.  With a message that is not empty:
    a decoded private key makes [Sign] of the P-256 algorithm hand the
    digest to the library's signing call, is rejected by [Sign] of the
    P-384 algorithm for its curve, and is rejected by every [Verify] as a
    key of an unsupported type; a decoded public key makes [Verify] of the
    P-256 algorithm hand a signature of 64 bytes to the library's
    verification, is rejected by [Verify] of the P-384 algorithm for its
    curve, and is rejected by every [Sign]. *)
Theorem decoded_ecdsa_key_fits_the_P256_signer
    (raw : jsonKeyPair) (k : any) (msg : bytes) :
  unmarshalECDSAKey (Some raw) = (k, None) ->
  msg <> [] ->
  let mismatch :=
    fmt_Errorf_w
      "ecdsa: can't use the provided key with this signer instance, curve mismatch: %w"
      [] ErrInvalidKey in
  match Private raw with
  | Some _ =>
    (exists priv,
        k = ptr_ecdsa_PrivateKey (Some priv)
        /\ forall opts,
             Hash_Available SHA256 = true ->
             ecdsaSigner_Sign ecdsaSigner_P256 msg k opts
             = match ecdsa_Sign (randSource (apply_options opts)) priv
                                (Hash_Sum SHA256 msg) with
               | Panics => Panics
               | Returns (inl (r, s)) =>
                 match big_FillBytes r 32, big_FillBytes s 32 with
                 | Returns r_bytes, Returns s_bytes => Returns (r_bytes ++ s_bytes, None)
                 | _, _ => Panics
                 end
               | Returns (inr _) => sign_failed ErrInvalidSignature
               end)
    /\ (forall opts, ecdsaSigner_Sign ecdsaSigner_P384 msg k opts = sign_failed mismatch)
    /\ (forall m signature,
           signature <> [] ->
           ecdsaSigner_Verify m msg signature k
           = verify_failed (fmt_Errorf_w "ecdsa: unsupported public key type (%T): %w"
                                         ["*ecdsa.PrivateKey"] ErrInvalidKey))
  | None =>
    (exists pub,
        k = ptr_ecdsa_PublicKey (Some pub)
        /\ forall signature,
             len signature = 64 ->
             Hash_Available SHA256 = true ->
             ecdsaSigner_Verify ecdsaSigner_P256 msg signature k
             = match ecdsa_Verify pub (Hash_Sum SHA256 msg)
                       (big_SetBytes (firstn 32 signature))
                       (big_SetBytes (skipn 32 signature)) with
               | Panics => Panics
               | Returns true => Returns None
               | Returns false => verify_failed ErrInvalidSignature
               end)
    /\ (forall signature,
           signature <> [] ->
           ecdsaSigner_Verify ecdsaSigner_P384 msg signature k = verify_failed mismatch)
    /\ (forall m opts,
           ecdsaSigner_Sign m msg k opts
           = sign_failed (fmt_Errorf_w "ecdsa: unsupported private key type (%T): %w"
                                       ["*ecdsa.PublicKey"] ErrInvalidKey))
  end.
Proof.
  intros Hdec Hmsg mismatch.
  apply unmarshalECDSAKey_success in Hdec
    as (tag & rest & x & y & _ & _ & _ & _ & Hpriv).
  destruct (Private raw) as [scalar|].
  - destruct Hpriv as (_ & _ & ->). split; [|split].
    + pose (priv := {| PublicKey := {| PubCurve := elliptic_P256;
                                       X := Some x; Y := Some y |};
                       D := Some (big_SetBytes scalar) |}).
      exists priv. split; [reflexivity|]. intros opts Hhash.
      rewrite (ecdsaSigner_Sign_checked ecdsaSigner_P256 msg
                 (ptr_ecdsa_PrivateKey (Some priv)) opts priv P256_params);
        first [reflexivity | assumption | left; reflexivity].
    + intros opts. unfold ecdsaSigner_Sign. rewrite (len_nonempty _ Hmsg). reflexivity.
    + intros m signature Hsig. unfold ecdsaSigner_Verify.
      rewrite (len_nonempty _ Hmsg), (len_nonempty _ Hsig). reflexivity.
  - subst k. split; [|split].
    + pose (pub := {| PubCurve := elliptic_P256; X := Some x; Y := Some y |}).
      exists pub. split; [reflexivity|]. intros signature Hlen Hhash.
      assert (Hsig : signature <> []) by (intros ->; discriminate Hlen).
      rewrite (ecdsaSigner_Verify_checked ecdsaSigner_P256 msg signature
                 (ptr_ecdsa_PublicKey (Some pub)) pub P256_params);
        try first [reflexivity | assumption].
      cbn [keySize hash ecdsaSigner_P256]. rewrite Hlen, Hhash. reflexivity.
    + intros signature Hsig. unfold ecdsaSigner_Verify.
      rewrite (len_nonempty _ Hmsg), (len_nonempty _ Hsig). reflexivity.
    + intros m opts. unfold ecdsaSigner_Sign. rewrite (len_nonempty _ Hmsg). reflexivity.
Qed.

(** X16.  What the Ed25519 decoder returns passes the key checks of the
    Ed25519 signer.  With a message that is not empty: a decoded private
    key makes [Sign] return what the library's signing call returns, and
    is rejected by [Verify] as a key of an unsupported type; a decoded
    public key makes [Verify] of a non-empty signature return what the
    library's verification decides, and is rejected by [Sign]. *)
Theorem decoded_ed25519_key_fits_the_signer
    (raw : jsonKeyPair) (k : any) (m : ed25519Signer) (msg : bytes) :
  unmarshalEd25519Key (Some raw) = (k, None) ->
  msg <> [] ->
  match Private raw with
  | Some private =>
    (forall opts,
        ed25519Signer_Sign m msg k opts
        = match ed25519_PrivateKey_Sign private (randSource (apply_options opts))
                                        msg Hash0 with
          | inl signature => Returns (signature, None)
          | inr err =>
            sign_failed (fmt_Errorf_w "ed25519: unable to sign payload: %w" [] err)
          end)
    /\ (forall signature,
           signature <> [] ->
           ed25519Signer_Verify m msg signature k
           = verify_failed (fmt_Errorf_w "ed25519: unsupported public key type (%T): %w"
                                         ["ed25519.PrivateKey"] ErrInvalidKey))
  | None =>
    (forall signature,
        signature <> [] ->
        ed25519Signer_Verify m msg signature k
        = if ed25519_Verify (Public raw) msg signature
          then Returns None else verify_failed ErrInvalidSignature)
    /\ (forall opts,
           ed25519Signer_Sign m msg k opts
           = sign_failed (fmt_Errorf_w "ed25519: unsupported private key type (%T): %w"
                                       ["ed25519.PublicKey"] ErrInvalidKey))
  end.
Proof.
  intros Hdec Hmsg.
  apply unmarshalEd25519Key_success in Hdec as (Hlen & _ & Hpriv).
  destruct (Private raw) as [private|].
  - destruct Hpriv as (Hplen & _ & ->). split.
    + intros opts. unfold ed25519Signer_Sign.
      rewrite (len_nonempty _ Hmsg), Hplen, Z.eqb_refl. reflexivity.
    + intros signature Hsig. unfold ed25519Signer_Verify.
      rewrite (len_nonempty _ Hmsg), (len_nonempty _ Hsig). reflexivity.
  - subst k. split.
    + intros signature Hsig. unfold ed25519Signer_Verify.
      rewrite (len_nonempty _ Hmsg), (len_nonempty _ Hsig), Hlen, Z.eqb_refl.
      cbn [negb]. destruct (ed25519_Verify (Public raw) msg signature); reflexivity.
    + intros opts. unfold ed25519Signer_Sign. rewrite (len_nonempty _ Hmsg). reflexivity.
Qed.

(** X23.  Whenever a decoder accepts an envelope, it accepts the same
    envelope without its private part, and returns the public key of the
    first result: the Ed25519 public key by value, and a pointer to the
    ECDSA public key that the private key embeds. *)
Theorem public_part_of_accepted_envelope_is_accepted (raw : jsonKeyPair) (k : any) :
  let public_only := {| Public := Public raw; Private := None |} in
  (unmarshalEd25519Key (Some raw) = (k, None) ->
   unmarshalEd25519Key (Some public_only) = (val_ed25519_PublicKey (Public raw), None))
  /\ (unmarshalECDSAKey (Some raw) = (k, None) ->
      exists pub,
        ecdsa_public_of k = Some pub
        /\ unmarshalECDSAKey (Some public_only) = (ptr_ecdsa_PublicKey (Some pub), None)).
Proof.
  intros public_only. split.
  - intros H. apply unmarshalEd25519Key_success in H as (Hlen & Hnot & _).
    assert (Hlow : isEdLowOrder (Public raw) = false).
    { destruct (isEdLowOrder (Public raw)) eqn:Elow; [|reflexivity].
      apply isEdLowOrder_In in Elow. contradiction. }
    unfold unmarshalEd25519Key, public_only. cbn [Public Private].
    rewrite Hlen, Z.eqb_refl, Hlow. reflexivity.
  - intros H. apply unmarshalECDSAKey_success in H
      as (tag & rest & x & y & Hpub & Hdec & Hon & Hk & _).
    eexists. split; [exact Hk|].
    exact (unmarshalECDSAKey_accepted public_only tag rest x y Hpub Hdec Hon).
Qed.

(** X24.  An envelope without a public part is rejected by both decoders,
    whatever its private part: the Ed25519 decoder reports the length of
    the public key, the ECDSA decoder its size.  A nil envelope is rejected
    by all three decoders, the RSA one included. *)
Theorem envelope_without_public_part_is_rejected (raw : jsonKeyPair) :
  Public raw = [] ->
  unmarshalEd25519Key (Some raw)
  = failed (errors_New "key: unexpected public key length for ed25519 key")
  /\ unmarshalECDSAKey (Some raw) = failed (errors_New "key: invalid public key size")
  /\ unmarshalEd25519Key None = failed (errors_New "key: nil decoded key components")
  /\ unmarshalECDSAKey None = failed (errors_New "key: nil decoded key components")
  /\ unmarshalRSAKey None = failed (errors_New "key: nil decoded key components").
Proof.
  intros Hpub. unfold unmarshalEd25519Key, unmarshalECDSAKey.
  rewrite Hpub. repeat split.
Qed.

End DecodedKeys.

(** The envelope of the ECDSA test key in uncompressed form, with and
    without its private scalar. *)
Lemma unmarshalECDSAKey_accepts_exactly_witness :
  unmarshalECDSAKey (Some test_ecdsa_public_envelope)
  = (ptr_ecdsa_PublicKey (Some (PublicKey test_ecdsa_private)), None)
  /\ exists tag rest x y,
       Public test_ecdsa_envelope = tag :: rest
       /\ ((byte_to_Z tag = 2 \/ byte_to_Z tag = 3)
             /\ elliptic_UnmarshalCompressed P256_params (Public test_ecdsa_envelope)
                = Some (x, y)
           \/ byte_to_Z tag = 4
             /\ elliptic_Unmarshal P256_params (Public test_ecdsa_envelope) = Some (x, y))
       /\ Curve_IsOnCurve P256_params x y = true
       /\ len (big_endian 32 test_ecdsa_d) = 32
       /\ Curve_ScalarBaseMult P256_params (big_endian 32 test_ecdsa_d) = (x, y)
       /\ ptr_ecdsa_PrivateKey (Some test_ecdsa_private)
          = ptr_ecdsa_PrivateKey
              (Some {| PublicKey := {| PubCurve := elliptic_P256;
                                       X := Some x; Y := Some y |};
                       D := Some (big_SetBytes (big_endian 32 test_ecdsa_d)) |}).
Proof.
  split.
  - apply (proj2 (unmarshalECDSAKey_accepts_exactly (Std := GoRef)
                    test_ecdsa_public_envelope
                    (ptr_ecdsa_PublicKey (Some (PublicKey test_ecdsa_private))))).
    exists x04, (big_endian 32 (fst test_ecdsa_point)
                 ++ big_endian 32 (snd test_ecdsa_point)),
           (fst test_ecdsa_point), (snd test_ecdsa_point).
    split; [reflexivity|].
    split; [right; split; [reflexivity|vm_compute; reflexivity]|].
    split; [vm_compute; reflexivity|reflexivity].
  - apply (proj1 (unmarshalECDSAKey_accepts_exactly (Std := GoRef)
                    test_ecdsa_envelope
                    (ptr_ecdsa_PrivateKey (Some test_ecdsa_private)))).
    exact (proj1 unmarshalECDSAKey_test_envelope).
Defined.

(** The ECDSA test key, decoded from its envelope and handed to the two
    registered algorithms with the message of the tests. *)
Lemma decoded_ecdsa_key_fits_the_P256_signer_witness :
  ecdsaSigner_Sign ecdsaSigner_P256 test_message
                   (ptr_ecdsa_PrivateKey (Some test_ecdsa_private)) []
  = Returns (test_ecdsa_own_signature, None)
  /\ ecdsaSigner_Sign ecdsaSigner_P384 test_message
                      (ptr_ecdsa_PrivateKey (Some test_ecdsa_private)) []
     = sign_failed
         (fmt_Errorf_w
            "ecdsa: can't use the provided key with this signer instance, curve mismatch: %w"
            [] ErrInvalidKey)
  /\ ecdsaSigner_Verify ecdsaSigner_P256 test_message test_ecdsa_own_signature
                        (ptr_ecdsa_PrivateKey (Some test_ecdsa_private))
     = verify_failed (fmt_Errorf_w "ecdsa: unsupported public key type (%T): %w"
                                   ["*ecdsa.PrivateKey"] ErrInvalidKey)
  /\ ecdsaSigner_Verify ecdsaSigner_P384 test_message test_ecdsa_own_signature
                        (ptr_ecdsa_PublicKey (Some (PublicKey test_ecdsa_private)))
     = verify_failed
         (fmt_Errorf_w
            "ecdsa: can't use the provided key with this signer instance, curve mismatch: %w"
            [] ErrInvalidKey).
Proof.
  pose proof (decoded_ecdsa_key_fits_the_P256_signer (Std := GoRef)
                test_ecdsa_envelope (ptr_ecdsa_PrivateKey (Some test_ecdsa_private))
                test_message (proj1 unmarshalECDSAKey_test_envelope) ltac:(discriminate))
    as ((priv & Hpriv & Hsign) & Hother & Hverify).
  pose proof (decoded_ecdsa_key_fits_the_P256_signer (Std := GoRef)
                test_ecdsa_public_envelope
                (ptr_ecdsa_PublicKey (Some (PublicKey test_ecdsa_private)))
                test_message (proj2 unmarshalECDSAKey_test_envelope) ltac:(discriminate))
    as (_ & Hpublic & _).
  injection Hpriv as <-.
  split; [|split; [|split]].
  - rewrite (Hsign [] eq_refl).
    change (randSource (apply_options [])) with rand_Reader.
    rewrite ecdsa_Sign_test. vm_compute. reflexivity.
  - apply Hother.
  - apply Hverify. discriminate.
  - apply Hpublic. discriminate.
Defined.

(** The Ed25519 test keys, decoded from their envelopes and handed to the
    signer with the message and the signature of the tests. *)
Lemma decoded_ed25519_key_fits_the_signer_witness :
  ed25519Signer_Sign mk_ed25519Signer test_message (val_ed25519_PrivateKey test_private) []
  = Returns (test_ed25519_signature, None)
  /\ ed25519Signer_Verify mk_ed25519Signer test_message test_ed25519_signature
                          (val_ed25519_PrivateKey test_private)
     = verify_failed (fmt_Errorf_w "ed25519: unsupported public key type (%T): %w"
                                   ["ed25519.PrivateKey"] ErrInvalidKey)
  /\ ed25519Signer_Verify mk_ed25519Signer test_message test_ed25519_signature
                          (val_ed25519_PublicKey test_public)
     = Returns None.
Proof.
  pose proof (decoded_ed25519_key_fits_the_signer (Std := GoRef)
                {| Public := test_public; Private := Some test_private |}
                (val_ed25519_PrivateKey test_private) mk_ed25519Signer test_message
                unmarshalEd25519Key_test_private ltac:(discriminate))
    as (Hsign & Hverify).
  pose proof (decoded_ed25519_key_fits_the_signer (Std := GoRef)
                {| Public := test_public; Private := None |}
                (val_ed25519_PublicKey test_public) mk_ed25519Signer test_message
                unmarshalEd25519Key_test_public ltac:(discriminate))
    as (Hpublic & _).
  split; [|split].
  - rewrite (Hsign []).
    change (randSource (apply_options [])) with rand_Reader.
    rewrite ed25519_Sign_test. reflexivity.
  - apply Hverify. discriminate.
  - rewrite (Hpublic test_ed25519_signature) by discriminate.
    cbn [Public]. rewrite ed25519_Verify_test. reflexivity.
Defined.

(** ** Package signatures: the registry *)

(** A name is listed when the registry holds an entry for it. *)
Lemma In_GetAlgorithms (name : string) (st : State) :
  In name (GetAlgorithms st) <-> is_Some (registry st !! name).
Proof.
  unfold GetAlgorithms. rewrite <- list_elem_of_In, list_elem_of_fmap. split.
  - intros ([n v] & -> & Hin). apply elem_of_map_to_list in Hin.
    cbn. rewrite Hin. eauto.
  - intros [v Hv]. exists (name, v). split; [reflexivity|].
    apply elem_of_map_to_list. exact Hv.
Qed.

(** X17.  A builder registered under a name is the one that a lookup of
    that name runs, and the lookup leaves the registration in place; a
    nil builder is stored as well, and makes the lookup panic; a second
    registration under the same name replaces the first; and the name is
    listed from then on, whatever the builder. *)
Theorem registered_builder_is_looked_up (name : string) (st : State) :
  (forall run,
      GetAlgorithm name (RegisterAlgorithm name (Some run) st)
      = ('(alg, mem) ← run (memory st);
         Returns (alg, RegisterAlgorithm name (Some run)
                         {| memory := mem; registry := registry st |})))
  /\ GetAlgorithm name (RegisterAlgorithm name None st) = Panics
  /\ (forall b b',
         RegisterAlgorithm name b' (RegisterAlgorithm name b st)
         = RegisterAlgorithm name b' st)
  /\ (forall b, In name (GetAlgorithms (RegisterAlgorithm name b st))).
Proof.
  split; [|split; [|split]].
  - intros run. unfold GetAlgorithm, RegisterAlgorithm. cbn [registry memory].
    rewrite lookup_insert_eq. reflexivity.
  - unfold GetAlgorithm, RegisterAlgorithm. cbn [registry].
    rewrite lookup_insert_eq. reflexivity.
  - intros b b'. unfold RegisterAlgorithm. cbn [registry memory].
    rewrite insert_insert_eq. reflexivity.
  - intros b. apply In_GetAlgorithms. unfold RegisterAlgorithm. cbn [registry].
    rewrite lookup_insert_eq. eauto.
Qed.

(** X18.  A registration under one name does not disturb the lookup of
    another name: looking the other name up after the registration gives
    what looking it up before gives, panic included. *)
Theorem registration_keeps_the_other_names
    (name name' : string) (b : Builder) (st : State) :
  name <> name' ->
  GetAlgorithm name' (RegisterAlgorithm name b st)
  = ('(alg, st') ← GetAlgorithm name' st;
     Returns (alg, RegisterAlgorithm name b st')).
Proof.
  intros Hneq. unfold GetAlgorithm, RegisterAlgorithm. cbn [registry memory].
  rewrite lookup_insert_ne by exact Hneq.
  destruct (registry st !! name') as [[[run|]|]|]; try reflexivity.
  destruct (run (memory st)) as [[alg mem]|]; reflexivity.
Qed.

(** X19.  A lookup that returns never changes what is registered: the
    state it leaves has the same registry and lists the same names.  A
    lookup that returns an algorithm other than nil was a lookup of a
    listed name. *)
Theorem GetAlgorithm_keeps_the_registry
    (name : string) (st st' : State) (a : AlgorithmValue) :
  GetAlgorithm name st = Returns (a, st') ->
  registry st' = registry st
  /\ GetAlgorithms st' = GetAlgorithms st
  /\ (a <> nil_Algorithm -> In name (GetAlgorithms st)).
Proof.
  unfold GetAlgorithm. intros H.
  assert (Hreg : registry st' = registry st
                 /\ (a <> nil_Algorithm -> is_Some (registry st !! name))).
  { destruct (registry st !! name) as [[[run|]|]|].
    - destruct (run (memory st)) as [[alg mem]|]; [|discriminate].
      cbn in H. injection H as <- <-. eauto.
    - discriminate.
    - injection H as <- <-. split; [reflexivity|congruence].
    - injection H as <- <-. split; [reflexivity|congruence]. }
  destruct Hreg as [Hreg Hsome]. split; [exact Hreg|]. split.
  - unfold GetAlgorithms. rewrite Hreg. reflexivity.
  - intros Ha. apply In_GetAlgorithms, Hsome, Ha.
Qed.

(** X20.  [GetAlgorithms] lists exactly the names that have an entry in
    the registry, each name once; a registration adds its name to the
    list and removes none; and before any registration the list is empty. *)
Theorem GetAlgorithms_lists_each_registered_name (st : State) :
  NoDup (GetAlgorithms st)
  /\ (forall name, In name (GetAlgorithms st) <-> is_Some (registry st !! name))
  /\ (forall name b n,
         In n (GetAlgorithms (RegisterAlgorithm name b st))
         <-> n = name \/ In n (GetAlgorithms st))
  /\ GetAlgorithms initial_State = [].
Proof.
  split; [apply NoDup_fst_map_to_list|].
  split; [intros name; apply In_GetAlgorithms|].
  split; [|reflexivity].
  intros name b n. rewrite !In_GetAlgorithms.
  unfold RegisterAlgorithm. cbn [registry].
  destruct (decide (name = n)) as [->|Hneq].
  - rewrite lookup_insert_eq. split; eauto.
  - rewrite lookup_insert_ne by exact Hneq. split; [auto|].
    intros [->|H]; [contradiction|exact H].
Qed.

(** Lookups in a registry built by registrations under literal names. *)
Ltac registry_lookup :=
  unfold GetAlgorithm; cbn [registry memory];
  repeat first [rewrite lookup_insert_eq | rewrite lookup_insert_ne by discriminate];
  reflexivity.

(** What [init] computes: three structs at fresh addresses, the three
    package variables pointing to them, and three registrations. *)
Lemma init_computes (st : State) :
  let h0 := heap (memory st) in
  let l1 := fresh (dom h0) in
  let h1 := <[l1 := obj_ed25519Signer mk_ed25519Signer]> h0 in
  let l2 := fresh (dom h1) in
  let h2 := <[l2 := obj_ecdsaSigner ecdsaSigner_P256]> h1 in
  let l3 := fresh (dom h2) in
  let h3 := <[l3 := obj_ecdsaSigner ecdsaSigner_P384]> h2 in
  init st
  = Returns
      {| memory := {| heap := h3;
                      Ed25519 := ptr_ed25519Signer l1;
                      ECDSA_P256_SHA256 := ptr_ecdsaSigner l2;
                      ECDSA_P384_SHA384 := ptr_ecdsaSigner l3 |};
         registry :=
           <["ecdsa-sha384-nistp384" := stored_Builder builder_ECDSA_P384_SHA384]>
             (<["ecdsa-sha2-nistp256" := stored_Builder builder_ECDSA_P256_SHA256]>
                (<["ed25519" := stored_Builder builder_Ed25519]> (registry st))) |}.
Proof.
  cbv zeta. unfold init, new, RegisterAlgorithm.
  cbn [set_Ed25519 set_ECDSA_P256_SHA256 set_ECDSA_P384_SHA384
       heap Ed25519 ECDSA_P256_SHA256 ECDSA_P384_SHA384 memory registry
       Algorithm_Name mbind result_bind ed25519Signer_Name].
  rewrite lookup_insert_eq.
  cbn [ecdsaSigner_Name name ecdsaSigner_P256 mbind result_bind
       heap Ed25519 ECDSA_P256_SHA256 ECDSA_P384_SHA384 memory registry].
  rewrite lookup_insert_eq. reflexivity.
Qed.

(** X21.  From any state, [init] returns, without panic.  In the state it
    leaves, each of the three names it registers is looked up as an
    algorithm that is not nil, whose [Name] is the name it is registered
    under, and the lookup changes nothing; every other registration and
    every struct allocated before are kept; and the listed names are the
    three names and the names listed before. *)
Theorem init_registers_the_three_algorithms (st : State) :
  exists st',
    init st = Returns st'
    /\ Forall (fun name =>
                 exists a,
                   GetAlgorithm name st' = Returns (a, st')
                   /\ a <> nil_Algorithm
                   /\ Algorithm_Name (memory st') a = Returns name)
              registered_names
    /\ (forall name,
           ~ In name registered_names -> registry st' !! name = registry st !! name)
    /\ (forall l o,
           heap (memory st) !! l = Some o -> heap (memory st') !! l = Some o)
    /\ (forall name,
           In name (GetAlgorithms st')
           <-> In name registered_names \/ In name (GetAlgorithms st)).
Proof.
  pose proof (init_computes st) as Hinit. cbv zeta in Hinit.
  set (h0 := heap (memory st)) in *.
  set (l1 := fresh (dom h0)) in *.
  set (h1 := <[l1 := obj_ed25519Signer mk_ed25519Signer]> h0) in *.
  set (l2 := fresh (dom h1)) in *.
  set (h2 := <[l2 := obj_ecdsaSigner ecdsaSigner_P256]> h1) in *.
  set (l3 := fresh (dom h2)) in *.
  assert (H1 : h0 !! l1 = None) by (apply not_elem_of_dom, is_fresh).
  assert (H2 : h1 !! l2 = None) by (apply not_elem_of_dom, is_fresh).
  assert (H3 : h2 !! l3 = None) by (apply not_elem_of_dom, is_fresh).
  assert (H32 : l3 <> l2).
  { intros E. rewrite E in H3. unfold h2 in H3. rewrite lookup_insert_eq in H3.
    discriminate. }
  eexists. split; [exact Hinit|]. split; [|split; [|split]].
  - unfold registered_names.
    constructor; [|constructor; [|constructor; [|constructor]]].
    + exists (ptr_ed25519Signer l1).
      split; [registry_lookup|]. split; [discriminate|reflexivity].
    + exists (ptr_ecdsaSigner l2).
      split; [registry_lookup|]. split; [discriminate|].
      cbn [Algorithm_Name memory heap].
      rewrite lookup_insert_ne by exact H32. unfold h2.
      rewrite lookup_insert_eq. reflexivity.
    + exists (ptr_ecdsaSigner l3).
      split; [registry_lookup|]. split; [discriminate|].
      cbn [Algorithm_Name memory heap]. rewrite lookup_insert_eq. reflexivity.
  - intros name Hname. cbn [registry].
    rewrite !lookup_insert_ne; [reflexivity|..];
      intros <-; apply Hname; cbn; auto.
  - intros l o Hl. cbn [memory heap].
    assert (l <> l1) by congruence.
    assert (Hl1 : h1 !! l = Some o) by (unfold h1; rewrite lookup_insert_ne; auto).
    assert (l <> l2) by congruence.
    assert (Hl2 : h2 !! l = Some o) by (unfold h2; rewrite lookup_insert_ne; auto).
    assert (l <> l3) by congruence.
    rewrite lookup_insert_ne by auto. exact Hl2.
  - intros name. rewrite !In_GetAlgorithms. cbn [registry].
    unfold registered_names. cbn [In].
    destruct (decide ("ecdsa-sha384-nistp384" = name)) as [<-|N3].
    { rewrite lookup_insert_eq. split; eauto 6. }
    rewrite lookup_insert_ne by exact N3.
    destruct (decide ("ecdsa-sha2-nistp256" = name)) as [<-|N2].
    { rewrite lookup_insert_eq. split; eauto 6. }
    rewrite lookup_insert_ne by exact N2.
    destruct (decide ("ed25519" = name)) as [<-|N1].
    { rewrite lookup_insert_eq. split; eauto 6. }
    rewrite lookup_insert_ne by exact N1.
    split; [auto|]. intros [[?|[?|[?|[]]]]|H]; congruence.
Qed.

(** X22.  The three algorithms that a lookup returns once [init] has run
    are the three signers: a call of [Sign] or [Verify] through the
    returned interface value is the call of the same method of the
    Ed25519 signer, of the ECDSA signer for P-256 with SHA-256 and of the
    ECDSA signer for P-384 with SHA-384, under the name of each. *)
Theorem looked_up_algorithms_are_the_signers `{Std : GoStd} (st st' : State) :
  init st = Returns st' ->
  exists a1 a2 a3,
    GetAlgorithm "ed25519" st' = Returns (a1, st')
    /\ GetAlgorithm "ecdsa-sha2-nistp256" st' = Returns (a2, st')
    /\ GetAlgorithm "ecdsa-sha384-nistp384" st' = Returns (a3, st')
    /\ forall msg key opts signature,
         (Algorithm_Sign (memory st') a1 msg key opts
          = ed25519Signer_Sign mk_ed25519Signer msg key opts
          /\ Algorithm_Verify (memory st') a1 msg signature key
             = ed25519Signer_Verify mk_ed25519Signer msg signature key)
         /\ (Algorithm_Sign (memory st') a2 msg key opts
             = ecdsaSigner_Sign ecdsaSigner_P256 msg key opts
             /\ Algorithm_Verify (memory st') a2 msg signature key
                = ecdsaSigner_Verify ecdsaSigner_P256 msg signature key)
         /\ (Algorithm_Sign (memory st') a3 msg key opts
             = ecdsaSigner_Sign ecdsaSigner_P384 msg key opts
             /\ Algorithm_Verify (memory st') a3 msg signature key
                = ecdsaSigner_Verify ecdsaSigner_P384 msg signature key).
Proof.
  pose proof (init_computes st) as Hinit. cbv zeta in Hinit.
  set (h0 := heap (memory st)) in *.
  set (l1 := fresh (dom h0)) in *.
  set (h1 := <[l1 := obj_ed25519Signer mk_ed25519Signer]> h0) in *.
  set (l2 := fresh (dom h1)) in *.
  set (h2 := <[l2 := obj_ecdsaSigner ecdsaSigner_P256]> h1) in *.
  set (l3 := fresh (dom h2)) in *.
  intros H. rewrite Hinit in H. injection H as <-.
  assert (H3 : h2 !! l3 = None) by (apply not_elem_of_dom, is_fresh).
  assert (H32 : l3 <> l2).
  { intros E. rewrite E in H3. unfold h2 in H3. rewrite lookup_insert_eq in H3.
    discriminate. }
  exists (ptr_ed25519Signer l1), (ptr_ecdsaSigner l2), (ptr_ecdsaSigner l3).
  split; [registry_lookup|]. split; [registry_lookup|]. split; [registry_lookup|].
  intros msg key opts signature.
  cbn [Algorithm_Sign Algorithm_Verify memory heap].
  rewrite lookup_insert_eq, (lookup_insert_ne _ l3 l2) by exact H32.
  unfold h2. rewrite lookup_insert_eq. repeat split.
Qed.

(** A custom registration beside the algorithms of [init] (a nil
    builder, under a name of its own), and the lookup of ["ed25519"]. *)
Lemma registration_keeps_the_other_names_witness :
  GetAlgorithm "ed25519" (RegisterAlgorithm "custom" None initialised_State)
  = Returns (Ed25519 (memory initialised_State),
             RegisterAlgorithm "custom" None initialised_State).
Proof.
  rewrite (registration_keeps_the_other_names "custom" "ed25519" None initialised_State)
    by discriminate.
  reflexivity.
Defined.

(** The lookups of [Test_registry_All], in the state that [init] leaves. *)
Lemma GetAlgorithm_keeps_the_registry_witness :
  registry initialised_State = registry initialised_State
  /\ GetAlgorithms initialised_State = GetAlgorithms initialised_State
  /\ (Ed25519 (memory initialised_State) <> nil_Algorithm ->
      In "ed25519" (GetAlgorithms initialised_State)).
Proof.
  apply (GetAlgorithm_keeps_the_registry "ed25519" initialised_State initialised_State
           (Ed25519 (memory initialised_State))).
  vm_compute. reflexivity.
Defined.

(** The registered algorithms of the process: [init] run on the initial
    state. *)
Lemma looked_up_algorithms_are_the_signers_witness :
  exists a1 a2 a3,
    GetAlgorithm "ed25519" initialised_State = Returns (a1, initialised_State)
    /\ GetAlgorithm "ecdsa-sha2-nistp256" initialised_State
       = Returns (a2, initialised_State)
    /\ GetAlgorithm "ecdsa-sha384-nistp384" initialised_State
       = Returns (a3, initialised_State)
    /\ forall msg key opts signature,
         (Algorithm_Sign (memory initialised_State) a1 msg key opts
          = ed25519Signer_Sign mk_ed25519Signer msg key opts
          /\ Algorithm_Verify (memory initialised_State) a1 msg signature key
             = ed25519Signer_Verify mk_ed25519Signer msg signature key)
         /\ (Algorithm_Sign (memory initialised_State) a2 msg key opts
             = ecdsaSigner_Sign ecdsaSigner_P256 msg key opts
             /\ Algorithm_Verify (memory initialised_State) a2 msg signature key
                = ecdsaSigner_Verify ecdsaSigner_P256 msg signature key)
         /\ (Algorithm_Sign (memory initialised_State) a3 msg key opts
             = ecdsaSigner_Sign ecdsaSigner_P384 msg key opts
             /\ Algorithm_Verify (memory initialised_State) a3 msg signature key
                = ecdsaSigner_Verify ecdsaSigner_P384 msg signature key).
Proof.
  exact (looked_up_algorithms_are_the_signers (Std := GoRef)
           initial_State initialised_State init_returns).
Defined.

(** The envelopes of the test keys, with their private parts. *)
Lemma public_part_of_accepted_envelope_is_accepted_witness :
  unmarshalEd25519Key (Some {| Public := test_public; Private := None |})
  = (val_ed25519_PublicKey test_public, None)
  /\ exists pub,
       ecdsa_public_of (ptr_ecdsa_PrivateKey (Some test_ecdsa_private)) = Some pub
       /\ unmarshalECDSAKey (Some test_ecdsa_public_envelope)
          = (ptr_ecdsa_PublicKey (Some pub), None).
Proof.
  split.
  - apply (proj1 (public_part_of_accepted_envelope_is_accepted (Std := GoRef)
                    {| Public := test_public; Private := Some test_private |}
                    (val_ed25519_PrivateKey test_private))).
    exact unmarshalEd25519Key_test_private.
  - apply (proj2 (public_part_of_accepted_envelope_is_accepted (Std := GoRef)
                    test_ecdsa_envelope
                    (ptr_ecdsa_PrivateKey (Some test_ecdsa_private)))).
    exact (proj1 unmarshalECDSAKey_test_envelope).
Defined.

(** The envelope that the empty JSON object decodes to. *)
Lemma envelope_without_public_part_is_rejected_witness :
  unmarshalEd25519Key (Some {| Public := []; Private := None |})
  = failed (errors_New "key: unexpected public key length for ed25519 key")
  /\ unmarshalECDSAKey (Some {| Public := []; Private := None |})
     = failed (errors_New "key: invalid public key size").
Proof.
  pose proof (envelope_without_public_part_is_rejected (Std := GoRef)
                {| Public := []; Private := None |} eq_refl) as (Hed & Hec & _).
  split; [exact Hed|exact Hec].
Defined.
